(** * Mission Control: a shallow embedding of the mission lifecycle

    The development follows the TypeScript sources of the repository:
    [types/mission.ts], [types/validation.ts], [types/state.ts],
    [utils/errors.ts], [core/AttemptCounter.ts], [core/MissionDefiner.ts],
    [validators/*.ts], [state/StateManager.ts] and the tools
    [defineMission.ts], [submitAttempt.ts] and [abortMission.ts].

    Conventions of the embedding.
    - A JavaScript [number] that counts attempts is an integer ([Z]); a
      [number] that is measured or compared by a validator is an exact
      rational ([Q]).  [NaN], the infinities and rounding are outside the
      model.
    - A [string] is a sequence of code units below 256.
    - A [Map<string, V>] is a [gmap string V]; the order in which a [Map] is
      iterated is not kept.
    - A function that may [throw] returns a [Result]; an object mutated in
      place is returned in its new state next to the result.
    - A mission object is held by the map of the store: an assignment to one
      of its properties is an update of the map ([StateManager.assign]).
    - [new Date()] reads a [Clock]: the k-th reading made by one operation is
      [clock k].
    - What the JavaScript runtime supplies (printing a number inside a
      template literal, [Date.prototype.toISOString], [new Date(string)],
      [path.join], the message of an engine's [TypeError]) is a [Runtime]
      instance.
    - Of the log, only the warnings of [AttemptCounter] are kept; the
      persistence metrics, the debounce timer's delay and the feedback texts
      of [FeedbackEngine] are left out. *)

From Stdlib Require Import ZArith QArith Qabs String Ascii List Lia Bool.
From Stdlib Require Import DecimalString DecimalZ.
From stdpp Require Import base option list gmap strings.

Local Open Scope string_scope.
Local Open Scope list_scope.
Local Open Scope Z_scope.

(** ** JavaScript values and the runtime *)

(** A value of type [unknown], as the tools receive it from the transport. *)
Inductive JsValue : Type :=
  | JUndefined
  | JNull
  | JBool (b : bool)
  | JNum (q : Q)
  | JStr (s : string)
  | JObject.

(** [new Date(...)]: a time value in milliseconds, or an Invalid Date. *)
Inductive Date : Type :=
  | TimeValue (t : Z)
  | InvalidDate.

(** Time values a [Date] can hold (ECMAScript: at most 8.64e15 ms from the
    epoch). *)
Definition validTime (t : Z) : Prop :=
  -8640000000000000 <= t <= 8640000000000000.

Class Runtime : Type := {
  numberToString : Q -> string;
  toISOString : Z -> string;
  parseDate : string -> Date;
  (** [path.join(dir, file)]. *)
  pathJoin : string -> string -> string;
  (** The message of the [TypeError] that [for (... of serialized.missions)]
      throws when [serialized.missions] cannot be iterated. *)
  notIterable : string
}.

(** Successive readings of [new Date()] inside one operation. *)
Definition Clock : Type := nat -> Z.

Definition now (clock : Clock) (k : nat) : Date := TimeValue (clock k).

(** Truthiness ([!x], [x ? a : b], [x || y]). *)
Definition truthy (v : JsValue) : bool :=
  match v with
  | JUndefined | JNull => false
  | JBool b => b
  | JNum q => negb (Qeq_bool q 0)
  | JStr s => negb (String.eqb s EmptyString)
  | JObject => true
  end.

(** [x ?? d]. *)
Definition nullish (v d : JsValue) : JsValue :=
  match v with
  | JUndefined | JNull => d
  | _ => v
  end.

(** A [Record<string, unknown>]: reading an absent property gives
    [undefined]. *)
Definition getProp (o : gmap string JsValue) (k : string) : JsValue :=
  default JUndefined (o !! k).

(** ** utils/errors.ts *)

Inductive Error : Type :=
  | PlainError (message : string)
  | RangeError (message : string)
  | TypeError (message : string)
  | MissionNotFoundError (missionId : string) (availableMissions : Z)
      (suggestion : string)
  | MissionExistsError (missionId : string)
  | MaxAttemptsExceededError (missionId : string) (maxAttempts : Z)
  | InvalidCriteriaError (reason : string)
  | StatePersistenceError (operation reason : string)
  | StateCorruptedError (filePath reason : string)
  | ValidationError (reason : string).

Inductive Result (A : Type) : Type :=
  | Ok (a : A)
  | Throw (e : Error).
Arguments Ok {A} a.
Arguments Throw {A} e.

Definition isOk {A : Type} (r : Result A) : bool :=
  match r with Ok _ => true | Throw _ => false end.

Definition bind {A B : Type} (r : Result A) (k : A -> Result B) : Result B :=
  match r with
  | Ok a => k a
  | Throw e => Throw e
  end.

Notation "'do' x <- r ; k" := (bind r (fun x => k))
  (at level 10, x name, r at level 100, k at level 200).

Section ErrorMessage.
Context `{Runtime}.

Definition showZ (n : Z) : string := numberToString (inject_Z n).

(** [error.message], as the constructors of errors.ts compose it. *)
Definition errorMessage (e : Error) : string :=
  match e with
  | PlainError m => m
  | RangeError m => m
  | TypeError m => m
  | MissionNotFoundError id n s =>
      "Mission not found: " +:+ id +:+ ". Available missions: " +:+ showZ n
      +:+ (if String.eqb s EmptyString then EmptyString else ". " +:+ s)
  | MissionExistsError id => "Mission already exists: " +:+ id
  | MaxAttemptsExceededError id n =>
      "Mission " +:+ id +:+ " exceeded maximum attempts (" +:+ showZ n +:+ ")"
  | InvalidCriteriaError r => "Invalid validation criteria: " +:+ r
  | StatePersistenceError op r =>
      "State persistence failed (" +:+ op +:+ "): " +:+ r
  | StateCorruptedError p r =>
      "State persistence failed (load): Corrupted state file at " +:+ p
      +:+ ": " +:+ r
  | ValidationError r => "Validation failed: " +:+ r
  end.
End ErrorMessage.

(** ** utils/logger.ts: the calls made on the shared logger *)

Inductive LogEntry : Type :=
  | LogWarn (message : string).

(** ** core/AttemptCounter.ts *)

Module AttemptCounter.

Record AttemptCounterConfig : Type := {
  maxAttempts : Z;
  warnThreshold : option Z
}.

(** The counter object: [currentAttempt] and the normalised config. *)
Record t : Type := {
  currentAttempt : Z;
  config_maxAttempts : Z;
  config_warnThreshold : Z
}.

Definition new (config : AttemptCounterConfig) : t :=
  {| currentAttempt := 0;
     config_maxAttempts := maxAttempts config;
     config_warnThreshold := default 3 (warnThreshold config) |}.

Section WithRuntime.
Context `{Runtime}.

Definition fromCurrentAttempt (n : Z) (config : AttemptCounterConfig)
  : Result t * list LogEntry :=
  if n <? 0 then
    (Throw (PlainError ("currentAttempt cannot be negative, got " +:+ showZ n)),
     [])
  else if n >? maxAttempts config then
    (Throw (MaxAttemptsExceededError "mission" (maxAttempts config)), [])
  else
    let instance := new config in
    (Ok {| currentAttempt := n;
           config_maxAttempts := config_maxAttempts instance;
           config_warnThreshold := config_warnThreshold instance |},
     []).

Definition getRemainingAttempts (c : t) : Z :=
  Z.max 0 (config_maxAttempts c - currentAttempt c).

(** [increment()]: the counter after the call (it keeps the overshoot
    when the call throws), what the call returns, and the warnings it
    logs. *)
Definition increment (c : t) : t * Result Z * list LogEntry :=
  let c' := {| currentAttempt := currentAttempt c + 1;
               config_maxAttempts := config_maxAttempts c;
               config_warnThreshold := config_warnThreshold c |} in
  if currentAttempt c' >? config_maxAttempts c' then
    (c', Throw (MaxAttemptsExceededError "mission" (config_maxAttempts c')), [])
  else
    let remaining := getRemainingAttempts c' in
    let log :=
      if (remaining <=? config_warnThreshold c') && (remaining >? 0)
      then [LogWarn ("Approaching attempt limit: " +:+ showZ remaining
                     +:+ " attempts remaining")]
      else [] in
    (c', Ok (currentAttempt c'), log).
End WithRuntime.

Definition getCurrentAttempt (c : t) : Z := currentAttempt c.

Definition hasAttemptsRemaining (c : t) : bool :=
  currentAttempt c <? config_maxAttempts c.

Definition reset (c : t) : t :=
  {| currentAttempt := 0;
     config_maxAttempts := config_maxAttempts c;
     config_warnThreshold := config_warnThreshold c |}.

Definition isNearingLimit (c : t) : bool :=
  Z.max 0 (config_maxAttempts c - currentAttempt c) <=? config_warnThreshold c.

End AttemptCounter.

(** ** Strings: what the validators use of [String.prototype] and [RegExp] *)

Module Str.

Definition code (c : ascii) : N := N_of_ascii c.

Definition isDigit (c : ascii) : bool :=
  (48 <=? code c)%N && (code c <=? 57)%N.

(** The class [\s], for code units below 256. *)
Definition isSpace (c : ascii) : bool :=
  ((9 <=? code c)%N && (code c <=? 13)%N)
  || (code c =? 32)%N || (code c =? 160)%N.

(** The class [[:\s]]. *)
Definition isSep (c : ascii) : bool :=
  (code c =? 58)%N || isSpace c.

Definition lowerChar (c : ascii) : ascii :=
  let n := code c in
  if ((65 <=? n)%N && (n <=? 90)%N)
     || ((192 <=? n)%N && (n <=? 222)%N && negb (n =? 215)%N)
  then ascii_of_N (n + 32) else c.

(** Case folding of the [i] flag: only an ASCII letter matches an ASCII
    letter of the pattern. *)
Definition foldChar (c : ascii) : ascii :=
  let n := code c in
  if (65 <=? n)%N && (n <=? 90)%N then ascii_of_N (n + 32) else c.

Fixpoint toLowerCase (s : string) : string :=
  match s with
  | EmptyString => EmptyString
  | String c r => String (lowerChar c) (toLowerCase r)
  end.

Fixpoint startsWith (s p : string) : bool :=
  match p, s with
  | EmptyString, _ => true
  | String _ _, EmptyString => false
  | String a p', String b s' => Ascii.eqb a b && startsWith s' p'
  end.

(** [s.includes(k)]. *)
Fixpoint includes (s k : string) : bool :=
  startsWith s k
  || match s with
     | EmptyString => false
     | String _ r => includes r k
     end.

(** Length as a binary number, and [s.substring(0, n)]. *)
Fixpoint length (s : string) : N :=
  match s with
  | EmptyString => 0%N
  | String _ r => N.succ (length r)
  end.

Fixpoint take (n : N) (s : string) : string :=
  match s with
  | EmptyString => EmptyString
  | String c r => if (n =? 0)%N then EmptyString else String c (take (N.pred n) r)
  end.

(** The longest prefix of digits, and what follows it. *)
Fixpoint spanDigits (s : string) : string * string :=
  match s with
  | EmptyString => (EmptyString, EmptyString)
  | String c r =>
      if isDigit c then let '(d, t) := spanDigits r in (String c d, t)
      else (EmptyString, s)
  end.

Fixpoint skipWhile (p : ascii -> bool) (s : string) : string :=
  match s with
  | EmptyString => EmptyString
  | String c r => if p c then skipWhile p r else s
  end.

(** A literal of the pattern matched at the head of [s] under the [i]
    flag; the rest of [s] on success. *)
Fixpoint stripLiteral (lit s : string) : option string :=
  match lit, s with
  | EmptyString, _ => Some s
  | String _ _, EmptyString => None
  | String a lit', String b s' =>
      if Ascii.eqb (foldChar a) (foldChar b) then stripLiteral lit' s' else None
  end.

(** Value of a string of decimal digits. *)
Fixpoint digitsValue (acc : Z) (s : string) : Z :=
  match s with
  | EmptyString => acc
  | String c r => digitsValue (10 * acc + (Z.of_N (code c) - 48)) r
  end.

(** The leftmost position at which [m] matches. *)
Fixpoint search {A : Type} (m : string -> option A) (s : string) : option A :=
  match m s with
  | Some a => Some a
  | None =>
      match s with
      | EmptyString => None
      | String _ r => search m r
      end
  end.

(** [/-?\d+\.?\d*/] at the head of [s], read by [parseFloat]. *)
Definition numberAt (s : string) : option Q :=
  let '(neg, s1) :=
    match s with
    | String "-"%char r => (true, r)
    | _ => (false, s)
    end in
  let '(ds, r) := spanDigits s1 in
  if String.eqb ds EmptyString then None
  else
    let fs :=
      match r with
      | String "."%char r' => fst (spanDigits r')
      | _ => EmptyString
      end in
    let q := Qred (Qmake (digitsValue 0 (ds +:+ fs))
                         (Z.to_pos (10 ^ Z.of_N (length fs)))) in
    Some (if neg then Qred (Qopp q) else q).

(** [[:\s]+(\d+)] at the head of [s], the group read by [parseInt]. *)
Definition sepDigitsAt (s : string) : option Q :=
  match s with
  | String c _ =>
      if isSep c then
        let '(ds, _) := spanDigits (skipWhile isSep s) in
        if String.eqb ds EmptyString then None else Some (inject_Z (digitsValue 0 ds))
      else None
  | EmptyString => None
  end.

(** [/exit\s*code[:\s]+(\d+)/i] at the head of [s]. *)
Definition exitCodeAt (s : string) : option Q :=
  r1 ← stripLiteral "exit" s;
  r2 ← stripLiteral "code" (skipWhile isSpace r1);
  sepDigitsAt r2.

(** [/returned[:\s]+(\d+)/i] and [/status[:\s]+(\d+)/i] at the head of
    [s]. *)
Definition wordCodeAt (word s : string) : option Q :=
  r ← stripLiteral word s; sepDigitsAt r.

(** [/^(\d+)$/]. *)
Definition bareCode (s : string) : option Q :=
  let '(ds, r) := spanDigits s in
  if String.eqb ds EmptyString || negb (String.eqb r EmptyString) then None
  else Some (inject_Z (digitsValue 0 ds)).

End Str.

(** ** types/validation.ts *)

Inductive NumericOperator : Type :=
  | GREATER_THAN | LESS_THAN | GREATER_EQUAL | LESS_EQUAL | EQUAL | NOT_EQUAL.

Definition operatorSymbol (o : NumericOperator) : string :=
  match o with
  | GREATER_THAN => ">" | LESS_THAN => "<" | GREATER_EQUAL => ">="
  | LESS_EQUAL => "<=" | EQUAL => "==" | NOT_EQUAL => "!="
  end.

(** The criteria object a tool builds from its input: every property is
    still [unknown]; a property that was not set reads [undefined]. *)
Module CriteriaObject.
Record t : Type := {
  strategy : JsValue;
  operator : JsValue;
  threshold : JsValue;
  metricName : JsValue;
  expectedCode : JsValue;
  command : JsValue;
  keyword : JsValue;
  mustContain : JsValue;
  caseSensitive : JsValue
}.
End CriteriaObject.

(** [AnyCriteria], at the types that [MissionDefiner.validateCriteria]
    establishes: it checks [threshold], [expectedCode], [keyword] and
    [mustContain] with [typeof], [operator] for truthiness only, and the
    optional properties not at all. *)
Inductive AnyCriteria : Type :=
  | NumericCriteria (operator : JsValue) (threshold : Q) (metricName : JsValue)
  | ExitCodeCriteria (expectedCode : Q) (command : JsValue)
  | KeywordCriteria (keyword : string) (mustContain : bool)
      (caseSensitive : JsValue).

(** [number | string] *)
Inductive Value : Type :=
  | VNum (q : Q)
  | VStr (s : string).

Module ValidationResult.
Record t : Type := {
  passed : bool;
  actualValue : option Value;
  expectedValue : option Value;
  message : string;
  timestamp : Date
}.
End ValidationResult.

(** ** validators *)

Section Validators.
Context `{Runtime}.

(** [`${v}`] *)
Definition jsToString (v : JsValue) : string :=
  match v with
  | JUndefined => "undefined"
  | JNull => "null"
  | JBool true => "true"
  | JBool false => "false"
  | JNum q => numberToString q
  | JStr s => s
  | JObject => "[object Object]"
  end.

(** BaseValidator.createResult *)
Definition createResult (clock : Clock) (k : nat) (passed : bool)
    (message : string) (actualValue expectedValue : option Value)
  : ValidationResult.t :=
  {| ValidationResult.passed := passed;
     ValidationResult.actualValue := actualValue;
     ValidationResult.expectedValue := expectedValue;
     ValidationResult.message := message;
     ValidationResult.timestamp := now clock k |}.

(** *** NumericValidator *)

(** [text.match(/-?\d+\.?\d*/)] read by [parseFloat]: the first match, as
    the decimal that it writes.  [parseFloat] returns the double nearest to
    that decimal; the rounding is not modelled. *)
Definition extractNumber (text : string) : option Q :=
  Str.search Str.numberAt text.

(** The [case] labels of [compare]: strict equality with the enum's
    strings. *)
Definition asOperator (v : JsValue) : option NumericOperator :=
  match v with
  | JStr s =>
      if String.eqb s ">" then Some GREATER_THAN
      else if String.eqb s "<" then Some LESS_THAN
      else if String.eqb s ">=" then Some GREATER_EQUAL
      else if String.eqb s "<=" then Some LESS_EQUAL
      else if String.eqb s "==" then Some EQUAL
      else if String.eqb s "!=" then Some NOT_EQUAL
      else None
  | _ => None
  end.

(** The comparisons are made on the numbers themselves.  The code makes
    them on doubles: where [actual - threshold] lies within a rounding
    error of [0.0001], the answers for [==] and [!=] can differ from the
    ones given here. *)
Definition compare (actual : Q) (operator : JsValue) (threshold : Q)
  : Result bool :=
  match asOperator operator with
  | Some GREATER_THAN => Ok (negb (Qle_bool actual threshold))
  | Some LESS_THAN => Ok (negb (Qle_bool threshold actual))
  | Some GREATER_EQUAL => Ok (Qle_bool threshold actual)
  | Some LESS_EQUAL => Ok (Qle_bool actual threshold)
  | Some EQUAL => Ok (negb (Qle_bool (1 # 10000) (Qabs (actual - threshold))))
  | Some NOT_EQUAL => Ok (Qle_bool (1 # 10000) (Qabs (actual - threshold)))
  | None => Throw (ValidationError ("Unknown operator: " +:+ jsToString operator))
  end.

Definition negateOperator (operator : JsValue) : string :=
  match asOperator operator with
  | Some GREATER_THAN => "<="
  | Some LESS_THAN => ">="
  | Some GREATER_EQUAL => "<"
  | Some LESS_EQUAL => ">"
  | Some EQUAL => "!="
  | Some NOT_EQUAL => "=="
  | None => "undefined"
  end.

Definition NumericValidator_validate (operator : JsValue) (threshold : Q)
    (clock : Clock) (output : string) (value : option Value)
  : Result ValidationResult.t :=
  let actualValue :=
    match value with
    | Some (VNum n) => Some n
    | _ => extractNumber output
    end in
  match actualValue with
  | None =>
      Ok (createResult clock 0 false
            "Failed to extract numeric value from output"
            None (Some (VNum threshold)))
  | Some actual =>
      do passed <- compare actual operator threshold;
      let message :=
        if passed
        then "Validation passed: " +:+ numberToString actual +:+ " "
             +:+ jsToString operator +:+ " " +:+ numberToString threshold
        else "Validation failed: " +:+ numberToString actual +:+ " "
             +:+ negateOperator operator +:+ " " +:+ numberToString threshold in
      Ok (createResult clock 0 passed message
            (Some (VNum actual)) (Some (VNum threshold)))
  end.

(** *** ExitCodeValidator *)

(** The patterns are tried in order, each over the whole text. *)
Definition extractExitCode (text : string) : option Q :=
  match Str.search Str.exitCodeAt text with
  | Some n => Some n
  | None =>
      match Str.search (Str.wordCodeAt "returned") text with
      | Some n => Some n
      | None =>
          match Str.search (Str.wordCodeAt "status") text with
          | Some n => Some n
          | None => Str.bareCode text
          end
      end
  end.

Definition ExitCodeValidator_validate (expectedCode : Q)
    (clock : Clock) (output : string) (value : option Value)
  : Result ValidationResult.t :=
  let actualCode :=
    match value with
    | Some (VNum n) => Some n
    | _ => extractExitCode output
    end in
  match actualCode with
  | None =>
      Ok (createResult clock 0 false
            "Failed to extract exit code from output"
            None (Some (VNum expectedCode)))
  | Some actual =>
      let passed := Qeq_bool actual expectedCode in
      let message :=
        if passed
        then "Command succeeded with exit code " +:+ numberToString actual
        else "Command failed with exit code " +:+ numberToString actual
             +:+ " (expected " +:+ numberToString expectedCode +:+ ")" in
      Ok (createResult clock 0 passed message
            (Some (VNum actual)) (Some (VNum expectedCode)))
  end.

(** *** KeywordValidator *)

(** [k] between double quotes. *)
Definition quoted (k : string) : string :=
  String (ascii_of_N 34) (k +:+ String (ascii_of_N 34) EmptyString).

Definition KeywordValidator_validate (keyword : string) (mustContain : bool)
    (caseSensitive : JsValue)
    (clock : Clock) (output : string) (_value : option Value)
  : Result ValidationResult.t :=
  let caseSensitive := truthy (nullish caseSensitive (JBool true)) in
  let searchText := if caseSensitive then output else Str.toLowerCase output in
  let searchKeyword :=
    if caseSensitive then keyword else Str.toLowerCase keyword in
  let contains := Str.includes searchText searchKeyword in
  let passed := if mustContain then contains else negb contains in
  let message :=
    if passed then
      if mustContain
      then "Output contains required keyword: " +:+ quoted keyword
      else "Output correctly excludes keyword: " +:+ quoted keyword
    else
      if mustContain
      then "Output missing required keyword: " +:+ quoted keyword
      else "Output unexpectedly contains keyword: " +:+ quoted keyword in
  Ok (createResult clock 0 passed message
        (Some (VStr (if contains then "found" else "not found")))
        (Some (VStr keyword))).

(** The validator that [getValidator] selects, applied: the
    [validator.validate(output, value)] of the tools. *)
Definition validate (criteria : AnyCriteria) (clock : Clock)
    (output : string) (value : option Value) : Result ValidationResult.t :=
  match criteria with
  | NumericCriteria operator threshold _ =>
      NumericValidator_validate operator threshold clock output value
  | ExitCodeCriteria expectedCode _ =>
      ExitCodeValidator_validate expectedCode clock output value
  | KeywordCriteria keyword mustContain caseSensitive =>
      KeywordValidator_validate keyword mustContain caseSensitive
        clock output value
  end.
End Validators.

(** ** types/mission.ts *)

Inductive MissionState : Type :=
  | PENDING | IN_PROGRESS | COMPLETED | FAILED | ABORTED.

Definition MissionState_eqb (a b : MissionState) : bool :=
  match a, b with
  | PENDING, PENDING | IN_PROGRESS, IN_PROGRESS | COMPLETED, COMPLETED
  | FAILED, FAILED | ABORTED, ABORTED => true
  | _, _ => false
  end.

(** The states the spec calls terminal. *)
Definition terminal (s : MissionState) : bool :=
  match s with
  | COMPLETED | FAILED | ABORTED => true
  | PENDING | IN_PROGRESS => false
  end.

Module Attempt.
Record t : Type := {
  attemptNumber : Z;
  timestamp : Date;
  output : string;
  value : option Value;
  validationResult : ValidationResult.t;
  duration : option Q
}.
End Attempt.

Module MissionConfig.
Record t : Type := {
  id : string;
  goal : string;
  criteria : AnyCriteria;
  maxAttempts : option Z;
  enableCheckpoints : option bool;
  checkpointFrequency : option Z;
  attemptTimeout : option Z
}.
End MissionConfig.

Module Mission.
Record t : Type := {
  config : MissionConfig.t;
  state : MissionState;
  createdAt : Date;
  updatedAt : Date;
  attempts : list Attempt.t;
  currentAttempt : Z;
  completedAt : option Date;
  success : option bool;
  errorMessage : option string
}.

(** Assignments to one property of a mission object. *)
Definition set_state (v : MissionState) (m : t) : t :=
  {| config := config m; state := v; createdAt := createdAt m;
     updatedAt := updatedAt m; attempts := attempts m;
     currentAttempt := currentAttempt m; completedAt := completedAt m;
     success := success m; errorMessage := errorMessage m |}.

Definition set_updatedAt (v : Date) (m : t) : t :=
  {| config := config m; state := state m; createdAt := createdAt m;
     updatedAt := v; attempts := attempts m;
     currentAttempt := currentAttempt m; completedAt := completedAt m;
     success := success m; errorMessage := errorMessage m |}.

Definition set_attempts (v : list Attempt.t) (m : t) : t :=
  {| config := config m; state := state m; createdAt := createdAt m;
     updatedAt := updatedAt m; attempts := v;
     currentAttempt := currentAttempt m; completedAt := completedAt m;
     success := success m; errorMessage := errorMessage m |}.

Definition set_currentAttempt (v : Z) (m : t) : t :=
  {| config := config m; state := state m; createdAt := createdAt m;
     updatedAt := updatedAt m; attempts := attempts m;
     currentAttempt := v; completedAt := completedAt m;
     success := success m; errorMessage := errorMessage m |}.

Definition set_completedAt (v : Date) (m : t) : t :=
  {| config := config m; state := state m; createdAt := createdAt m;
     updatedAt := updatedAt m; attempts := attempts m;
     currentAttempt := currentAttempt m; completedAt := Some v;
     success := success m; errorMessage := errorMessage m |}.

Definition set_success (v : bool) (m : t) : t :=
  {| config := config m; state := state m; createdAt := createdAt m;
     updatedAt := updatedAt m; attempts := attempts m;
     currentAttempt := currentAttempt m; completedAt := completedAt m;
     success := Some v; errorMessage := errorMessage m |}.

Definition set_errorMessage (v : string) (m : t) : t :=
  {| config := config m; state := state m; createdAt := createdAt m;
     updatedAt := updatedAt m; attempts := attempts m;
     currentAttempt := currentAttempt m; completedAt := completedAt m;
     success := success m; errorMessage := Some v |}.
End Mission.

(** ** core/MissionDefiner.ts *)

Module MissionDefiner.

Record DefineMissionParams : Type := {
  goal : string;
  criteria : CriteriaObject.t;
  maxAttempts : option Z;
  enableCheckpoints : option bool;
  checkpointFrequency : option Z;
  attemptTimeout : option Z
}.

Section WithRuntime.
Context `{Runtime}.

(** [validateCriteria] returns nothing; the embedding returns the object
    it was given, at the types its checks have established. *)
Definition validateCriteria (c : CriteriaObject.t) : Result AnyCriteria :=
  if negb (truthy (CriteriaObject.strategy c)) then
    Throw (InvalidCriteriaError "Strategy must be specified")
  else
    match CriteriaObject.strategy c with
    | JStr s =>
        if String.eqb s "NUMERIC" then
          match CriteriaObject.threshold c with
          | JNum threshold =>
              if negb (truthy (CriteriaObject.operator c)) then
                Throw (InvalidCriteriaError "NUMERIC strategy requires operator")
              else
                Ok (NumericCriteria (CriteriaObject.operator c) threshold
                      (CriteriaObject.metricName c))
          | _ =>
              Throw (InvalidCriteriaError
                       "NUMERIC strategy requires threshold (number)")
          end
        else if String.eqb s "EXIT_CODE" then
          match CriteriaObject.expectedCode c with
          | JNum expectedCode =>
              Ok (ExitCodeCriteria expectedCode (CriteriaObject.command c))
          | _ =>
              Throw (InvalidCriteriaError
                       "EXIT_CODE strategy requires expectedCode (number)")
          end
        else if String.eqb s "KEYWORD" then
          match CriteriaObject.keyword c with
          | JStr keyword =>
              if (Str.length keyword =? 0)%N then
                Throw (InvalidCriteriaError
                         "KEYWORD strategy requires non-empty keyword (string)")
              else
                match CriteriaObject.mustContain c with
                | JBool mustContain =>
                    Ok (KeywordCriteria keyword mustContain
                          (CriteriaObject.caseSensitive c))
                | _ =>
                    Throw (InvalidCriteriaError
                             "KEYWORD strategy requires mustContain (boolean)")
                end
          | _ =>
              Throw (InvalidCriteriaError
                       "KEYWORD strategy requires non-empty keyword (string)")
          end
        else Throw (InvalidCriteriaError ("Unknown strategy: " +:+ s))
    | v => Throw (InvalidCriteriaError ("Unknown strategy: " +:+ jsToString v))
    end.

(** [uuid] is the identifier that [uuidv4()] draws. *)
Definition defineMission (params : DefineMissionParams) (uuid : string)
    (clock : Clock) : Result Mission.t :=
  do criteria <- validateCriteria (criteria params);
  let config :=
    {| MissionConfig.id := uuid;
       MissionConfig.goal := goal params;
       MissionConfig.criteria := criteria;
       MissionConfig.maxAttempts := Some (default 10 (maxAttempts params));
       MissionConfig.enableCheckpoints :=
         Some (default false (enableCheckpoints params));
       MissionConfig.checkpointFrequency :=
         Some (default 5 (checkpointFrequency params));
       MissionConfig.attemptTimeout := attemptTimeout params |} in
  Ok {| Mission.config := config;
        Mission.state := PENDING;
        Mission.createdAt := now clock 0;
        Mission.updatedAt := now clock 1;
        Mission.attempts := [];
        Mission.currentAttempt := 0;
        Mission.completedAt := None;
        Mission.success := None;
        Mission.errorMessage := None |}.
End WithRuntime.

End MissionDefiner.

(** ** types/state.ts *)

Module Checkpoint.
Record t : Type := {
  id : string;
  missionId : string;
  timestamp : Date;
  missionSnapshot : Mission.t;
  attemptNumber : Z;
  metadata : option (gmap string JsValue)
}.
End Checkpoint.

Module StateConfig.
Record t : Type := {
  stateDir : string;
  enablePersistence : bool;
  completedRetentionDays : Z;
  failedRetentionDays : Z
}.
End StateConfig.

Module SerializedValidationResult.
Record t : Type := {
  passed : bool;
  message : string;
  actualValue : option Value;
  expectedValue : option Value;
  timestamp : string
}.
End SerializedValidationResult.

Module SerializedAttempt.
Record t : Type := {
  attemptNumber : Z;
  timestamp : string;
  output : string;
  value : option Value;
  validationResult : SerializedValidationResult.t;
  duration : option Q
}.
End SerializedAttempt.

Module SerializedMission.
Record t : Type := {
  config : MissionConfig.t;
  state : MissionState;
  createdAt : string;
  updatedAt : string;
  attempts : list SerializedAttempt.t;
  currentAttempt : Z;
  completedAt : option string;
  success : option bool;
  errorMessage : option string
}.
End SerializedMission.

Module SerializedCheckpoint.
Record t : Type := {
  id : string;
  missionId : string;
  timestamp : string;
  missionSnapshot : SerializedMission.t;
  attemptNumber : Z;
  metadata : option (gmap string JsValue)
}.
End SerializedCheckpoint.

Module SerializedState.
Record t : Type := {
  version : string;
  timestamp : string;
  missions : list (string * SerializedMission.t);
  checkpoints : list (string * SerializedCheckpoint.t)
}.
End SerializedState.

Definition STATE_VERSION : string := "1.0.0".

(** ** The state directory

    The three files that [StateManager] reads and writes in [stateDir]:
    [state.json], [state.json.tmp] and [state.json.bak].  A file holds
    - the JSON text of a snapshot, as [saveState] writes it ([Json]; the
      text is identified with the snapshot it encodes), or
    - the JSON text of another value ([Foreign]): [null], a boolean, a
      number, a string, or, for [JObject], an object or array whose
      [missions] cannot be iterated, such as the text of an empty object, or
    - a text that [JSON.parse] rejects ([Text]).
    A JSON text whose [missions] can be iterated but which is no snapshot is
    not in the model.

    [refusal] is what the file system answers to an attempt to create or
    replace a path: nothing when it lets the path be written, or the error
    it raises (a file that is read-only, a disk that is full). *)

Module Fs.

Inductive FileContent : Type :=
  | Json (doc : SerializedState.t)
  | Foreign (value : JsValue)
  | Text (raw : string).

Inductive Path : Type := STATE_FILE | STATE_TEMP | STATE_BACKUP.

Record Dir : Type := {
  stateFile : option FileContent;
  tempFile : option FileContent;
  backupFile : option FileContent;
  refusal : Path -> option Error
}.

Definition read (d : Dir) (p : Path) : option FileContent :=
  match p with
  | STATE_FILE => stateFile d
  | STATE_TEMP => tempFile d
  | STATE_BACKUP => backupFile d
  end.

Definition put (d : Dir) (p : Path) (c : option FileContent) : Dir :=
  match p with
  | STATE_FILE =>
      {| stateFile := c; tempFile := tempFile d; backupFile := backupFile d;
         refusal := refusal d |}
  | STATE_TEMP =>
      {| stateFile := stateFile d; tempFile := c; backupFile := backupFile d;
         refusal := refusal d |}
  | STATE_BACKUP =>
      {| stateFile := stateFile d; tempFile := tempFile d; backupFile := c;
         refusal := refusal d |}
  end.

Definition ENOENT : Error := PlainError "ENOENT: no such file or directory".

Definition writeFile (d : Dir) (p : Path) (c : FileContent) : Result Dir :=
  match refusal d p with
  | Some e => Throw e
  | None => Ok (put d p (Some c))
  end.

Definition access (d : Dir) (p : Path) : Result unit :=
  match read d p with
  | Some _ => Ok tt
  | None => Throw ENOENT
  end.

Definition copyFile (d : Dir) (src dst : Path) : Result Dir :=
  match read d src with
  | Some c =>
      match refusal d dst with
      | Some e => Throw e
      | None => Ok (put d dst (Some c))
      end
  | None => Throw ENOENT
  end.

Definition rename (d : Dir) (src dst : Path) : Result Dir :=
  match read d src with
  | Some c =>
      match refusal d dst with
      | Some e => Throw e
      | None => Ok (put (put d src None) dst (Some c))
      end
  | None => Throw ENOENT
  end.

End Fs.

(** ** state/StateManager.ts *)

Fixpoint mapM {A B : Type} (f : A -> Result B) (l : list A) : Result (list B) :=
  match l with
  | [] => Ok []
  | a :: r => do b <- f a; do bs <- mapM f r; Ok (b :: bs)
  end.

Module StateManager.

Record t : Type := {
  missions : gmap string Mission.t;
  checkpoints : gmap string Checkpoint.t;
  config : StateConfig.t;
  lastSaved : option Date;
  saveTimer : bool;
  isDirty : bool;
  isShuttingDown : bool
}.

(** The private constructor. *)
Definition new (config : StateConfig.t) : t :=
  {| missions := ∅; checkpoints := ∅; config := config; lastSaved := None;
     saveTimer := false; isDirty := false; isShuttingDown := false |}.

Definition set_missions (v : gmap string Mission.t) (sm : t) : t :=
  {| missions := v; checkpoints := checkpoints sm; config := config sm;
     lastSaved := lastSaved sm; saveTimer := saveTimer sm;
     isDirty := isDirty sm; isShuttingDown := isShuttingDown sm |}.

(** Marks the store dirty and (re)arms the timer. *)
Definition debouncedSave (sm : t) : t :=
  if negb (StateConfig.enablePersistence (config sm)) || isShuttingDown sm
  then sm
  else
    {| missions := missions sm; checkpoints := checkpoints sm;
       config := config sm; lastSaved := lastSaved sm;
       saveTimer := true; isDirty := true;
       isShuttingDown := isShuttingDown sm |}.

Definition size (sm : t) : Z := Z.of_nat (base.size (missions sm)).

Definition addMission (sm : t) (mission : Mission.t) : Result t :=
  let id := MissionConfig.id (Mission.config mission) in
  match missions sm !! id with
  | Some _ => Throw (MissionExistsError id)
  | None => Ok (debouncedSave (set_missions (<[id := mission]> (missions sm)) sm))
  end.

Definition getMission (sm : t) (missionId : string) : Result Mission.t :=
  match missions sm !! missionId with
  | Some mission => Ok mission
  | None =>
      Throw (MissionNotFoundError missionId (size sm)
               "Use getAllMissions() or getMissionsByState() to list available missions")
  end.

(** [k] is the reading of the clock that [updatedAt] receives. *)
Definition updateMission (sm : t) (mission : Mission.t) (clock : Clock)
    (k : nat) : Result t :=
  let id := MissionConfig.id (Mission.config mission) in
  match missions sm !! id with
  | None =>
      Throw (MissionNotFoundError id (size sm)
               "Verify mission ID before updating")
  | Some _ =>
      let mission := Mission.set_updatedAt (now clock k) mission in
      Ok (debouncedSave (set_missions (<[id := mission]> (missions sm)) sm))
  end.

Definition deleteMission (sm : t) (missionId : string) : Result t :=
  match missions sm !! missionId with
  | None =>
      Throw (MissionNotFoundError missionId (size sm)
               "Mission may have been already deleted")
  | Some _ =>
      Ok (debouncedSave (set_missions (delete missionId (missions sm)) sm))
  end.

(** An assignment to a property of the mission object that [getMission]
    returned: the object is the one the map holds under [missionId]. *)
Definition assign (sm : t) (missionId : string) (mission : Mission.t) : t :=
  set_missions (<[missionId := mission]> (missions sm)) sm.

Section Serialization.
Context `{Runtime}.

(** [d.toISOString()] throws a [RangeError] on an Invalid Date. *)
Definition dateToISOString (d : Date) : Result string :=
  match d with
  | TimeValue t => Ok (toISOString t)
  | InvalidDate => Throw (RangeError "Invalid time value")
  end.

Definition serializeAttempt (attempt : Attempt.t)
  : Result SerializedAttempt.t :=
  do timestamp <- dateToISOString (Attempt.timestamp attempt);
  let vr := Attempt.validationResult attempt in
  do vrTimestamp <- dateToISOString (ValidationResult.timestamp vr);
  Ok {| SerializedAttempt.attemptNumber := Attempt.attemptNumber attempt;
        SerializedAttempt.timestamp := timestamp;
        SerializedAttempt.output := Attempt.output attempt;
        SerializedAttempt.value := Attempt.value attempt;
        SerializedAttempt.validationResult :=
          {| SerializedValidationResult.passed := ValidationResult.passed vr;
             SerializedValidationResult.message := ValidationResult.message vr;
             SerializedValidationResult.actualValue :=
               ValidationResult.actualValue vr;
             SerializedValidationResult.expectedValue :=
               ValidationResult.expectedValue vr;
             SerializedValidationResult.timestamp := vrTimestamp |};
        SerializedAttempt.duration := Attempt.duration attempt |}.

Definition serializeMission (mission : Mission.t)
  : Result SerializedMission.t :=
  do createdAt <- dateToISOString (Mission.createdAt mission);
  do updatedAt <- dateToISOString (Mission.updatedAt mission);
  do attempts <- mapM serializeAttempt (Mission.attempts mission);
  do completedAt <-
    match Mission.completedAt mission with
    | Some d => do s <- dateToISOString d; Ok (Some s)
    | None => Ok None
    end;
  Ok {| SerializedMission.config := Mission.config mission;
        SerializedMission.state := Mission.state mission;
        SerializedMission.createdAt := createdAt;
        SerializedMission.updatedAt := updatedAt;
        SerializedMission.attempts := attempts;
        SerializedMission.currentAttempt := Mission.currentAttempt mission;
        SerializedMission.completedAt := completedAt;
        SerializedMission.success := Mission.success mission;
        SerializedMission.errorMessage := Mission.errorMessage mission |}.

Definition serializeCheckpoint (checkpoint : Checkpoint.t)
  : Result SerializedCheckpoint.t :=
  do timestamp <- dateToISOString (Checkpoint.timestamp checkpoint);
  do missionSnapshot <- serializeMission (Checkpoint.missionSnapshot checkpoint);
  Ok {| SerializedCheckpoint.id := Checkpoint.id checkpoint;
        SerializedCheckpoint.missionId := Checkpoint.missionId checkpoint;
        SerializedCheckpoint.timestamp := timestamp;
        SerializedCheckpoint.missionSnapshot := missionSnapshot;
        SerializedCheckpoint.attemptNumber := Checkpoint.attemptNumber checkpoint;
        SerializedCheckpoint.metadata := Checkpoint.metadata checkpoint |}.

(** One entry of a map, as the pair pushed on the snapshot's list. *)
Definition serializeEntry {A B : Type} (f : A -> Result B)
    (entry : string * A) : Result (string * B) :=
  do b <- f entry.2; Ok (entry.1, b).

Definition serializeState (sm : t) (clock : Clock)
  : Result SerializedState.t :=
  do missions <-
    mapM (serializeEntry serializeMission) (map_to_list (missions sm));
  do checkpoints <-
    mapM (serializeEntry serializeCheckpoint) (map_to_list (checkpoints sm));
  Ok {| SerializedState.version := STATE_VERSION;
        SerializedState.timestamp := toISOString (clock 0%nat);
        SerializedState.missions := missions;
        SerializedState.checkpoints := checkpoints |}.

Definition deserializeAttempt (serialized : SerializedAttempt.t) : Attempt.t :=
  let vr := SerializedAttempt.validationResult serialized in
  {| Attempt.attemptNumber := SerializedAttempt.attemptNumber serialized;
     Attempt.timestamp := parseDate (SerializedAttempt.timestamp serialized);
     Attempt.output := SerializedAttempt.output serialized;
     Attempt.value := SerializedAttempt.value serialized;
     Attempt.validationResult :=
       {| ValidationResult.passed := SerializedValidationResult.passed vr;
          ValidationResult.actualValue :=
            SerializedValidationResult.actualValue vr;
          ValidationResult.expectedValue :=
            SerializedValidationResult.expectedValue vr;
          ValidationResult.message := SerializedValidationResult.message vr;
          ValidationResult.timestamp :=
            parseDate (SerializedValidationResult.timestamp vr) |};
     Attempt.duration := SerializedAttempt.duration serialized |}.

Definition deserializeMission (serialized : SerializedMission.t) : Mission.t :=
  {| Mission.config := SerializedMission.config serialized;
     Mission.state := SerializedMission.state serialized;
     Mission.createdAt := parseDate (SerializedMission.createdAt serialized);
     Mission.updatedAt := parseDate (SerializedMission.updatedAt serialized);
     Mission.attempts :=
       map deserializeAttempt (SerializedMission.attempts serialized);
     Mission.currentAttempt := SerializedMission.currentAttempt serialized;
     Mission.completedAt :=
       match SerializedMission.completedAt serialized with
       | Some s => if String.eqb s EmptyString then None else Some (parseDate s)
       | None => None
       end;
     Mission.success := SerializedMission.success serialized;
     Mission.errorMessage := SerializedMission.errorMessage serialized |}.

Definition deserializeCheckpoint (serialized : SerializedCheckpoint.t)
  : Checkpoint.t :=
  {| Checkpoint.id := SerializedCheckpoint.id serialized;
     Checkpoint.missionId := SerializedCheckpoint.missionId serialized;
     Checkpoint.timestamp := parseDate (SerializedCheckpoint.timestamp serialized);
     Checkpoint.missionSnapshot :=
       deserializeMission (SerializedCheckpoint.missionSnapshot serialized);
     Checkpoint.attemptNumber := SerializedCheckpoint.attemptNumber serialized;
     Checkpoint.metadata := SerializedCheckpoint.metadata serialized |}.

(** [for (const [id, x] of entries) map.set(id, f(x))] on a cleared map. *)
Definition restore {A B : Type} (f : A -> B) (entries : list (string * A))
  : gmap string B :=
  foldl (fun m entry => <[entry.1 := f entry.2]> m) ∅ entries.

Definition deserializeState (sm : t) (serialized : SerializedState.t) : t :=
  {| missions := restore deserializeMission (SerializedState.missions serialized);
     checkpoints :=
       restore deserializeCheckpoint (SerializedState.checkpoints serialized);
     config := config sm;
     lastSaved := Some (parseDate (SerializedState.timestamp serialized));
     saveTimer := saveTimer sm;
     isDirty := false;
     isShuttingDown := isShuttingDown sm |}.

(** What a [try] block leaves when its [catch] swallows the error. *)
Definition orElse {A : Type} (r : Result A) (a : A) : A :=
  match r with Ok x => x | Throw _ => a end.

(** [saveState]: the manager and the directory after the call, and
    whether the call returned or threw.  The clock is read by
    [serializeState] (reading 0) and for [lastSaved] (reading 1). *)
Definition saveState (sm : t) (dir : Fs.Dir) (clock : Clock)
  : t * Fs.Dir * Result unit :=
  let wrap (e : Error) := Throw (StatePersistenceError "save" (errorMessage e)) in
  match serializeState sm clock with
  | Throw e => (sm, dir, wrap e)
  | Ok serialized =>
      match Fs.writeFile dir Fs.STATE_TEMP (Fs.Json serialized) with
      | Throw e => (sm, dir, wrap e)
      | Ok d1 =>
          let d2 :=
            orElse (do _ <- Fs.access d1 Fs.STATE_FILE;
                    Fs.copyFile d1 Fs.STATE_FILE Fs.STATE_BACKUP) d1 in
          match Fs.rename d2 Fs.STATE_TEMP Fs.STATE_FILE with
          | Throw e => (sm, d2, wrap e)
          | Ok d3 =>
              ({| missions := missions sm; checkpoints := checkpoints sm;
                  config := config sm;
                  lastSaved := Some (now clock 1);
                  saveTimer := saveTimer sm;
                  isDirty := false;
                  isShuttingDown := isShuttingDown sm |},
               d3, Ok tt)
          end
      end
  end.

Definition forceSave (sm : t) (dir : Fs.Dir) (clock : Clock)
  : t * Fs.Dir * Result unit :=
  if negb (StateConfig.enablePersistence (config sm)) then
    (sm, dir, Throw (StatePersistenceError "force-save" "Persistence is not enabled"))
  else
    saveState
      {| missions := missions sm; checkpoints := checkpoints sm;
         config := config sm; lastSaved := lastSaved sm;
         saveTimer := false; isDirty := isDirty sm;
         isShuttingDown := isShuttingDown sm |}
      dir clock.
End Serialization.

(** [cleanupOldMissions]: whether the sweep at the time [now] removes
    [mission].  [daysOld] is a quotient of numbers; the time of an Invalid
    Date is [NaN], and no comparison with it holds. *)
Definition MS_PER_DAY : Z := 1000 * 60 * 60 * 24.

Definition olderThan (now : Z) (completedAt : Date) (retentionDays : Z) : bool :=
  match completedAt with
  | TimeValue t =>
      let daysOld := (inject_Z (now - t) / inject_Z MS_PER_DAY)%Q in
      negb (Qle_bool daysOld (inject_Z retentionDays))
  | InvalidDate => false
  end.

Definition shouldDelete (config : StateConfig.t) (now : Z) (mission : Mission.t)
  : bool :=
  match Mission.state mission, Mission.completedAt mission with
  | COMPLETED, Some d => olderThan now d (StateConfig.completedRetentionDays config)
  | FAILED, Some d => olderThan now d (StateConfig.failedRetentionDays config)
  | _, _ => false
  end.

(** One turn of the loop of [cleanupOldMissions] over the values of the
    map: an entry that an earlier turn has deleted is not visited. *)
Definition cleanupVisit (now : Z) (acc : Result (t * Z)) (entry : string * Mission.t)
  : Result (t * Z) :=
  do state <- acc;
  match missions state.1 !! entry.1 with
  | None => Ok state
  | Some mission =>
      if shouldDelete (config state.1) now mission then
        do sm' <- deleteMission state.1 (MissionConfig.id (Mission.config mission));
        Ok (sm', state.2 + 1)
      else Ok state
  end.

(** [cleanupOldMissions]: the manager after the sweep and the number of
    missions deleted. *)
Definition cleanupOldMissions (sm : t) (clock : Clock) : Result (t * Z) :=
  foldl (cleanupVisit (clock 0%nat)) (Ok (sm, 0)) (map_to_list (missions sm)).

Section Recovery.
Context `{Runtime}.

(** What [tryLoadStateFile] returns when it does not return [null]: the
    value that [JSON.parse] gave, a snapshot or another value. *)
Inductive Parsed : Type :=
  | Snapshot (doc : SerializedState.t)
  | Other (value : JsValue).

(** [tryLoadStateFile]: the parsed value, or [null] when the file is absent
    or does not parse.  A version that differs is only logged; on [null] the
    reading of [parsed.version] throws, and the [catch] returns [null]. *)
Definition tryLoadStateFile (dir : Fs.Dir) (path : Fs.Path) : option Parsed :=
  match Fs.read dir path with
  | Some (Fs.Json doc) => Some (Snapshot doc)
  | Some (Fs.Foreign value) =>
      match value with
      | JUndefined | JNull => None
      | _ => Some (Other value)
      end
  | Some (Fs.Text _) => None
  | None => None
  end.

(** The test [if (!serialized)] of [loadState], negated. *)
Definition present (serialized : option Parsed) : bool :=
  match serialized with
  | Some (Snapshot _) => true
  | Some (Other value) => truthy value
  | None => false
  end.

(** [missions.clear(); checkpoints.clear()]. *)
Definition clear (sm : t) : t :=
  {| missions := ∅; checkpoints := ∅; config := config sm;
     lastSaved := lastSaved sm; saveTimer := saveTimer sm;
     isDirty := isDirty sm; isShuttingDown := isShuttingDown sm |}.

(** [deserializeState] on what [tryLoadStateFile] returned.  On a value that
    is no snapshot the maps are cleared and the loop over
    [serialized.missions] throws. *)
Definition deserializeParsed (sm : t) (serialized : Parsed) : t * Result unit :=
  match serialized with
  | Snapshot doc => (deserializeState sm doc, Ok tt)
  | Other _ => (clear sm, Throw (TypeError notIterable))
  end.

(** [loadState]: the canonical file, else the backup file, else the state
    is left as it is.  The backup file is tried only when the canonical file
    gave [null] or a value that is falsy; an error of [deserializeState] is
    thrown as a [StateCorruptedError] that names the canonical file. *)
Definition loadState (sm : t) (dir : Fs.Dir) : t * Result unit :=
  let stateFile := pathJoin (StateConfig.stateDir (config sm)) "state.json" in
  let first := tryLoadStateFile dir Fs.STATE_FILE in
  let serialized :=
    if present first then first else tryLoadStateFile dir Fs.STATE_BACKUP in
  match serialized with
  | Some parsed =>
      if present serialized then
        match deserializeParsed sm parsed with
        | (sm', Ok _) => (sm', Ok tt)
        | (sm', Throw e) =>
            (sm', Throw (StateCorruptedError stateFile (errorMessage e)))
        end
      else (sm, Ok tt)
  | None => (sm, Ok tt)
  end.

(** [initializePersistence] on a state directory that exists: the manager,
    and whether the shutdown handlers were installed.  An error of
    [loadState] is logged and the handlers are not installed. *)
Definition initializePersistence (sm : t) (dir : Fs.Dir) : t * bool :=
  match loadState sm dir with
  | (sm', Ok _) => (sm', true)
  | (sm', Throw _) => (sm', false)
  end.

(** [StateManager.create] on a state directory that exists. *)
Definition create (config : StateConfig.t) (dir : Fs.Dir) : t :=
  let instance := new config in
  if StateConfig.enablePersistence config
  then (initializePersistence instance dir).1
  else instance.

Definition saveStateSync (sm : t) (dir : Fs.Dir) (clock : Clock)
  : t * Fs.Dir * Result unit :=
  saveState
    {| missions := missions sm; checkpoints := checkpoints sm;
       config := config sm; lastSaved := lastSaved sm;
       saveTimer := false; isDirty := isDirty sm;
       isShuttingDown := isShuttingDown sm |}
    dir clock.

(** The handler [cleanup] that [setupShutdownHandlers] installs: a failure
    of the save is logged and swallowed. *)
Definition shutdown (sm : t) (dir : Fs.Dir) (clock : Clock) : t * Fs.Dir :=
  if isShuttingDown sm then (sm, dir)
  else
    let sm :=
      {| missions := missions sm; checkpoints := checkpoints sm;
         config := config sm; lastSaved := lastSaved sm;
         saveTimer := saveTimer sm; isDirty := isDirty sm;
         isShuttingDown := true |} in
    if isDirty sm then (saveStateSync sm dir clock).1 else (sm, dir).
End Recovery.

End StateManager.

(** ** tools/defineMission.ts *)

Module DefineMissionTool.

Record DefineMissionInput : Type := {
  goal : string;
  strategy : string;
  criteria : gmap string JsValue;
  maxAttempts : option Z;
  enableCheckpoints : option bool;
  checkpointFrequency : option Z
}.

(** The JSON answer: [{success: true, missionId, message, config: {goal,
    strategy, maxAttempts}}], or [{success: false, error: e.message}] from
    the [catch]. *)
Inductive Response : Type :=
  | Created (missionId goal : string) (strategy : JsValue)
      (maxAttempts : option Z)
  | Failed (e : Error).

Definition success (r : Response) : bool :=
  match r with Created _ _ _ _ => true | Failed _ => false end.

Definition parseCriteria (strategy : string) (criteriaData : gmap string JsValue)
  : Result CriteriaObject.t :=
  if String.eqb strategy "NUMERIC" then
    Ok {| CriteriaObject.strategy := JStr "NUMERIC";
          CriteriaObject.operator := getProp criteriaData "operator";
          CriteriaObject.threshold := getProp criteriaData "threshold";
          CriteriaObject.metricName := getProp criteriaData "metricName";
          CriteriaObject.expectedCode := JUndefined;
          CriteriaObject.command := JUndefined;
          CriteriaObject.keyword := JUndefined;
          CriteriaObject.mustContain := JUndefined;
          CriteriaObject.caseSensitive := JUndefined |}
  else if String.eqb strategy "EXIT_CODE" then
    Ok {| CriteriaObject.strategy := JStr "EXIT_CODE";
          CriteriaObject.operator := JUndefined;
          CriteriaObject.threshold := JUndefined;
          CriteriaObject.metricName := JUndefined;
          CriteriaObject.expectedCode :=
            nullish (getProp criteriaData "expectedCode") (JNum 0);
          CriteriaObject.command := getProp criteriaData "command";
          CriteriaObject.keyword := JUndefined;
          CriteriaObject.mustContain := JUndefined;
          CriteriaObject.caseSensitive := JUndefined |}
  else if String.eqb strategy "KEYWORD" then
    Ok {| CriteriaObject.strategy := JStr "KEYWORD";
          CriteriaObject.operator := JUndefined;
          CriteriaObject.threshold := JUndefined;
          CriteriaObject.metricName := JUndefined;
          CriteriaObject.expectedCode := JUndefined;
          CriteriaObject.command := JUndefined;
          CriteriaObject.keyword := getProp criteriaData "keyword";
          CriteriaObject.mustContain :=
            nullish (getProp criteriaData "mustContain") (JBool true);
          CriteriaObject.caseSensitive :=
            nullish (getProp criteriaData "caseSensitive") (JBool true) |}
  else Throw (PlainError ("Unknown strategy: " +:+ strategy)).

Section WithRuntime.
Context `{Runtime}.

Definition execute (sm : StateManager.t) (input : DefineMissionInput)
    (uuid : string) (clock : Clock) : StateManager.t * Response :=
  match parseCriteria (strategy input) (criteria input) with
  | Throw e => (sm, Failed e)
  | Ok criteria =>
      let params :=
        {| MissionDefiner.goal := goal input;
           MissionDefiner.criteria := criteria;
           MissionDefiner.maxAttempts := maxAttempts input;
           MissionDefiner.enableCheckpoints := enableCheckpoints input;
           MissionDefiner.checkpointFrequency := checkpointFrequency input;
           MissionDefiner.attemptTimeout := None |} in
      match MissionDefiner.defineMission params uuid clock with
      | Throw e => (sm, Failed e)
      | Ok mission =>
          let mission := Mission.set_state IN_PROGRESS mission in
          match StateManager.addMission sm mission with
          | Throw e => (sm, Failed e)
          | Ok sm' =>
              (sm',
               Created (MissionConfig.id (Mission.config mission))
                 (MissionConfig.goal (Mission.config mission))
                 (CriteriaObject.strategy criteria)
                 (MissionConfig.maxAttempts (Mission.config mission)))
          end
      end
  end.
End WithRuntime.

End DefineMissionTool.

(** ** tools/submitAttempt.ts *)

Module SubmitAttemptTool.

Record SubmitAttemptInput : Type := {
  missionId : string;
  output : string;
  value : option Value
}.

(** The JSON answers of [execute], in the order of its [return]s.  The
    texts [feedback] and [progressSummary] of the last two are left out:
    they are composed from the fields kept here and change nothing. *)
Inductive Response : Type :=
  (** [{success: false, error: "Mission is not in progress (current state: s)"}] *)
  | NotInProgress (s : MissionState)
  (** [{success: false, passed: false, final: true,
        message: "Mission failed: Maximum attempts exceeded",
        attemptsUsed, maxAttempts}] *)
  | Exhausted (attemptsUsed : Z) (maxAttempts : option Z)
  (** [{success: true, passed: true, final: true, message, feedback,
        attemptsUsed, validationResult}] *)
  | Completed (attemptsUsed : Z) (validationResult : ValidationResult.t)
  (** [{success: true, passed: false, final: false, message, feedback,
        progressSummary, attemptsRemaining, validationResult}] *)
  | Retry (attemptsRemaining : Z) (validationResult : ValidationResult.t)
  (** [{success: false, error: e.message}], from the outer [catch] *)
  | Failed (e : Error).

Definition success (r : Response) : bool :=
  match r with
  | Completed _ _ | Retry _ _ => true
  | NotInProgress _ | Exhausted _ _ | Failed _ => false
  end.

Definition passed (r : Response) : option bool :=
  match r with
  | Exhausted _ _ | Retry _ _ => Some false
  | Completed _ _ => Some true
  | NotInProgress _ | Failed _ => None
  end.

Definition final (r : Response) : option bool :=
  match r with
  | Exhausted _ _ | Completed _ _ => Some true
  | Retry _ _ => Some false
  | NotInProgress _ | Failed _ => None
  end.

Definition MAX_OUTPUT_LENGTH : N := 1024 * 1024.

Definition storedOutput (output : string) : string :=
  if (MAX_OUTPUT_LENGTH <? Str.length output)%N
  then Str.take MAX_OUTPUT_LENGTH output
       +:+ String (ascii_of_N 10) "... (truncated)"
  else output.

Section WithRuntime.
Context `{Runtime}.

(** The [catch] around [attemptCounter.increment()]. *)
Definition exhaust (sm : StateManager.t) (id : string) (mission : Mission.t)
    (clock : Clock) : StateManager.t * Response :=
  let mission := Mission.set_state FAILED mission in
  let mission := Mission.set_completedAt (now clock 0) mission in
  let mission := Mission.set_success false mission in
  let mission := Mission.set_errorMessage "Maximum attempts exceeded" mission in
  let sm := StateManager.assign sm id mission in
  match StateManager.updateMission sm mission clock 1 with
  | Throw e => (sm, Failed e)
  | Ok sm' =>
      (sm',
       Exhausted (Mission.currentAttempt mission)
         (MissionConfig.maxAttempts (Mission.config mission)))
  end.

(** What follows a successful [increment()]. *)
Definition record (sm : StateManager.t) (input : SubmitAttemptInput)
    (mission : Mission.t) (counter : AttemptCounter.t) (attemptNumber : Z)
    (clock : Clock) : StateManager.t * Response :=
  let id := missionId input in
  match validate (MissionConfig.criteria (Mission.config mission)) clock
          (output input) (value input) with
  | Throw e => (sm, Failed e)
  | Ok validationResult =>
      let attempt :=
        {| Attempt.attemptNumber := attemptNumber;
           Attempt.timestamp := now clock 1;
           Attempt.output := storedOutput (output input);
           Attempt.value := value input;
           Attempt.validationResult := validationResult;
           Attempt.duration := None |} in
      let mission :=
        Mission.set_attempts (Mission.attempts mission ++ [attempt]) mission in
      let mission := Mission.set_currentAttempt attemptNumber mission in
      let mission := Mission.set_updatedAt (now clock 2) mission in
      if ValidationResult.passed validationResult then
        let mission := Mission.set_state COMPLETED mission in
        let mission := Mission.set_completedAt (now clock 3) mission in
        let mission := Mission.set_success true mission in
        let sm := StateManager.assign sm id mission in
        match StateManager.updateMission sm mission clock 4 with
        | Throw e => (sm, Failed e)
        | Ok sm' => (sm', Completed attemptNumber validationResult)
        end
      else
        let sm := StateManager.assign sm id mission in
        match StateManager.updateMission sm mission clock 3 with
        | Throw e => (sm, Failed e)
        | Ok sm' =>
            (sm',
             Retry (AttemptCounter.getRemainingAttempts counter)
               validationResult)
        end
  end.

Definition execute (sm : StateManager.t) (input : SubmitAttemptInput)
    (clock : Clock) : StateManager.t * Response * list LogEntry :=
  match StateManager.getMission sm (missionId input) with
  | Throw e => (sm, Failed e, [])
  | Ok mission =>
      if negb (MissionState_eqb (Mission.state mission) IN_PROGRESS) then
        (sm, NotInProgress (Mission.state mission), [])
      else
        let maxAttempts :=
          default 10 (MissionConfig.maxAttempts (Mission.config mission)) in
        match AttemptCounter.fromCurrentAttempt
                (Mission.currentAttempt mission)
                {| AttemptCounter.maxAttempts := maxAttempts;
                   AttemptCounter.warnThreshold := None |} with
        | (Throw e, log) => (sm, Failed e, log)
        | (Ok attemptCounter, log) =>
            match AttemptCounter.increment attemptCounter with
            | (_, Throw _, log') =>
                (exhaust sm (missionId input) mission clock, log ++ log')
            | (attemptCounter, Ok attemptNumber, log') =>
                (record sm input mission attemptCounter attemptNumber clock,
                 log ++ log')
            end
        end
  end.
End WithRuntime.

End SubmitAttemptTool.

(** ** tools/abortMission.ts *)

Module AbortMissionTool.

Record AbortMissionInput : Type := {
  missionId : string;
  reason : option string
}.

Inductive Response : Type :=
  (** [{success: false, error: "Cannot abort mission in s state"}] *)
  | Rejected (s : MissionState)
  (** [{success: true, message, attemptsUsed, reason}] *)
  | Aborted (missionId : string) (attemptsUsed : Z) (reason : option string)
  (** [{success: false, error: e.message}] *)
  | Failed (e : Error).

Definition success (r : Response) : bool :=
  match r with Aborted _ _ _ => true | Rejected _ | Failed _ => false end.

(** [input.reason || 'Manually aborted'] *)
Definition reasonOrDefault (reason : option string) : string :=
  match reason with
  | Some s => if String.eqb s EmptyString then "Manually aborted" else s
  | None => "Manually aborted"
  end.

Definition execute (sm : StateManager.t) (input : AbortMissionInput)
    (clock : Clock) : StateManager.t * Response :=
  match StateManager.getMission sm (missionId input) with
  | Throw e => (sm, Failed e)
  | Ok mission =>
      if MissionState_eqb (Mission.state mission) COMPLETED
         || MissionState_eqb (Mission.state mission) FAILED
      then (sm, Rejected (Mission.state mission))
      else
        let mission := Mission.set_state ABORTED mission in
        let mission := Mission.set_completedAt (now clock 0) mission in
        let mission := Mission.set_success false mission in
        let mission :=
          Mission.set_errorMessage (reasonOrDefault (reason input)) mission in
        let sm := StateManager.assign sm (missionId input) mission in
        match StateManager.updateMission sm mission clock 1 with
        | Throw e => (sm, Failed e)
        | Ok sm' =>
            (sm',
             Aborted (MissionConfig.id (Mission.config mission))
               (Mission.currentAttempt mission) (Mission.errorMessage mission))
        end
  end.

End AbortMissionTool.

(** ** tools/getMissionStatus.ts *)

Module GetMissionStatusTool.

Record MissionStatus : Type := {
  id : string;
  state : MissionState;
  goal : string;
  currentAttempt : Z;
  maxAttempts : Z;
  attemptsRemaining : Z;
  progressPercentage : option Q;
  lastAttemptResult : option ValidationResult.t;
  success : option bool
}.

Record AttemptSummary : Type := {
  attemptNumber : Z;
  timestamp : Date;
  passed : bool;
  message : string
}.

(** [{success: true, status, attempts}], or [{success: false, error}]. *)
Inductive Response : Type :=
  | Status (status : MissionStatus) (attempts : list AttemptSummary)
  | Failed (e : Error).

(** [(currentAttempt / maxAttempts) * 100], as it is printed: the quotient
    by zero is [NaN] or an infinity, which JSON prints as [null]. *)
Definition percentage (currentAttempt maxAttempts : Z) : option Q :=
  if maxAttempts =? 0 then None
  else Some (Qred (inject_Z currentAttempt / inject_Z maxAttempts * 100)%Q).

Definition summary (a : Attempt.t) : AttemptSummary :=
  {| attemptNumber := Attempt.attemptNumber a;
     timestamp := Attempt.timestamp a;
     passed := ValidationResult.passed (Attempt.validationResult a);
     message := ValidationResult.message (Attempt.validationResult a) |}.

Definition execute (sm : StateManager.t) (missionId : string) : Response :=
  match StateManager.getMission sm missionId with
  | Throw e => Failed e
  | Ok mission =>
      let maxAttempts :=
        default 10 (MissionConfig.maxAttempts (Mission.config mission)) in
      Status
        {| id := MissionConfig.id (Mission.config mission);
           state := Mission.state mission;
           goal := MissionConfig.goal (Mission.config mission);
           currentAttempt := Mission.currentAttempt mission;
           maxAttempts := maxAttempts;
           attemptsRemaining := maxAttempts - Mission.currentAttempt mission;
           progressPercentage :=
             percentage (Mission.currentAttempt mission) maxAttempts;
           lastAttemptResult :=
             option_map Attempt.validationResult (last (Mission.attempts mission));
           success := Mission.success mission |}
        (map summary (Mission.attempts mission))
  end.

End GetMissionStatusTool.

(** * The vocabulary of the properties *)

(** The claim that an explicit [value] decides the result whatever the
    [output] is, for one criteria object and one value. *)
Definition valueTakesPrecedence `{Runtime} (criteria : AnyCriteria) (v : Value)
  : Prop :=
  forall (clock : Clock) (output1 output2 : string),
    validate criteria clock output1 (Some v)
    = validate criteria clock output2 (Some v).

(** Every mission is held under its own identifier. *)
Definition keyed (sm : StateManager.t) : Prop :=
  forall k m,
    StateManager.missions sm !! k = Some m ->
    MissionConfig.id (Mission.config m) = k.

(** The invariant of the data model: [currentAttempt] counts the attempts,
    and the attempts are numbered 1, 2, ... in order. *)
Definition consistent (m : Mission.t) : Prop :=
  Mission.currentAttempt m = Z.of_nat (List.length (Mission.attempts m))
  /\ map Attempt.attemptNumber (Mission.attempts m)
     = map Z.of_nat (seq 1 (List.length (Mission.attempts m))).

(** The mission that the exhausted path leaves. *)
Definition failedMission (mission : Mission.t) (clock : Clock) : Mission.t :=
  {| Mission.config := Mission.config mission;
     Mission.state := FAILED;
     Mission.createdAt := Mission.createdAt mission;
     Mission.updatedAt := now clock 1;
     Mission.attempts := Mission.attempts mission;
     Mission.currentAttempt := Mission.currentAttempt mission;
     Mission.completedAt := Some (now clock 0);
     Mission.success := Some false;
     Mission.errorMessage := Some "Maximum attempts exceeded" |}.

(** The mission after an attempt numbered [n] with the result [vr] has been
    recorded. *)
Definition recorded (mission : Mission.t) (input : SubmitAttemptTool.SubmitAttemptInput)
    (clock : Clock) (vr : ValidationResult.t) (n : Z) : Mission.t :=
  let passed := ValidationResult.passed vr in
  {| Mission.config := Mission.config mission;
     Mission.state := if passed then COMPLETED else Mission.state mission;
     Mission.createdAt := Mission.createdAt mission;
     Mission.updatedAt := now clock (if passed then 4 else 3)%nat;
     Mission.attempts :=
       Mission.attempts mission ++
       [{| Attempt.attemptNumber := n;
           Attempt.timestamp := now clock 1;
           Attempt.output := SubmitAttemptTool.storedOutput (SubmitAttemptTool.output input);
           Attempt.value := SubmitAttemptTool.value input;
           Attempt.validationResult := vr;
           Attempt.duration := None |}];
     Mission.currentAttempt := n;
     Mission.completedAt :=
       if passed then Some (now clock 3) else Mission.completedAt mission;
     Mission.success := if passed then Some true else Mission.success mission;
     Mission.errorMessage := Mission.errorMessage mission |}.


Definition isNumber (v : JsValue) : bool :=
  match v with JNum _ => true | _ => false end.

Definition isBoolean (v : JsValue) : bool :=
  match v with JBool _ => true | _ => false end.

Definition isString (v : JsValue) : bool :=
  match v with JStr _ => true | _ => false end.

Definition isNonEmptyString (v : JsValue) : bool :=
  match v with JStr s => negb (Str.length s =? 0)%N | _ => false end.

(** The spec's words: a required field of the variant is missing or has the
    wrong type ([threshold] or [operator] for Numeric, [expectedCode] for
    ExitCode, [keyword] or [mustContain] for Keyword). *)
Definition missingOrMistyped (input : DefineMissionTool.DefineMissionInput)
  : bool :=
  let field := getProp (DefineMissionTool.criteria input) in
  let strategy := DefineMissionTool.strategy input in
  if String.eqb strategy "NUMERIC" then
    negb (isNumber (field "threshold"))
    || negb (bool_decide (is_Some (asOperator (field "operator"))))
  else if String.eqb strategy "EXIT_CODE" then
    negb (isNumber (field "expectedCode"))
  else if String.eqb strategy "KEYWORD" then
    negb (isString (field "keyword")) || negb (isBoolean (field "mustContain"))
  else false.

(** What the code rejects: [expectedCode] and [mustContain] only when they
    are present with the wrong type, [operator] when it is absent or
    otherwise falsy, [keyword] also when it is empty. *)
Definition rejectedCriteria (input : DefineMissionTool.DefineMissionInput)
  : bool :=
  let field := getProp (DefineMissionTool.criteria input) in
  let strategy := DefineMissionTool.strategy input in
  if String.eqb strategy "NUMERIC" then
    negb (isNumber (field "threshold")) || negb (truthy (field "operator"))
  else if String.eqb strategy "EXIT_CODE" then
    negb (isNumber (nullish (field "expectedCode") (JNum 0)))
  else if String.eqb strategy "KEYWORD" then
    negb (isNonEmptyString (field "keyword"))
    || negb (isBoolean (nullish (field "mustContain") (JBool true)))
  else false.


(** The mission that DefineMission stores. *)
Definition freshMission (input : DefineMissionTool.DefineMissionInput)
    (criteria : AnyCriteria) (uuid : string) (clock : Clock) : Mission.t :=
  {| Mission.config :=
       {| MissionConfig.id := uuid;
          MissionConfig.goal := DefineMissionTool.goal input;
          MissionConfig.criteria := criteria;
          MissionConfig.maxAttempts :=
            Some (default 10 (DefineMissionTool.maxAttempts input));
          MissionConfig.enableCheckpoints :=
            Some (default false (DefineMissionTool.enableCheckpoints input));
          MissionConfig.checkpointFrequency :=
            Some (default 5 (DefineMissionTool.checkpointFrequency input));
          MissionConfig.attemptTimeout := None |};
     Mission.state := IN_PROGRESS;
     Mission.createdAt := now clock 0;
     Mission.updatedAt := now clock 1;
     Mission.attempts := [];
     Mission.currentAttempt := 0;
     Mission.completedAt := None;
     Mission.success := None;
     Mission.errorMessage := None |}.

Inductive Operation : Type :=
  | DefineMission (input : DefineMissionTool.DefineMissionInput)
      (uuid : string) (clock : Clock)
  | SubmitAttempt (input : SubmitAttemptTool.SubmitAttemptInput) (clock : Clock)
  | AbortMission (input : AbortMissionTool.AbortMissionInput) (clock : Clock).

Section Operations.
Context `{Runtime}.

(** The store after one operation. *)
Definition step (sm : StateManager.t) (op : Operation) : StateManager.t :=
  match op with
  | DefineMission input uuid clock =>
      (DefineMissionTool.execute sm input uuid clock).1
  | SubmitAttempt input clock => (SubmitAttemptTool.execute sm input clock).1.1
  | AbortMission input clock => (AbortMissionTool.execute sm input clock).1
  end.

Definition run (sm : StateManager.t) (ops : list Operation) : StateManager.t :=
  foldl step sm ops.

(** [op] is a SubmitAttempt on the mission [id] that the store [sm]
    accepts ([success: true]). *)
Definition accepted (sm : StateManager.t) (op : Operation) (id : string) : bool :=
  match op with
  | SubmitAttempt input clock =>
      String.eqb (SubmitAttemptTool.missionId input) id
      && SubmitAttemptTool.success (SubmitAttemptTool.execute sm input clock).1.2
  | _ => false
  end.

(** The number of accepted submits on [id] along [ops], from [sm]. *)
Fixpoint acceptedSubmits (sm : StateManager.t) (ops : list Operation)
    (id : string) : nat :=
  match ops with
  | [] => 0%nat
  | op :: rest =>
      ((if accepted sm op id then 1 else 0) + acceptedSubmits (step sm op) rest id)%nat
  end.

(** The number of attempts recorded for [id]. *)
Definition attemptsOf (sm : StateManager.t) (id : string) : nat :=
  match StateManager.missions sm !! id with
  | Some m => List.length (Mission.attempts m)
  | None => 0%nat
  end.

(** The invariant of the store. *)
Definition sound (sm : StateManager.t) : Prop :=
  keyed sm
  /\ forall k m, StateManager.missions sm !! k = Some m -> consistent m.
End Operations.

Section FlushModel.
Context `{Runtime}.

End FlushModel.

Definition validDate (d : Date) : Prop :=
  match d with
  | TimeValue t => validTime t
  | InvalidDate => False
  end.

Definition validAttempt (a : Attempt.t) : Prop :=
  validDate (Attempt.timestamp a)
  /\ validDate (ValidationResult.timestamp (Attempt.validationResult a)).

Definition validMission (m : Mission.t) : Prop :=
  validDate (Mission.createdAt m)
  /\ validDate (Mission.updatedAt m)
  /\ Forall validAttempt (Mission.attempts m)
  /\ forall d, Mission.completedAt m = Some d -> validDate d.

Definition validCheckpoint (c : Checkpoint.t) : Prop :=
  validDate (Checkpoint.timestamp c)
  /\ validMission (Checkpoint.missionSnapshot c).

(** Every timestamp of the store is a time value. *)
Definition validStore (sm : StateManager.t) : Prop :=
  (forall k m, StateManager.missions sm !! k = Some m -> validMission m)
  /\ forall k c, StateManager.checkpoints sm !! k = Some c -> validCheckpoint c.

(** What ECMAScript promises of the runtime: the ISO string of a time value
    is not empty and [new Date] reads it back. *)
Definition isoCodec `{Runtime} : Prop :=
  forall t,
    validTime t ->
    parseDate (toISOString t) = TimeValue t /\ toISOString t <> EmptyString.

(** ** The vocabulary of the further properties *)

(** [n] calls of [increment()] in a row: the counter after them and the
    warnings they log. *)
Fixpoint replay `{Runtime} (n : nat) (c : AttemptCounter.t)
  : AttemptCounter.t * list LogEntry :=
  match n with
  | O => (c, [])
  | S k =>
      let first := AttemptCounter.increment c in
      let rest := replay k first.1.1 in
      (rest.1, first.2 ++ rest.2)
  end.

(** The counts at which [increment()] warns: some attempts remain, and not
    more than the threshold. *)
Definition warnsAt (c : AttemptCounter.t) (k : Z) : bool :=
  (0 <? AttemptCounter.config_maxAttempts c - k)
  && (AttemptCounter.config_maxAttempts c - k <=? AttemptCounter.config_warnThreshold c).

(** The mission that AbortMission leaves. *)
Definition abortedMission (mission : Mission.t) (reason : option string)
    (clock : Clock) : Mission.t :=
  {| Mission.config := Mission.config mission;
     Mission.state := ABORTED;
     Mission.createdAt := Mission.createdAt mission;
     Mission.updatedAt := now clock 1;
     Mission.attempts := Mission.attempts mission;
     Mission.currentAttempt := Mission.currentAttempt mission;
     Mission.completedAt := Some (now clock 0);
     Mission.success := Some false;
     Mission.errorMessage := Some (AbortMissionTool.reasonOrDefault reason) |}.

(** The effective limit of a mission: [config.maxAttempts ?? 10]. *)
Definition limit (mission : Mission.t) : Z :=
  default 10 (MissionConfig.maxAttempts (Mission.config mission)).

(** The three ways in which an operation changes a stored mission. *)
Inductive transition `{Runtime} (m : Mission.t) : Mission.t -> Prop :=
  | Exhaust (clock : Clock) :
      Mission.state m = IN_PROGRESS ->
      0 <= Mission.currentAttempt m ->
      Mission.currentAttempt m = limit m ->
      transition m (failedMission m clock)
  | Record (input : SubmitAttemptTool.SubmitAttemptInput) (clock : Clock)
      (vr : ValidationResult.t) :
      Mission.state m = IN_PROGRESS ->
      0 <= Mission.currentAttempt m < limit m ->
      validate (MissionConfig.criteria (Mission.config m)) clock
        (SubmitAttemptTool.output input) (SubmitAttemptTool.value input) = Ok vr ->
      transition m (recorded m input clock vr (Mission.currentAttempt m + 1))
  | Abort (reason : option string) (clock : Clock) :
      Mission.state m <> COMPLETED ->
      Mission.state m <> FAILED ->
      transition m (abortedMission m reason clock).

(** How the fields of a mission go together with its state. *)
Definition coherent (m : Mission.t) : Prop :=
  match Mission.state m with
  | PENDING => False
  | IN_PROGRESS =>
      Mission.completedAt m = None /\ Mission.success m = None
      /\ Mission.errorMessage m = None
  | COMPLETED =>
      is_Some (Mission.completedAt m) /\ Mission.success m = Some true
      /\ exists a, last (Mission.attempts m) = Some a
                   /\ ValidationResult.passed (Attempt.validationResult a) = true
  | FAILED =>
      is_Some (Mission.completedAt m) /\ Mission.success m = Some false
      /\ Mission.errorMessage m = Some "Maximum attempts exceeded"
  | ABORTED =>
      is_Some (Mission.completedAt m) /\ Mission.success m = Some false
      /\ is_Some (Mission.errorMessage m)
  end.

(** Whether a decimal digit occurs in [s]. *)
Fixpoint hasDigit (s : string) : bool :=
  match s with
  | EmptyString => false
  | String c r => Str.isDigit c || hasDigit r
  end.

(** [passed] of what a validator returns, when it returns. *)
Definition passedOf (r : Result ValidationResult.t) : option bool :=
  match r with
  | Ok vr => Some (ValidationResult.passed vr)
  | Throw _ => None
  end.

(** The mission that an operation names. *)
Definition target (op : Operation) : string :=
  match op with
  | DefineMission _ uuid _ => uuid
  | SubmitAttempt input _ => SubmitAttemptTool.missionId input
  | AbortMission input _ => AbortMissionTool.missionId input
  end.


(** A mission has not used more attempts than its limit allows. *)
Definition capped (m : Mission.t) : Prop :=
  0 <= Mission.currentAttempt m <= Z.max 0 (limit m).

(** ** A runtime on which the model runs

    Numbers are printed in decimal (a fraction as numerator, slash,
    denominator) and a time value as [T] followed by its milliseconds.  The
    instance stands for the JavaScript runtime where the model is evaluated
    on concrete inputs. *)

Module Example.

Definition showInt (z : Z) : string := NilEmpty.string_of_int (Z.to_int z).

Definition showNumber (q : Q) : string :=
  let q := Qred q in
  if (Zpos (Qden q) =? 1)%Z then showInt (Qnum q)
  else showInt (Qnum q) +:+ "/" +:+ showInt (Zpos (Qden q)).

Definition showTime (t : Z) : string := String "T"%char (showInt t).

Definition readTime (s : string) : Date :=
  match s with
  | String "T"%char r =>
      match NilEmpty.int_of_string r with
      | Some d => TimeValue (Z.of_int d)
      | None => InvalidDate
      end
  | _ => InvalidDate
  end.

#[export] Instance runtime : Runtime :=
  {| numberToString := showNumber;
     toISOString := showTime;
     parseDate := readTime;
     pathJoin := fun dir file => dir +:+ "/" +:+ file;
     notIterable := "serialized.missions is not iterable" |}.

(** A clock that starts at [t] and advances by one millisecond a reading. *)
Definition clockFrom (t : Z) : Clock := fun k => t + Z.of_nat k.

Definition config : StateConfig.t :=
  {| StateConfig.stateDir := "./.state";
     StateConfig.enablePersistence := true;
     StateConfig.completedRetentionDays := 30;
     StateConfig.failedRetentionDays := 90 |}.

(** [define_mission] with [NUMERIC], [value > 100] and [maxAttempts] as
    given. *)
Definition defineNumeric (maxAttempts : Z)
  : DefineMissionTool.DefineMissionInput :=
  {| DefineMissionTool.goal := "Raise the score above 100";
     DefineMissionTool.strategy := "NUMERIC";
     DefineMissionTool.criteria :=
       <["operator" := JStr ">"]> (<["threshold" := JNum 100]> ∅);
     DefineMissionTool.maxAttempts := Some maxAttempts;
     DefineMissionTool.enableCheckpoints := None;
     DefineMissionTool.checkpointFrequency := None |}.

(** [define_mission] with [EXIT_CODE] and an empty criteria object. *)
Definition defineExitCodeBare : DefineMissionTool.DefineMissionInput :=
  {| DefineMissionTool.goal := "Make the tests pass";
     DefineMissionTool.strategy := "EXIT_CODE";
     DefineMissionTool.criteria := ∅;
     DefineMissionTool.maxAttempts := None;
     DefineMissionTool.enableCheckpoints := None;
     DefineMissionTool.checkpointFrequency := None |}.

Definition submit (id : string) (v : Q) : SubmitAttemptTool.SubmitAttemptInput :=
  {| SubmitAttemptTool.missionId := id;
     SubmitAttemptTool.output := "measured";
     SubmitAttemptTool.value := Some (VNum v) |}.

Definition abort (id reason : string) : AbortMissionTool.AbortMissionInput :=
  {| AbortMissionTool.missionId := id;
     AbortMissionTool.reason := Some reason |}.

(** The store after [define_mission] of [defineNumeric max] under the
    identifier [m1]. *)
Definition defined (max : Z) : StateManager.t :=
  (DefineMissionTool.execute (StateManager.new config) (defineNumeric max)
     "m1" (clockFrom 1000)).1.

(** ... and after one failing attempt. *)
Definition failedOnce (max : Z) : StateManager.t :=
  (SubmitAttemptTool.execute (defined max) (submit "m1" 50) (clockFrom 2000)).1.1.

(** ... and after an [abort_mission] with the reason [first]. *)
Definition abortedOnce : StateManager.t :=
  (AbortMissionTool.execute (defined 3) (abort "m1" "first") (clockFrom 2000)).1.

(** The mission that a store holds under [id] (a blank one when it holds
    none). *)
Definition blank : Mission.t :=
  {| Mission.config :=
       {| MissionConfig.id := EmptyString;
          MissionConfig.goal := EmptyString;
          MissionConfig.criteria := ExitCodeCriteria 0 JUndefined;
          MissionConfig.maxAttempts := None;
          MissionConfig.enableCheckpoints := None;
          MissionConfig.checkpointFrequency := None;
          MissionConfig.attemptTimeout := None |};
     Mission.state := PENDING;
     Mission.createdAt := InvalidDate;
     Mission.updatedAt := InvalidDate;
     Mission.attempts := [];
     Mission.currentAttempt := 0;
     Mission.completedAt := None;
     Mission.success := None;
     Mission.errorMessage := None |}.

Definition held (sm : StateManager.t) (id : string) : Mission.t :=
  default blank (StateManager.missions sm !! id).

(** [define_mission] with [NUMERIC] and the string [high] as threshold. *)
Definition defineBadThreshold : DefineMissionTool.DefineMissionInput :=
  {| DefineMissionTool.goal := "Raise the score";
     DefineMissionTool.strategy := "NUMERIC";
     DefineMissionTool.criteria :=
       <["operator" := JStr ">"]> (<["threshold" := JStr "high"]> ∅);
     DefineMissionTool.maxAttempts := None;
     DefineMissionTool.enableCheckpoints := None;
     DefineMissionTool.checkpointFrequency := None |}.

(** A mission with five attempts is defined, two results that fail are
    submitted, a result is submitted to a mission that does not exist, and
    the mission is aborted. *)
Definition exampleOperations : list Operation :=
  [ DefineMission (defineNumeric 5) "m1" (clockFrom 1000);
    SubmitAttempt (submit "m1" 50) (clockFrom 2000);
    SubmitAttempt (submit "m0" 500) (clockFrom 2500);
    SubmitAttempt (submit "m1" 60) (clockFrom 3000);
    AbortMission (abort "m1" "stop") (clockFrom 4000) ].

Definition emptyDir : Fs.Dir :=
  {| Fs.stateFile := None; Fs.tempFile := None; Fs.backupFile := None;
     Fs.refusal := fun _ => None |}.



(** The store after a failed and then a passing attempt: the mission is
    COMPLETED and has a [completedAt]. *)
Definition completedStore : StateManager.t :=
  (SubmitAttemptTool.execute (failedOnce 3) (submit "m1" 150)
     (clockFrom 3000)).1.1.

(** A mission with three attempts is defined; a failing and then a passing
    result are submitted. *)
Definition completingOperations : list Operation :=
  [ DefineMission (defineNumeric 3) "m1" (clockFrom 1000);
    SubmitAttempt (submit "m1" 50) (clockFrom 2000);
    SubmitAttempt (submit "m1" 150) (clockFrom 3000) ].

(** What is tried on the mission afterwards. *)
Definition laterOperations : list Operation :=
  [ SubmitAttempt (submit "m1" 500) (clockFrom 4000);
    AbortMission (abort "m1" "too late") (clockFrom 5000);
    DefineMission (defineNumeric 7) "m1" (clockFrom 6000) ].

End Example.

(** * Properties *)

(** ** AttemptCounter *)

Section AttemptCounterFacts.
Context `{Runtime}.
Import AttemptCounter.

Lemma fromCurrentAttempt_ok (n : Z) (cfg : AttemptCounterConfig) :
  0 <= n <= maxAttempts cfg ->
  fromCurrentAttempt n cfg =
    (Ok {| currentAttempt := n;
           config_maxAttempts := maxAttempts cfg;
           config_warnThreshold := default 3 (warnThreshold cfg) |}, []).
Proof.
  intros [Hlo Hhi]. unfold fromCurrentAttempt.
  destruct (Z.ltb_spec n 0) as [Hneg|_]; [lia|].
  destruct (Z.gtb_spec n (maxAttempts cfg)) as [Hgt|_]; [lia|].
  reflexivity.
Qed.

Lemma fromCurrentAttempt_silent (n : Z) (cfg : AttemptCounterConfig) :
  (fromCurrentAttempt n cfg).2 = [].
Proof.
  unfold fromCurrentAttempt.
  destruct (n <? 0); [reflexivity|].
  destruct (n >? maxAttempts cfg); reflexivity.
Qed.

Lemma increment_at_limit (c : t) :
  currentAttempt c = config_maxAttempts c ->
  exists c' e, increment c = (c', Throw e, []).
Proof.
  intros Heq. unfold increment. simpl.
  destruct (Z.gtb_spec (currentAttempt c + 1) (config_maxAttempts c)) as [_|Hle];
    [eauto | lia].
Qed.

Lemma increment_below_limit (c : t) :
  currentAttempt c < config_maxAttempts c ->
  exists log,
    increment c =
      ({| currentAttempt := currentAttempt c + 1;
          config_maxAttempts := config_maxAttempts c;
          config_warnThreshold := config_warnThreshold c |},
       Ok (currentAttempt c + 1), log).
Proof.
  intros Hlt. unfold increment. simpl.
  destruct (Z.gtb_spec (currentAttempt c + 1) (config_maxAttempts c)) as [Hgt|_];
    [lia | eauto].
Qed.

(** C9.  Restoring a counter at a known count [n] succeeds exactly when
    [0 <= n <= maxAttempts]; the restored counter holds [n] itself, and the
    restoration logs no warning.  Restored at 8 of 10 with a warning
    threshold of 3 it has logged nothing, and the one increment that
    follows returns 9 and logs exactly one warning. *)
Theorem fromCurrentAttempt_restores (n : Z) (cfg : AttemptCounterConfig) :
  (isOk (fromCurrentAttempt n cfg).1 = true <-> 0 <= n <= maxAttempts cfg)
  /\ (forall c, (fromCurrentAttempt n cfg).1 = Ok c ->
        currentAttempt c = n /\ config_maxAttempts c = maxAttempts cfg)
  /\ (fromCurrentAttempt n cfg).2 = []
  /\ (let cfg10 := {| maxAttempts := 10; warnThreshold := Some 3 |} in
      exists c8,
        fromCurrentAttempt 8 cfg10 = (Ok c8, [])
        /\ currentAttempt c8 = 8
        /\ exists c9 warning,
             increment c8 = (c9, Ok 9, [LogWarn warning])
             /\ currentAttempt c9 = 9).
Proof.
  split; [|split; [|split]].
  - unfold fromCurrentAttempt.
    destruct (Z.ltb_spec n 0) as [Hneg|Hnn]; simpl.
    { split; [discriminate | lia]. }
    destruct (Z.gtb_spec n (maxAttempts cfg)) as [Hgt|Hle]; simpl.
    { split; [discriminate | lia]. }
    split; [lia | reflexivity].
  - intros c. unfold fromCurrentAttempt.
    destruct (n <? 0); simpl; [discriminate|].
    destruct (n >? maxAttempts cfg); simpl; [discriminate|].
    intros [= <-]. split; reflexivity.
  - apply fromCurrentAttempt_silent.
  - simpl. eexists. split; [reflexivity|]. split; [reflexivity|].
    do 2 eexists. split; reflexivity.
Qed.
End AttemptCounterFacts.

(** ** Validators *)

Section ValidatorFacts.
Context `{Runtime}.

(** C8, as the code has it.  A [value] of type number decides the result of
    the Numeric and ExitCode validators: the result does not depend on
    [output], the reported [actualValue] is the value, and [passed] is the
    comparison of the value.  A [value] of type string is not used by
    them, and no [value] is used by the Keyword validator: the result is
    the one obtained from [output] alone. *)
Theorem numeric_value_takes_precedence :
  (forall operator threshold metricName n,
      valueTakesPrecedence (NumericCriteria operator threshold metricName) (VNum n)
      /\ forall clock output r,
           validate (NumericCriteria operator threshold metricName) clock output
             (Some (VNum n)) = Ok r ->
           ValidationResult.actualValue r = Some (VNum n)
           /\ compare n operator threshold = Ok (ValidationResult.passed r))
  /\ (forall expectedCode command n,
      valueTakesPrecedence (ExitCodeCriteria expectedCode command) (VNum n)
      /\ forall clock output,
           exists r,
             validate (ExitCodeCriteria expectedCode command) clock output
               (Some (VNum n)) = Ok r
             /\ ValidationResult.actualValue r = Some (VNum n)
             /\ ValidationResult.passed r = Qeq_bool n expectedCode)
  /\ (forall operator threshold metricName clock output s,
      validate (NumericCriteria operator threshold metricName) clock output
        (Some (VStr s))
      = validate (NumericCriteria operator threshold metricName) clock output None)
  /\ (forall expectedCode command clock output s,
      validate (ExitCodeCriteria expectedCode command) clock output (Some (VStr s))
      = validate (ExitCodeCriteria expectedCode command) clock output None)
  /\ (forall keyword mustContain caseSensitive clock output v,
      validate (KeywordCriteria keyword mustContain caseSensitive) clock output
        (Some v)
      = validate (KeywordCriteria keyword mustContain caseSensitive) clock output
          None).
Proof.
  split; [|split; [|split; [|split]]].
  - intros operator threshold metricName n. split.
    + intros clock output1 output2. reflexivity.
    + intros clock output r. simpl. unfold NumericValidator_validate.
      destruct (compare n operator threshold); simpl; [|discriminate].
      intros [= <-]. split; reflexivity.
  - intros expectedCode command n. split.
    + intros clock output1 output2. reflexivity.
    + intros clock output. simpl. unfold ExitCodeValidator_validate.
      eexists. split; [reflexivity|]. split; reflexivity.
  - reflexivity.
  - reflexivity.
  - reflexivity.
Qed.
End ValidatorFacts.

Section ValidatorExamples.
#[local] Existing Instance Example.runtime.

(** C8 fails as stated: the Keyword validator is given the explicit value
  [FAILURE] twice, and its result follows the output: passed and [found]
  on one output, failed and [not found] on the other. *)
Lemma keyword_value_ignored :
let criteria := KeywordCriteria "SUCCESS" true JUndefined in
let clock := Example.clockFrom 0 in
~ valueTakesPrecedence criteria (VStr "FAILURE")
/\ (exists r, validate criteria clock "SUCCESS" (Some (VStr "FAILURE")) = Ok r
              /\ ValidationResult.passed r = true
              /\ ValidationResult.actualValue r = Some (VStr "found"))
/\ (exists r, validate criteria clock "FAILURE" (Some (VStr "FAILURE")) = Ok r
              /\ ValidationResult.passed r = false
              /\ ValidationResult.actualValue r = Some (VStr "not found")).
Proof.
split; [|split].
- intros Hp.
  specialize (Hp (Example.clockFrom 0) "SUCCESS" "FAILURE").
  vm_compute in Hp. discriminate Hp.
- eexists. split; [vm_compute; reflexivity|]. split; reflexivity.
- eexists. split; [vm_compute; reflexivity|]. split; reflexivity.
Qed.

End ValidatorExamples.

(** ** The store *)

Lemma missions_debouncedSave (sm : StateManager.t) :
  StateManager.missions (StateManager.debouncedSave sm) = StateManager.missions sm.
Proof.
  unfold StateManager.debouncedSave.
  destruct (negb _ || _); reflexivity.
Qed.

Lemma checkpoints_debouncedSave (sm : StateManager.t) :
  StateManager.checkpoints (StateManager.debouncedSave sm)
  = StateManager.checkpoints sm.
Proof.
  unfold StateManager.debouncedSave.
  destruct (negb _ || _); reflexivity.
Qed.

Lemma dirty_debouncedSave (sm : StateManager.t) :
  StateConfig.enablePersistence (StateManager.config sm) = true ->
  StateManager.isShuttingDown sm = false ->
  StateManager.isDirty (StateManager.debouncedSave sm) = true
  /\ StateManager.saveTimer (StateManager.debouncedSave sm) = true.
Proof.
  intros He Hs. unfold StateManager.debouncedSave.
  rewrite He, Hs. simpl. split; reflexivity.
Qed.

(** [updateMission] on the object just assigned to, when the object is held
    under its own identifier. *)
Lemma updateMission_assigned (sm : StateManager.t) (id : string)
    (m : Mission.t) (clock : Clock) (k : nat) :
  MissionConfig.id (Mission.config m) = id ->
  StateManager.updateMission (StateManager.assign sm id m) m clock k
  = Ok (StateManager.debouncedSave
          (StateManager.assign sm id (Mission.set_updatedAt (now clock k) m))).
Proof.
  intros <-. unfold StateManager.updateMission, StateManager.assign. simpl.
  rewrite lookup_insert_eq. rewrite insert_insert_eq. reflexivity.
Qed.

(** ** SubmitAttempt at the limit *)

Section SubmitAtLimit.
Context `{Runtime}.
Import SubmitAttemptTool.

Lemma exhaust_keyed (sm : StateManager.t) (id : string) (mission : Mission.t)
    (clock : Clock) :
  MissionConfig.id (Mission.config mission) = id ->
  exhaust sm id mission clock
  = (StateManager.debouncedSave
       (StateManager.assign sm id (failedMission mission clock)),
     Exhausted (Mission.currentAttempt mission)
       (MissionConfig.maxAttempts (Mission.config mission))).
Proof.
  intros Hid. unfold exhaust.
  rewrite updateMission_assigned by exact Hid.
  reflexivity.
Qed.

Lemma execute_at_limit (sm : StateManager.t)
    (input : SubmitAttemptInput) (clock : Clock) (mission : Mission.t) :
  StateManager.missions sm !! missionId input = Some mission ->
  MissionConfig.id (Mission.config mission) = missionId input ->
  Mission.state mission = IN_PROGRESS ->
  0 <= Mission.currentAttempt mission ->
  Mission.currentAttempt mission
    = default 10 (MissionConfig.maxAttempts (Mission.config mission)) ->
  execute sm input clock
  = (StateManager.debouncedSave
       (StateManager.assign sm (missionId input) (failedMission mission clock)),
     Exhausted (Mission.currentAttempt mission)
       (MissionConfig.maxAttempts (Mission.config mission)),
     []).
Proof.
  intros Hget Hid Hstate Hcount Hmax.
  unfold execute, StateManager.getMission. rewrite Hget, Hstate. simpl.
  rewrite fromCurrentAttempt_ok by (simpl; rewrite <- Hmax; lia).
  destruct (increment_at_limit
              {| AttemptCounter.currentAttempt := Mission.currentAttempt mission;
                 AttemptCounter.config_maxAttempts :=
                   default 10 (MissionConfig.maxAttempts (Mission.config mission));
                 AttemptCounter.config_warnThreshold := 3 |})
    as (c' & e & Hinc); [exact Hmax|].
  simpl in Hinc |- *. rewrite Hinc.
  rewrite exhaust_keyed by exact Hid.
  reflexivity.
Qed.

(** C2.  A mission in progress whose [currentAttempt] has reached
    [maxAttempts] is moved to FAILED by the next SubmitAttempt, in one step:
    [completedAt] is the current time, [success] is false, [errorMessage] is
    "Maximum attempts exceeded", the mission is stored and the store marked
    dirty, and the answer is the terminal failure ([final = true]), not a
    validation result and not an error. *)
Theorem submit_at_limit_is_terminal (sm : StateManager.t)
    (input : SubmitAttemptInput) (clock : Clock) (mission : Mission.t) :
  StateManager.missions sm !! missionId input = Some mission ->
  MissionConfig.id (Mission.config mission) = missionId input ->
  Mission.state mission = IN_PROGRESS ->
  Mission.currentAttempt mission
    = Z.of_nat (List.length (Mission.attempts mission)) ->
  Mission.currentAttempt mission
    = default 10 (MissionConfig.maxAttempts (Mission.config mission)) ->
  exists sm' response,
    execute sm input clock = (sm', response, [])
    /\ response = Exhausted (Mission.currentAttempt mission)
                    (MissionConfig.maxAttempts (Mission.config mission))
    /\ final response = Some true
    /\ passed response = Some false
    /\ success response = false
    /\ StateManager.missions sm'
       = <[missionId input := failedMission mission clock]> (StateManager.missions sm)
    /\ (StateConfig.enablePersistence (StateManager.config sm) = true ->
        StateManager.isShuttingDown sm = false ->
        StateManager.isDirty sm' = true /\ StateManager.saveTimer sm' = true).
Proof.
  intros Hget Hid Hstate Hcount Hmax.
  do 2 eexists. split.
  { apply execute_at_limit; try eassumption. lia. }
  split; [reflexivity|]. split; [reflexivity|]. split; [reflexivity|].
  split; [reflexivity|]. split.
  - rewrite missions_debouncedSave. reflexivity.
  - intros He Hs. apply dirty_debouncedSave; assumption.
Qed.
End SubmitAtLimit.

Section SubmitAtLimitExamples.
#[local] Existing Instance Example.runtime.

(** The theorem at the mission of [Example.failedOnce 1]: one attempt of
    one allowed is used, and a second result is submitted. *)
Lemma submit_at_limit_is_terminal_witness :
  exists sm' response,
    SubmitAttemptTool.execute (Example.failedOnce 1) (Example.submit "m1" 150)
      (Example.clockFrom 3000) = (sm', response, [])
    /\ SubmitAttemptTool.final response = Some true
    /\ (exists m, StateManager.missions sm' !! "m1" = Some m
                  /\ Mission.state m = FAILED
                  /\ Mission.completedAt m = Some (TimeValue 3000)
                  /\ Mission.success m = Some false
                  /\ Mission.errorMessage m = Some "Maximum attempts exceeded").
Proof.
  destruct (submit_at_limit_is_terminal (Example.failedOnce 1)
              (Example.submit "m1" 150) (Example.clockFrom 3000)
              (Example.held (Example.failedOnce 1) "m1"))
    as (sm' & response & Hexec & Hresp & Hfinal & _ & _ & Hstore & _).
  - vm_compute. reflexivity.
  - vm_compute. reflexivity.
  - vm_compute. reflexivity.
  - vm_compute. reflexivity.
  - vm_compute. reflexivity.
  - exists sm', response. split; [exact Hexec|]. split; [exact Hfinal|].
    eexists. split; [rewrite Hstore; apply lookup_insert_eq|].
    repeat split.
Defined.
End SubmitAtLimitExamples.

(** ** The exhausted path touches five fields *)

Section ExhaustedFrame.
Context `{Runtime}.
Import SubmitAttemptTool.

Lemma record_not_exhausted (sm : StateManager.t) (input : SubmitAttemptInput)
    (mission : Mission.t) (counter : AttemptCounter.t) (n : Z) (clock : Clock)
    (sm' : StateManager.t) (used : Z) (max : option Z) :
  record sm input mission counter n clock <> (sm', Exhausted used max).
Proof.
  unfold record.
  destruct (validate _ _ _ _) as [vr|e]; [|intros [=]].
  destruct (ValidationResult.passed vr);
    destruct (StateManager.updateMission _ _ _ _); intros [=].
Qed.

Lemma exhaust_frame (sm : StateManager.t) (id : string) (mission : Mission.t)
    (clock : Clock) (sm' : StateManager.t) (used : Z) (max : option Z) :
  exhaust sm id mission clock = (sm', Exhausted used max) ->
  exists after,
    StateManager.missions sm' !! id = Some after
    /\ Mission.attempts after = Mission.attempts mission
    /\ Mission.currentAttempt after = Mission.currentAttempt mission
    /\ Mission.config after = Mission.config mission
    /\ Mission.createdAt after = Mission.createdAt mission.
Proof.
  unfold exhaust, StateManager.updateMission.
  destruct (StateManager.missions (StateManager.assign sm id _) !! _);
    [|intros [=]].
  intros [= <- _ _]. rewrite missions_debouncedSave. simpl.
  destruct (decide (MissionConfig.id (Mission.config mission) = id)) as [->|Hne].
  - rewrite lookup_insert_eq. eexists. split; [reflexivity|]. repeat split.
  - rewrite lookup_insert_ne by exact Hne. rewrite lookup_insert_eq.
    eexists. split; [reflexivity|]. repeat split.
Qed.

(** C10.  When SubmitAttempt answers that the attempts are exhausted, no
    attempt is recorded: the mission keeps its [attempts] and its
    [currentAttempt], and also its [config] and [createdAt]; what the path
    assigns is [state], [completedAt], [success], [errorMessage] and
    [updatedAt]. *)
Theorem exhausted_submit_records_nothing (sm : StateManager.t)
    (input : SubmitAttemptInput) (clock : Clock)
    (sm' : StateManager.t) (used : Z) (max : option Z) (log : list LogEntry) :
  execute sm input clock = (sm', Exhausted used max, log) ->
  exists before after,
    StateManager.missions sm !! missionId input = Some before
    /\ StateManager.missions sm' !! missionId input = Some after
    /\ Mission.attempts after = Mission.attempts before
    /\ Mission.currentAttempt after = Mission.currentAttempt before
    /\ Mission.config after = Mission.config before
    /\ Mission.createdAt after = Mission.createdAt before.
Proof.
  unfold execute, StateManager.getMission.
  destruct (StateManager.missions sm !! missionId input) as [mission|] eqn:Hget;
    [|intros [=]].
  destruct (negb _); [intros [=]|].
  destruct (AttemptCounter.fromCurrentAttempt _ _) as [[counter|e] log0];
    [|intros [=]].
  destruct (AttemptCounter.increment counter) as [[counter' [n|e]] log1].
  - intros Hrec.
    destruct (record sm input mission counter' n clock) as [sm1 r1] eqn:Hr.
    injection Hrec as -> -> _.
    exfalso. exact (record_not_exhausted _ _ _ _ _ _ _ _ _ Hr).
  - intros Hex.
    destruct (exhaust sm (missionId input) mission clock) as [sm1 r1] eqn:He.
    injection Hex as -> -> _.
    destruct (exhaust_frame _ _ _ _ _ _ _ He) as (after & Hafter & Hrest).
    exists mission, after. split; [reflexivity|]. split; [exact Hafter|exact Hrest].
Qed.
End ExhaustedFrame.

Section ExhaustedFrameExamples.
#[local] Existing Instance Example.runtime.

(** The theorem at the second submit to [Example.failedOnce 1]. *)
Lemma exhausted_submit_records_nothing_witness :
  exists before after,
    StateManager.missions (Example.failedOnce 1) !! "m1" = Some before
    /\ StateManager.missions
         (SubmitAttemptTool.execute (Example.failedOnce 1)
            (Example.submit "m1" 150) (Example.clockFrom 3000)).1.1
       !! "m1" = Some after
    /\ Mission.attempts after = Mission.attempts before
    /\ Mission.currentAttempt after = Mission.currentAttempt before
    /\ Mission.config after = Mission.config before
    /\ Mission.createdAt after = Mission.createdAt before.
Proof.
  apply (exhausted_submit_records_nothing (Example.failedOnce 1)
           (Example.submit "m1" 150) (Example.clockFrom 3000)
           (SubmitAttemptTool.execute (Example.failedOnce 1)
              (Example.submit "m1" 150) (Example.clockFrom 3000)).1.1
           1 (Some 1) []).
  vm_compute. reflexivity.
Defined.
End ExhaustedFrameExamples.

(** ** AbortMission *)

(** A mission that is COMPLETED or FAILED is not aborted: the call is
    rejected and the store is left as it was. *)
Lemma abort_rejects_completed_or_failed (sm : StateManager.t)
    (input : AbortMissionTool.AbortMissionInput) (clock : Clock)
    (mission : Mission.t) :
  StateManager.missions sm !! AbortMissionTool.missionId input = Some mission ->
  Mission.state mission = COMPLETED \/ Mission.state mission = FAILED ->
  AbortMissionTool.execute sm input clock
  = (sm, AbortMissionTool.Rejected (Mission.state mission)).
Proof.
  intros Hget Hstate.
  unfold AbortMissionTool.execute, StateManager.getMission. rewrite Hget.
  destruct Hstate as [-> | ->]; reflexivity.
Qed.

(** The guard of [AbortMissionTool.execute] lets every other state through,
    ABORTED included. *)
Lemma abort_guard_passes_aborted :
  MissionState_eqb ABORTED COMPLETED || MissionState_eqb ABORTED FAILED = false.
Proof. reflexivity. Qed.

Section AbortExamples.
#[local] Existing Instance Example.runtime.

(** C6, on the code.  [Example.abortedOnce] holds a mission that was
    aborted at time 2000 for the reason [first].  A second AbortMission is
    not rejected: it answers with success and overwrites [completedAt] and
    [errorMessage] of the mission, which was already in a terminal state. *)
Theorem abort_of_aborted_mission_is_accepted :
  let before := Example.held Example.abortedOnce "m1" in
  let run := AbortMissionTool.execute Example.abortedOnce
               (Example.abort "m1" "second") (Example.clockFrom 3000) in
  let after := Example.held run.1 "m1" in
  terminal (Mission.state before) = true
  /\ Mission.state before = ABORTED
  /\ Mission.completedAt before = Some (TimeValue 2000)
  /\ Mission.errorMessage before = Some "first"
  /\ run.2 = AbortMissionTool.Aborted "m1" 0 (Some "second")
  /\ AbortMissionTool.success run.2 = true
  /\ Mission.completedAt after = Some (TimeValue 3000)
  /\ Mission.errorMessage after = Some "second".
Proof.
  vm_compute. repeat split.
Qed.
End AbortExamples.

(** ** DefineMission and malformed criteria *)

Section DefineFacts.
Context `{Runtime}.
Import DefineMissionTool.

Lemma validate_numeric_rejected (operator threshold metricName : JsValue) :
  negb (isNumber threshold) || negb (truthy operator) = true ->
  exists reason,
    MissionDefiner.validateCriteria
      {| CriteriaObject.strategy := JStr "NUMERIC";
         CriteriaObject.operator := operator;
         CriteriaObject.threshold := threshold;
         CriteriaObject.metricName := metricName;
         CriteriaObject.expectedCode := JUndefined;
         CriteriaObject.command := JUndefined;
         CriteriaObject.keyword := JUndefined;
         CriteriaObject.mustContain := JUndefined;
         CriteriaObject.caseSensitive := JUndefined |}
    = Throw (InvalidCriteriaError reason).
Proof.
  intros Hbad. unfold MissionDefiner.validateCriteria. simpl.
  destruct threshold; simpl in *; eauto.
  rewrite Hbad. simpl. eauto.
Qed.

Lemma validate_exit_code_rejected (expectedCode command : JsValue) :
  isNumber expectedCode = false ->
  exists reason,
    MissionDefiner.validateCriteria
      {| CriteriaObject.strategy := JStr "EXIT_CODE";
         CriteriaObject.operator := JUndefined;
         CriteriaObject.threshold := JUndefined;
         CriteriaObject.metricName := JUndefined;
         CriteriaObject.expectedCode := expectedCode;
         CriteriaObject.command := command;
         CriteriaObject.keyword := JUndefined;
         CriteriaObject.mustContain := JUndefined;
         CriteriaObject.caseSensitive := JUndefined |}
    = Throw (InvalidCriteriaError reason).
Proof.
  intros Hbad. unfold MissionDefiner.validateCriteria. simpl.
  destruct expectedCode; simpl in *; eauto. discriminate.
Qed.

Lemma validate_keyword_rejected (keyword mustContain caseSensitive : JsValue) :
  negb (isNonEmptyString keyword) || negb (isBoolean mustContain) = true ->
  exists reason,
    MissionDefiner.validateCriteria
      {| CriteriaObject.strategy := JStr "KEYWORD";
         CriteriaObject.operator := JUndefined;
         CriteriaObject.threshold := JUndefined;
         CriteriaObject.metricName := JUndefined;
         CriteriaObject.expectedCode := JUndefined;
         CriteriaObject.command := JUndefined;
         CriteriaObject.keyword := keyword;
         CriteriaObject.mustContain := mustContain;
         CriteriaObject.caseSensitive := caseSensitive |}
    = Throw (InvalidCriteriaError reason).
Proof.
  intros Hbad. unfold MissionDefiner.validateCriteria. simpl.
  destruct keyword as [| | | |k|]; simpl in *; eauto.
  destruct (Str.length k =? 0)%N; simpl in *; eauto.
  destruct mustContain; simpl in *; eauto. discriminate.
Qed.

(** C7, as the code has it.  DefineMission fails with an InvalidCriteria
    error, and leaves the store as it was, when the criteria are rejected:
    Numeric without a number as [threshold] or without an [operator];
    ExitCode with an [expectedCode] that is present and not a number; Keyword
    without a non-empty string as [keyword] or with a [mustContain] that is
    present and not a boolean.  An absent [expectedCode] is read as 0 and an
    absent [mustContain] as true: with them the mission is created under a
    fresh identifier. *)
Theorem define_rejects_invalid_criteria (sm : StateManager.t)
    (input : DefineMissionInput) (uuid : string) (clock : Clock) :
  (rejectedCriteria input = true ->
   exists reason,
     execute sm input uuid clock = (sm, Failed (InvalidCriteriaError reason)))
  /\ (strategy input = "EXIT_CODE" ->
      getProp (criteria input) "expectedCode" = JUndefined ->
      StateManager.missions sm !! uuid = None ->
      exists sm' m,
        execute sm input uuid clock
        = (sm', Created uuid (goal input) (JStr "EXIT_CODE")
                  (Some (default 10 (maxAttempts input))))
        /\ StateManager.missions sm' !! uuid = Some m
        /\ MissionConfig.criteria (Mission.config m)
           = ExitCodeCriteria 0 (getProp (criteria input) "command"))
  /\ (strategy input = "KEYWORD" ->
      getProp (criteria input) "mustContain" = JUndefined ->
      isNonEmptyString (getProp (criteria input) "keyword") = true ->
      StateManager.missions sm !! uuid = None ->
      exists sm' m keyword,
        execute sm input uuid clock
        = (sm', Created uuid (goal input) (JStr "KEYWORD")
                  (Some (default 10 (maxAttempts input))))
        /\ StateManager.missions sm' !! uuid = Some m
        /\ MissionConfig.criteria (Mission.config m)
           = KeywordCriteria keyword true
               (nullish (getProp (criteria input) "caseSensitive") (JBool true))).
Proof.
  split; [|split].
  - unfold rejectedCriteria, execute, parseCriteria, MissionDefiner.defineMission.
    destruct (String.eqb (strategy input) "NUMERIC").
    { intros Hbad. simpl.
      destruct (validate_numeric_rejected _ _
                  (getProp (criteria input) "metricName") Hbad) as [reason ->].
      eauto. }
    destruct (String.eqb (strategy input) "EXIT_CODE").
    { intros Hbad. simpl. apply negb_true_iff in Hbad.
      destruct (validate_exit_code_rejected _
                  (getProp (criteria input) "command") Hbad) as [reason ->].
      eauto. }
    destruct (String.eqb (strategy input) "KEYWORD"); [|discriminate].
    intros Hbad. simpl.
    destruct (validate_keyword_rejected _ _
                (nullish (getProp (criteria input) "caseSensitive") (JBool true))
                Hbad) as [reason ->].
    eauto.
  - intros Hs Hcode Hfresh.
    unfold execute, parseCriteria, MissionDefiner.defineMission,
      MissionDefiner.validateCriteria, StateManager.addMission.
    rewrite Hs, Hcode. simpl. rewrite Hfresh.
    do 2 eexists. split; [reflexivity|].
    rewrite missions_debouncedSave. simpl. rewrite lookup_insert_eq.
    split; reflexivity.
  - intros Hs Hmust Hkey Hfresh.
    unfold execute, parseCriteria, MissionDefiner.defineMission,
      MissionDefiner.validateCriteria, StateManager.addMission.
    rewrite Hs, Hmust. simpl.
    destruct (getProp (criteria input) "keyword") as [| | | |k|];
      simpl in Hkey; try discriminate.
    apply negb_true_iff in Hkey. rewrite Hkey. simpl. rewrite Hfresh.
    do 3 eexists. split; [reflexivity|].
    rewrite missions_debouncedSave. simpl. rewrite lookup_insert_eq.
    split; reflexivity.
Qed.
End DefineFacts.

Section DefineExamples.
#[local] Existing Instance Example.runtime.

(** The theorem at [Example.defineBadThreshold] and at [Example.defineExitCodeBare]. *)
Lemma define_rejects_invalid_criteria_witness :
  (exists reason,
     DefineMissionTool.execute (StateManager.new Example.config)
       Example.defineBadThreshold "m1" (Example.clockFrom 0)
     = (StateManager.new Example.config,
        DefineMissionTool.Failed (InvalidCriteriaError reason)))
  /\ (exists sm' m,
        DefineMissionTool.execute (StateManager.new Example.config)
          Example.defineExitCodeBare "m2" (Example.clockFrom 0)
        = (sm', DefineMissionTool.Created "m2" "Make the tests pass"
                  (JStr "EXIT_CODE") (Some 10))
        /\ StateManager.missions sm' !! "m2" = Some m
        /\ MissionConfig.criteria (Mission.config m)
           = ExitCodeCriteria 0 JUndefined).
Proof.
  split.
  - apply (define_rejects_invalid_criteria (StateManager.new Example.config)
             Example.defineBadThreshold "m1" (Example.clockFrom 0)).
    vm_compute. reflexivity.
  - apply (define_rejects_invalid_criteria (StateManager.new Example.config)
             Example.defineExitCodeBare "m2" (Example.clockFrom 0)).
    + vm_compute. reflexivity.
    + vm_compute. reflexivity.
    + vm_compute. reflexivity.
Defined.

(** C7 fails as stated: the criteria of [Example.defineExitCodeBare] lack
    the [expectedCode] that ExitCode requires, and DefineMission succeeds:
    the mission is created and stored. *)
Lemma define_accepts_missing_expected_code :
  let run := DefineMissionTool.execute (StateManager.new Example.config)
               Example.defineExitCodeBare "m2" (Example.clockFrom 0) in
  missingOrMistyped Example.defineExitCodeBare = true
  /\ DefineMissionTool.success run.2 = true
  /\ (forall reason,
        run.2 <> DefineMissionTool.Failed (InvalidCriteriaError reason))
  /\ is_Some (StateManager.missions run.1 !! "m2").
Proof.
  split; [vm_compute; reflexivity|].
  split; [vm_compute; reflexivity|].
  split.
  - intros reason. vm_compute. discriminate.
  - vm_compute. eexists. reflexivity.
Qed.
End DefineExamples.

(** ** SubmitAttempt below the limit *)

Section SubmitBelowLimit.
Context `{Runtime}.
Import SubmitAttemptTool.

Lemma record_keyed (sm : StateManager.t) (input : SubmitAttemptInput)
    (mission : Mission.t) (counter : AttemptCounter.t) (n : Z) (clock : Clock)
    (vr : ValidationResult.t) :
  MissionConfig.id (Mission.config mission) = missionId input ->
  validate (MissionConfig.criteria (Mission.config mission)) clock
    (output input) (value input) = Ok vr ->
  record sm input mission counter n clock
  = (StateManager.debouncedSave
       (StateManager.assign sm (missionId input)
          (recorded mission input clock vr n)),
     if ValidationResult.passed vr then Completed n vr
     else Retry (AttemptCounter.getRemainingAttempts counter) vr).
Proof.
  intros Hid Hval. unfold record. rewrite Hval.
  unfold recorded.
  destruct (ValidationResult.passed vr);
    rewrite updateMission_assigned by exact Hid; reflexivity.
Qed.


End SubmitBelowLimit.

(** ** DefineMission, when it succeeds *)

Section DefineCreated.
Context `{Runtime}.
Import DefineMissionTool.


End DefineCreated.

(** ** A mission with a single attempt *)

Section SingleAttempt.
Context `{Runtime}.
Import SubmitAttemptTool.

Lemma held_after_assign (sm : StateManager.t) (id : string) (m : Mission.t) :
  StateManager.missions (StateManager.debouncedSave (StateManager.assign sm id m))
  !! id = Some m.
Proof.
  rewrite missions_debouncedSave. simpl. apply lookup_insert_eq.
Qed.

Lemma execute_not_in_progress (sm : StateManager.t) (input : SubmitAttemptInput)
    (clock : Clock) (mission : Mission.t) :
  StateManager.missions sm !! missionId input = Some mission ->
  Mission.state mission <> IN_PROGRESS ->
  execute sm input clock = (sm, NotInProgress (Mission.state mission), []).
Proof.
  intros Hget Hstate. unfold execute, StateManager.getMission. rewrite Hget.
  destruct (Mission.state mission); try reflexivity. contradiction.
Qed.

End SingleAttempt.

Section SingleAttemptExamples.
#[local] Existing Instance Example.runtime.


End SingleAttemptExamples.

(** ** Sequences of operations *)

Section OperationEffects.
Context `{Runtime}.

Lemma submit_effect (sm : StateManager.t)
    (input : SubmitAttemptTool.SubmitAttemptInput) (clock : Clock) :
  keyed sm ->
  let result := SubmitAttemptTool.execute sm input clock in
  let id := SubmitAttemptTool.missionId input in
  (StateManager.missions result.1.1 = StateManager.missions sm
   /\ SubmitAttemptTool.success result.1.2 = false)
  \/ (exists mission,
        StateManager.missions sm !! id = Some mission
        /\ StateManager.missions result.1.1
           = <[id := failedMission mission clock]> (StateManager.missions sm)
        /\ SubmitAttemptTool.success result.1.2 = false)
  \/ (exists mission vr,
        StateManager.missions sm !! id = Some mission
        /\ StateManager.missions result.1.1
           = <[id := recorded mission input clock vr
                        (Mission.currentAttempt mission + 1)]>
               (StateManager.missions sm)
        /\ SubmitAttemptTool.success result.1.2 = true).
Proof.
  intros Hkeyed. simpl.
  unfold SubmitAttemptTool.execute, StateManager.getMission.
  destruct (StateManager.missions sm !! SubmitAttemptTool.missionId input)
    as [mission|] eqn:Hget; [|left; split; reflexivity].
  pose proof (Hkeyed _ _ Hget) as Hid.
  destruct (negb _); [left; split; reflexivity|].
  unfold AttemptCounter.fromCurrentAttempt.
  destruct (Mission.currentAttempt mission <? 0); [left; split; reflexivity|].
  destruct (Mission.currentAttempt mission >? _); [left; split; reflexivity|].
  unfold AttemptCounter.increment. simpl.
  destruct (Mission.currentAttempt mission + 1 >? _).
  - right. left. exists mission.
    rewrite exhaust_keyed by exact Hid. simpl.
    rewrite missions_debouncedSave. simpl. repeat split.
  - destruct (validate (MissionConfig.criteria (Mission.config mission)) clock
                (SubmitAttemptTool.output input) (SubmitAttemptTool.value input))
      as [vr|e] eqn:Hval.
    + right. right. exists mission, vr.
      rewrite (record_keyed _ _ _ _ _ _ vr) by assumption. simpl.
      rewrite missions_debouncedSave. simpl.
      split; [reflexivity|]. split; [reflexivity|].
      destruct (ValidationResult.passed vr); reflexivity.
    + left. unfold SubmitAttemptTool.record. rewrite Hval. split; reflexivity.
Qed.

Lemma abort_effect (sm : StateManager.t)
    (input : AbortMissionTool.AbortMissionInput) (clock : Clock) :
  keyed sm ->
  let sm' := (AbortMissionTool.execute sm input clock).1 in
  let id := AbortMissionTool.missionId input in
  StateManager.missions sm' = StateManager.missions sm
  \/ exists mission m',
       StateManager.missions sm !! id = Some mission
       /\ StateManager.missions sm' = <[id := m']> (StateManager.missions sm)
       /\ Mission.config m' = Mission.config mission
       /\ Mission.attempts m' = Mission.attempts mission
       /\ Mission.currentAttempt m' = Mission.currentAttempt mission.
Proof.
  intros Hkeyed. simpl.
  unfold AbortMissionTool.execute, StateManager.getMission.
  destruct (StateManager.missions sm !! AbortMissionTool.missionId input)
    as [mission|] eqn:Hget; [|left; reflexivity].
  pose proof (Hkeyed _ _ Hget) as Hid.
  destruct (_ || _); [left; reflexivity|].
  right. rewrite updateMission_assigned by exact Hid. simpl.
  rewrite missions_debouncedSave. simpl.
  eexists mission, _. split; [reflexivity|]. split; [reflexivity|].
  repeat split.
Qed.

Lemma define_effect (sm : StateManager.t)
    (input : DefineMissionTool.DefineMissionInput) (uuid : string)
    (clock : Clock) :
  let sm' := (DefineMissionTool.execute sm input uuid clock).1 in
  StateManager.missions sm' = StateManager.missions sm
  \/ exists criteria,
       StateManager.missions sm !! uuid = None
       /\ StateManager.missions sm'
          = <[uuid := freshMission input criteria uuid clock]>
              (StateManager.missions sm).
Proof.
  simpl. unfold DefineMissionTool.execute.
  destruct (DefineMissionTool.parseCriteria _ _) as [object|e];
    [|left; reflexivity].
  unfold MissionDefiner.defineMission. simpl.
  destruct (MissionDefiner.validateCriteria object) as [criteria|e]; simpl;
    [|left; reflexivity].
  unfold StateManager.addMission. simpl.
  destruct (StateManager.missions sm !! uuid) eqn:Hfresh; [left; reflexivity|].
  right. exists criteria. split; [reflexivity|]. simpl.
  rewrite missions_debouncedSave. reflexivity.
Qed.
End OperationEffects.

Section Invariant.
Context `{Runtime}.

Lemma consistent_same_attempts (m m' : Mission.t) :
  Mission.attempts m' = Mission.attempts m ->
  Mission.currentAttempt m' = Mission.currentAttempt m ->
  consistent m -> consistent m'.
Proof.
  unfold consistent. intros -> ->. auto.
Qed.

Lemma consistent_recorded (m : Mission.t)
    (input : SubmitAttemptTool.SubmitAttemptInput) (clock : Clock)
    (vr : ValidationResult.t) :
  consistent m ->
  consistent (recorded m input clock vr (Mission.currentAttempt m + 1)).
Proof.
  intros [Hcount Hnumbers]. unfold consistent, recorded. simpl.
  rewrite length_app. simpl. split; [lia|].
  rewrite map_app, Hnumbers. simpl.
  rewrite Nat.add_1_r, seq_S, map_app. simpl.
  do 2 f_equal. lia.
Qed.

Lemma sound_same (sm sm' : StateManager.t) :
  StateManager.missions sm' = StateManager.missions sm ->
  sound sm -> sound sm'.
Proof.
  unfold sound, keyed. intros ->. auto.
Qed.

Lemma sound_insert (sm sm' : StateManager.t) (id : string) (m : Mission.t) :
  StateManager.missions sm' = <[id := m]> (StateManager.missions sm) ->
  MissionConfig.id (Mission.config m) = id ->
  consistent m ->
  sound sm -> sound sm'.
Proof.
  unfold sound, keyed. intros -> Hid Hm [Hkeyed Hall]. split.
  - intros k m0. destruct (decide (id = k)) as [<-|Hne].
    + rewrite lookup_insert_eq. intros [= <-]. exact Hid.
    + rewrite lookup_insert_ne by exact Hne. apply Hkeyed.
  - intros k m0. destruct (decide (id = k)) as [<-|Hne].
    + rewrite lookup_insert_eq. intros [= <-]. exact Hm.
    + rewrite lookup_insert_ne by exact Hne. apply Hall.
Qed.

Lemma attemptsOf_same (sm sm' : StateManager.t) (k : string) :
  StateManager.missions sm' = StateManager.missions sm ->
  attemptsOf sm' k = attemptsOf sm k.
Proof.
  unfold attemptsOf. intros ->. reflexivity.
Qed.

Lemma attemptsOf_insert (sm sm' : StateManager.t) (id k : string)
    (m : Mission.t) :
  StateManager.missions sm' = <[id := m]> (StateManager.missions sm) ->
  attemptsOf sm' k
  = if String.eqb id k then List.length (Mission.attempts m) else attemptsOf sm k.
Proof.
  unfold attemptsOf. intros ->.
  destruct (String.eqb_spec id k) as [<-|Hne].
  - rewrite lookup_insert_eq. reflexivity.
  - rewrite lookup_insert_ne by exact Hne. reflexivity.
Qed.

(** One operation keeps the invariant, and adds one attempt to a mission
    exactly when it is an accepted submit on that mission. *)
Lemma step_sound (sm : StateManager.t) (op : Operation) :
  sound sm ->
  sound (step sm op)
  /\ forall id,
       attemptsOf (step sm op) id
       = (attemptsOf sm id + if accepted sm op id then 1 else 0)%nat.
Proof.
  intros Hsound. pose proof Hsound as [Hkeyed Hall].
  destruct op as [input uuid clock|input clock|input clock]; simpl.
  - destruct (define_effect sm input uuid clock) as [Hsame|(c & Hfresh & Hins)].
    + split; [exact (sound_same _ _ Hsame Hsound)|].
      intros id. rewrite (attemptsOf_same _ _ _ Hsame). lia.
    + split.
      * apply (sound_insert _ _ _ _ Hins); [reflexivity| |exact Hsound].
        split; reflexivity.
      * intros id. rewrite (attemptsOf_insert _ _ _ _ _ Hins).
        destruct (String.eqb_spec uuid id) as [<-|_]; [|lia].
        unfold attemptsOf. rewrite Hfresh. reflexivity.
  - destruct (submit_effect sm input clock Hkeyed)
      as [[Hsame Hno]|[(m & Hget & Hins & Hno)|(m & vr & Hget & Hins & Hyes)]];
      simpl in *.
    + split; [exact (sound_same _ _ Hsame Hsound)|].
      intros id. rewrite (attemptsOf_same _ _ _ Hsame), Hno.
      rewrite andb_false_r. lia.
    + split.
      * apply (sound_insert _ _ _ _ Hins); [exact (Hkeyed _ _ Hget)| |exact Hsound].
        apply (consistent_same_attempts m); [reflexivity..|exact (Hall _ _ Hget)].
      * intros id. rewrite (attemptsOf_insert _ _ _ _ _ Hins), Hno.
        rewrite andb_false_r.
        destruct (String.eqb_spec (SubmitAttemptTool.missionId input) id)
          as [<-|_]; [|lia].
        unfold attemptsOf. rewrite Hget. simpl. lia.
    + split.
      * apply (sound_insert _ _ _ _ Hins); [exact (Hkeyed _ _ Hget)| |exact Hsound].
        apply consistent_recorded. exact (Hall _ _ Hget).
      * intros id. rewrite (attemptsOf_insert _ _ _ _ _ Hins), Hyes.
        rewrite andb_true_r.
        destruct (String.eqb_spec (SubmitAttemptTool.missionId input) id)
          as [<-|_]; [|lia].
        unfold attemptsOf. rewrite Hget. simpl. rewrite length_app. simpl. lia.
  - destruct (abort_effect sm input clock Hkeyed)
      as [Hsame|(m & m' & Hget & Hins & Hcfg & Hatt & Hcur)]; simpl in *.
    + split; [exact (sound_same _ _ Hsame Hsound)|].
      intros id. rewrite (attemptsOf_same _ _ _ Hsame). lia.
    + split.
      * apply (sound_insert _ _ _ _ Hins);
          [rewrite Hcfg; exact (Hkeyed _ _ Hget)| |exact Hsound].
        exact (consistent_same_attempts m m' Hatt Hcur (Hall _ _ Hget)).
      * intros id. rewrite (attemptsOf_insert _ _ _ _ _ Hins).
        destruct (String.eqb_spec (AbortMissionTool.missionId input) id)
          as [<-|_]; [|lia].
        unfold attemptsOf. rewrite Hget, Hatt. lia.
Qed.

Lemma run_sound (ops : list Operation) (sm : StateManager.t) :
  sound sm ->
  sound (run sm ops)
  /\ forall id,
       attemptsOf (run sm ops) id
       = (attemptsOf sm id + acceptedSubmits sm ops id)%nat.
Proof.
  revert sm. induction ops as [|op rest IH]; intros sm Hsound; simpl.
  - split; [exact Hsound|]. intros id. lia.
  - destruct (step_sound sm op Hsound) as [Hstep Hone].
    destruct (IH (step sm op) Hstep) as [Hrest Hmany].
    split; [exact Hrest|].
    intros id. unfold run in Hmany. rewrite Hmany, Hone. lia.
Qed.

Lemma sound_new (config : StateConfig.t) : sound (StateManager.new config).
Proof.
  split; intros k m; simpl; rewrite lookup_empty; discriminate.
Qed.

End Invariant.

Section InvariantExamples.
#[local] Existing Instance Example.runtime.

End InvariantExamples.

(** ** Flushes and the backup file *)

Section Flushes.
Context `{Runtime}.


(** [saveState] once the store has serialized, in a directory where the
    temporary and the canonical file can be written. *)
Lemma saveState_serialized (sm : StateManager.t) (dir : Fs.Dir) (clock : Clock)
    (snapshot : SerializedState.t) :
  StateManager.serializeState sm clock = Ok snapshot ->
  Fs.refusal dir Fs.STATE_TEMP = None ->
  Fs.refusal dir Fs.STATE_FILE = None ->
  exists sm' dir',
    StateManager.saveState sm dir clock = (sm', dir', Ok tt)
    /\ StateManager.missions sm' = StateManager.missions sm
    /\ StateManager.checkpoints sm' = StateManager.checkpoints sm
    /\ StateManager.config sm' = StateManager.config sm
    /\ StateManager.isShuttingDown sm' = StateManager.isShuttingDown sm
    /\ StateManager.saveTimer sm' = StateManager.saveTimer sm
    /\ StateManager.isDirty sm' = false
    /\ StateManager.lastSaved sm' = Some (now clock 1)
    /\ Fs.stateFile dir' = Some (Fs.Json snapshot)
    /\ Fs.tempFile dir' = None
    /\ Fs.backupFile dir'
       = match Fs.stateFile dir, Fs.refusal dir Fs.STATE_BACKUP with
         | Some previous, None => Some previous
         | _, _ => Fs.backupFile dir
         end.
Proof.
  intros Hser Htemp Hfile. unfold StateManager.saveState. rewrite Hser.
  unfold Fs.writeFile. rewrite Htemp.
  unfold Fs.access, Fs.copyFile, Fs.rename. simpl.
  destruct (Fs.stateFile dir) as [previous|]; simpl;
    [destruct (Fs.refusal dir Fs.STATE_BACKUP) as [e|]; simpl|];
    rewrite Hfile;
    eexists; eexists; (split; [reflexivity|]); simpl; repeat split.
Qed.





End Flushes.

Section FlushExamples.
#[local] Existing Instance Example.runtime.


End FlushExamples.

(** ** Serialization round trip *)

Section RoundTrip.
Context `{Runtime}.
Hypothesis codec : isoCodec.
Import StateManager.

Lemma date_roundtrip (d : Date) :
  validDate d ->
  exists s, dateToISOString d = Ok s /\ parseDate s = d /\ s <> EmptyString.
Proof.
  destruct d as [t|]; [|intros []].
  intros Ht. destruct (codec t Ht) as [Hparse Hne].
  exists (toISOString t). auto.
Qed.

Lemma attempt_roundtrip (a : Attempt.t) :
  validAttempt a ->
  exists s, serializeAttempt a = Ok s /\ deserializeAttempt s = a.
Proof.
  intros [Ht Hv]. unfold serializeAttempt.
  destruct (date_roundtrip _ Ht) as (s1 & -> & Hp1 & _).
  destruct (date_roundtrip _ Hv) as (s2 & -> & Hp2 & _).
  simpl. eexists. split; [reflexivity|].
  unfold deserializeAttempt. simpl. rewrite Hp1, Hp2.
  destruct a as [n ts out v [p av ev msg vts] dur]. reflexivity.
Qed.

(** A list goes through [mapM f] and [map g] unchanged when each of its
    elements goes through [f] and [g] unchanged. *)
Lemma mapM_roundtrip {A B : Type} (f : A -> Result B) (g : B -> A)
    (l : list A) :
  Forall (fun a => exists b, f a = Ok b /\ g b = a) l ->
  exists bs, mapM f l = Ok bs /\ map g bs = l.
Proof.
  induction 1 as [|a l (b & Hf & Hg) _ (bs & Hm & Hbs)]; simpl.
  - exists []. auto.
  - rewrite Hf. simpl. rewrite Hm. simpl.
    exists (b :: bs). simpl. rewrite Hg, Hbs. auto.
Qed.

Lemma mission_roundtrip (m : Mission.t) :
  validMission m ->
  exists s, serializeMission m = Ok s /\ deserializeMission s = m.
Proof.
  intros (Hc & Hu & Ha & Hd). unfold serializeMission.
  destruct (date_roundtrip _ Hc) as (s1 & -> & Hp1 & _).
  destruct (date_roundtrip _ Hu) as (s2 & -> & Hp2 & _).
  destruct (mapM_roundtrip serializeAttempt deserializeAttempt (Mission.attempts m))
    as (sa & -> & Hsa).
  { eapply Forall_impl; [exact Ha|]. intros a Hvalid.
    exact (attempt_roundtrip a Hvalid). }
  simpl.
  destruct (Mission.completedAt m) as [d|] eqn:Hdone.
  - destruct (date_roundtrip d (Hd d eq_refl)) as (s3 & -> & Hp3 & Hne).
    simpl. eexists. split; [reflexivity|].
    unfold deserializeMission. simpl.
    apply String.eqb_neq in Hne. rewrite Hne, Hp1, Hp2, Hp3, Hsa.
    destruct m. simpl in *. rewrite Hdone. reflexivity.
  - simpl. eexists. split; [reflexivity|].
    unfold deserializeMission. simpl. rewrite Hp1, Hp2, Hsa.
    destruct m. simpl in *. rewrite Hdone. reflexivity.
Qed.

Lemma checkpoint_roundtrip (c : Checkpoint.t) :
  validCheckpoint c ->
  exists s, serializeCheckpoint c = Ok s /\ deserializeCheckpoint s = c.
Proof.
  intros [Ht Hm]. unfold serializeCheckpoint.
  destruct (date_roundtrip _ Ht) as (s1 & -> & Hp1 & _).
  destruct (mission_roundtrip _ Hm) as (s2 & -> & Hp2).
  simpl. eexists. split; [reflexivity|].
  unfold deserializeCheckpoint. simpl. rewrite Hp1, Hp2.
  destruct c. reflexivity.
Qed.

(** [Map.set] over a list without repeated keys builds the map of the
    list. *)
Lemma foldl_insert_list_to_map {B : Type} (l : list (string * B))
    (m0 : gmap string B) :
  NoDup l.*1 ->
  foldl (fun m entry => <[entry.1 := entry.2]> m) m0 l = list_to_map l ∪ m0.
Proof.
  revert m0. induction l as [|[k v] l IH]; intros m0 Hnodup; simpl.
  - rewrite (left_id ∅ (∪)). reflexivity.
  - apply NoDup_cons in Hnodup as [Hk Hl].
    rewrite IH by exact Hl.
    rewrite <- insert_union_l.
    rewrite insert_union_r; [reflexivity|].
    apply not_elem_of_list_to_map_1. exact Hk.
Qed.

Lemma restore_map {A B : Type} (g : A -> B) (entries : list (string * A)) :
  restore g entries
  = foldl (fun m entry => <[entry.1 := entry.2]> m) ∅
      (map (fun entry => (entry.1, g entry.2)) entries).
Proof.
  unfold restore. generalize (∅ : gmap string B).
  induction entries as [|e l IH]; intros m0; simpl; [reflexivity|apply IH].
Qed.

(** A map goes through serialization and restoration unchanged when each
    of its values does. *)
Lemma entries_roundtrip {A B : Type} (f : A -> Result B) (g : B -> A)
    (m : gmap string A) :
  (forall k a, m !! k = Some a -> exists b, f a = Ok b /\ g b = a) ->
  exists entries,
    mapM (serializeEntry f) (map_to_list m) = Ok entries
    /\ restore g entries = m.
Proof.
  intros Hall.
  destruct (mapM_roundtrip (serializeEntry f) (fun e => (e.1, g e.2))
              (map_to_list m)) as (entries & Hser & Hback).
  { apply Forall_forall. intros [k a] Hin.
    apply elem_of_map_to_list in Hin.
    destruct (Hall k a Hin) as (b & Hf & Hg).
    exists (k, b). unfold serializeEntry. simpl. rewrite Hf. simpl.
    rewrite Hg. auto. }
  exists entries. split; [exact Hser|].
  rewrite restore_map, Hback.
  rewrite foldl_insert_list_to_map by apply NoDup_fst_map_to_list.
  rewrite (right_id ∅ (∪)). apply list_to_map_to_list.
Qed.

(** C4.  When every timestamp of the store is a time value, the store
    serializes to a snapshot with the current version tag, and that snapshot
    deserialized into a new StateManager gives the same missions under the
    same identifiers, with equal fields, equal timestamps and the attempts
    in the same order (and the same checkpoints). *)
Theorem snapshot_roundtrip (sm : StateManager.t) (clock : Clock)
    (config' : StateConfig.t) :
  validStore sm ->
  exists snapshot,
    serializeState sm clock = Ok snapshot
    /\ SerializedState.version snapshot = STATE_VERSION
    /\ missions (deserializeState (new config') snapshot) = missions sm
    /\ checkpoints (deserializeState (new config') snapshot) = checkpoints sm
    /\ forall id m,
         missions sm !! id = Some m ->
         exists m',
           missions (deserializeState (new config') snapshot) !! id = Some m'
           /\ m' = m
           /\ Mission.attempts m' = Mission.attempts m.
Proof.
  intros [Hmissions Hcheckpoints].
  destruct (entries_roundtrip serializeMission deserializeMission (missions sm))
    as (ms & Hms & Hmback).
  { intros k m Hget. exact (mission_roundtrip m (Hmissions k m Hget)). }
  destruct (entries_roundtrip serializeCheckpoint deserializeCheckpoint
              (checkpoints sm)) as (cs & Hcs & Hcback).
  { intros k c Hget. exact (checkpoint_roundtrip c (Hcheckpoints k c Hget)). }
  unfold serializeState. rewrite Hms. simpl. rewrite Hcs. simpl.
  eexists. split; [reflexivity|]. simpl.
  split; [reflexivity|]. split; [exact Hmback|]. split; [exact Hcback|].
  intros id m Hget. exists m. rewrite Hmback. auto.
Qed.
End RoundTrip.

Section RoundTripExamples.
#[local] Existing Instance Example.runtime.

Lemma example_codec : isoCodec.
Proof.
  intros t _. split; [|discriminate].
  simpl. unfold Example.readTime, Example.showTime, Example.showInt.
  rewrite NilEmpty.isi, DecimalZ.of_to. reflexivity.
Qed.

(** Replaces a closed term by its value. *)
Ltac evaluate t :=
  let v := eval vm_compute in t in
  replace t with v by (vm_compute; reflexivity).

Lemma validTime_closed (t : Z) :
  (-8640000000000000 <=? t) && (t <=? 8640000000000000) = true ->
  validDate (TimeValue t).
Proof.
  intros [Hlo Hhi]%andb_true_iff. simpl. unfold validTime. lia.
Qed.

Lemma completedStore_valid : validStore Example.completedStore.
Proof.
  assert (Hm : StateManager.missions Example.completedStore
               = {[ "m1" := Example.held Example.completedStore "m1" ]})
    by (vm_compute; reflexivity).
  assert (Hc : StateManager.checkpoints Example.completedStore = ∅)
    by (vm_compute; reflexivity).
  split.
  - intros k m. rewrite Hm. intros [_ <-]%lookup_singleton_Some.
    unfold validMission.
    evaluate (Mission.createdAt (Example.held Example.completedStore "m1")).
    evaluate (Mission.updatedAt (Example.held Example.completedStore "m1")).
    evaluate (Mission.attempts (Example.held Example.completedStore "m1")).
    evaluate (Mission.completedAt (Example.held Example.completedStore "m1")).
    split; [apply validTime_closed; reflexivity|].
    split; [apply validTime_closed; reflexivity|].
    split.
    + repeat constructor; apply validTime_closed; reflexivity.
    + intros d [= <-]. apply validTime_closed. reflexivity.
  - intros k c. rewrite Hc, lookup_empty. discriminate.
Qed.

(** The theorem at [Example.completedStore], saved at time 9000. *)
Lemma snapshot_roundtrip_witness :
  exists snapshot,
    StateManager.serializeState Example.completedStore (Example.clockFrom 9000)
      = Ok snapshot
    /\ StateManager.missions
         (StateManager.deserializeState (StateManager.new Example.config) snapshot)
       = StateManager.missions Example.completedStore.
Proof.
  destruct (snapshot_roundtrip example_codec Example.completedStore
              (Example.clockFrom 9000) Example.config completedStore_valid)
    as (snapshot & Hser & _ & Hmissions & _).
  exists snapshot. split; [exact Hser | exact Hmissions].
Defined.
End RoundTripExamples.

(** * Further properties *)

(** ** AttemptCounter: increments, replay and warnings *)

Section CounterFacts.
Context `{Runtime}.
Import AttemptCounter.

(** The counter one call of [increment()] later. *)
Lemma increment_counter (c : t) :
  (increment c).1.1
  = {| currentAttempt := currentAttempt c + 1;
       config_maxAttempts := config_maxAttempts c;
       config_warnThreshold := config_warnThreshold c |}.
Proof.
  unfold increment. simpl.
  destruct (currentAttempt c + 1 >? config_maxAttempts c); reflexivity.
Qed.

(** X1.  [increment()] returns exactly when [hasAttemptsRemaining()] was
    true, and then returns the next count.  When it throws, the counter has
    still moved, no attempt remains and every later call throws as well. *)
Theorem increment_follows_hasAttemptsRemaining (c : t) :
  (hasAttemptsRemaining c = true ->
   exists log,
     increment c = ((increment c).1.1, Ok (currentAttempt c + 1), log)
     /\ currentAttempt (increment c).1.1 = currentAttempt c + 1)
  /\ (hasAttemptsRemaining c = false ->
      increment c
      = ((increment c).1.1,
         Throw (MaxAttemptsExceededError "mission" (config_maxAttempts c)), [])
      /\ currentAttempt (increment c).1.1 = currentAttempt c + 1
      /\ getRemainingAttempts (increment c).1.1 = 0
      /\ hasAttemptsRemaining (increment c).1.1 = false).
Proof.
  unfold hasAttemptsRemaining. split.
  - intros Hlt%Z.ltb_lt.
    destruct (increment_below_limit c Hlt) as [log Hinc].
    exists log. rewrite Hinc. simpl. split; reflexivity.
  - intros Hge%Z.ltb_ge.
    rewrite increment_counter. unfold increment, getRemainingAttempts. simpl.
    destruct (Z.gtb_spec (currentAttempt c + 1) (config_maxAttempts c)) as [_|Hle];
      [|lia].
    split; [reflexivity|]. split; [reflexivity|]. split; [lia|].
    apply Z.ltb_ge. lia.
Qed.

Lemma replay_counter (n : nat) (c : t) :
  (replay n c).1
  = {| currentAttempt := currentAttempt c + Z.of_nat n;
       config_maxAttempts := config_maxAttempts c;
       config_warnThreshold := config_warnThreshold c |}.
Proof.
  revert c. induction n as [|n IH]; intros c.
  - simpl. rewrite Z.add_0_r. destruct c. reflexivity.
  - cbn [replay fst]. rewrite IH, increment_counter. simpl.
    f_equal. lia.
Qed.

(** X2.  Restoring at [n] gives the counter that [n] increments of a new
    counter give, for every [n] up to [maxAttempts]. *)
Theorem restore_agrees_with_replay (n : nat) (cfg : AttemptCounterConfig) :
  Z.of_nat n <= maxAttempts cfg ->
  (fromCurrentAttempt (Z.of_nat n) cfg).1 = Ok (replay n (new cfg)).1.
Proof.
  intros Hle. rewrite fromCurrentAttempt_ok by lia.
  rewrite replay_counter. reflexivity.
Qed.

Lemma increment_log (c : t) :
  currentAttempt c < config_maxAttempts c ->
  List.length (increment c).2 = if warnsAt c (currentAttempt c + 1) then 1%nat else 0%nat.
Proof.
  intros Hlt. unfold increment, warnsAt, getRemainingAttempts. simpl.
  destruct (Z.gtb_spec (currentAttempt c + 1) (config_maxAttempts c)) as [Hgt|_];
    [lia|]. simpl.
  rewrite Z.max_r by lia. rewrite Z.gtb_ltb, andb_comm.
  destruct (_ && _); reflexivity.
Qed.

Lemma replay_log (n : nat) (c : t) :
  currentAttempt c + Z.of_nat n <= config_maxAttempts c ->
  List.length (replay n c).2
  = List.length
      (filter (fun k => warnsAt c k = true)
         (map (fun i => currentAttempt c + Z.of_nat i) (seq 1 n))).
Proof.
  revert c. induction n as [|n IH]; intros c Hle; [reflexivity|].
  cbn [replay snd]. rewrite length_app, increment_log by lia.
  rewrite IH by (rewrite increment_counter; simpl; lia).
  rewrite increment_counter. cbn [currentAttempt].
  change (seq 1 (S n)) with (1%nat :: seq 2 n).
  rewrite <- (seq_shift n 1), map_cons, map_map, filter_cons.
  replace (currentAttempt c + Z.of_nat 1) with (currentAttempt c + 1) by lia.
  assert (Hmap : map (fun i => currentAttempt c + 1 + Z.of_nat i) (seq 1 n)
                 = map (fun i => currentAttempt c + Z.of_nat (S i)) (seq 1 n)).
  { apply map_ext. intros i. lia. }
  rewrite Hmap.
  destruct (decide (warnsAt c (currentAttempt c + 1) = true)) as [Hw|Hw].
  - rewrite Hw. reflexivity.
  - apply not_true_is_false in Hw. rewrite Hw. reflexivity.
Qed.

(** X3.  Replaying [n] increments on a new counter logs one warning for
    each count from 1 to [n] at which some attempts remain, but not more
    than [warnThreshold]; restoring at [n] logs none. *)
Theorem replay_warns_near_the_limit (n : nat) (cfg : AttemptCounterConfig) :
  Z.of_nat n <= maxAttempts cfg ->
  List.length (replay n (new cfg)).2
  = List.length
      (filter (fun k => warnsAt (new cfg) k = true) (map Z.of_nat (seq 1 n)))
  /\ (fromCurrentAttempt (Z.of_nat n) cfg).2 = [].
Proof.
  intros Hle. split.
  - rewrite replay_log by (simpl; lia). simpl. reflexivity.
  - apply fromCurrentAttempt_silent.
Qed.
End CounterFacts.

Section CounterExamples.
#[local] Existing Instance Example.runtime.

(** X1 at a counter restored at 10 of 10, X2 and X3 at 9 increments of a
    counter of 10 attempts with the threshold 3. *)
Lemma increment_follows_hasAttemptsRemaining_witness :
  AttemptCounter.getRemainingAttempts
    (AttemptCounter.increment
       {| AttemptCounter.currentAttempt := 10;
          AttemptCounter.config_maxAttempts := 10;
          AttemptCounter.config_warnThreshold := 3 |}).1.1 = 0.
Proof.
  apply (increment_follows_hasAttemptsRemaining
           {| AttemptCounter.currentAttempt := 10;
              AttemptCounter.config_maxAttempts := 10;
              AttemptCounter.config_warnThreshold := 3 |}).
  reflexivity.
Defined.

Lemma restore_agrees_with_replay_witness :
  (AttemptCounter.fromCurrentAttempt 9
     {| AttemptCounter.maxAttempts := 10; AttemptCounter.warnThreshold := None |}).1
  = Ok (replay 9
          (AttemptCounter.new
             {| AttemptCounter.maxAttempts := 10;
                AttemptCounter.warnThreshold := None |})).1.
Proof.
  apply (restore_agrees_with_replay 9
           {| AttemptCounter.maxAttempts := 10;
              AttemptCounter.warnThreshold := None |}).
  simpl. lia.
Defined.

Lemma replay_warns_near_the_limit_witness :
  List.length
    (replay 9
       (AttemptCounter.new
          {| AttemptCounter.maxAttempts := 10;
             AttemptCounter.warnThreshold := None |})).2 = 3%nat.
Proof.
  destruct (replay_warns_near_the_limit 9
              {| AttemptCounter.maxAttempts := 10;
                 AttemptCounter.warnThreshold := None |}) as [Hlog _].
  - simpl. lia.
  - rewrite Hlog. reflexivity.
Defined.
End CounterExamples.

(** ** Validators: operators, extraction and keywords *)

Section ValidatorDetails.
Context `{Runtime}.

(** X4.  The operator printed in the message of a failed Numeric
    validation holds between the value and the threshold: [compare] with the
    negated operator returns the opposite answer. *)
Theorem negated_operator_is_the_negation (actual threshold : Q)
    (operator : JsValue) (b : bool) :
  compare actual operator threshold = Ok b ->
  compare actual (JStr (negateOperator operator)) threshold = Ok (negb b).
Proof.
  unfold compare, negateOperator.
  destruct (asOperator operator) as [[]|]; simpl; intros [= <-];
    rewrite ?negb_involutive; reflexivity.
Qed.

Lemma numberAt_cons (c : ascii) (r : string) :
  Str.numberAt (String c r)
  = if Ascii.eqb c "-"
    then (let '(ds, t) := Str.spanDigits r in
          if String.eqb ds EmptyString then None
          else Str.numberAt (String c r))
    else (let '(ds, t) := Str.spanDigits (String c r) in
          if String.eqb ds EmptyString then None
          else Str.numberAt (String c r)).
Proof.
  destruct (Ascii.eqb_spec c "-") as [->|Hne].
  - unfold Str.numberAt. destruct (Str.spanDigits r) as [ds t].
    destruct (String.eqb ds EmptyString); reflexivity.
  - assert (Hpos : Str.numberAt (String c r)
                   = let '(ds, t) := Str.spanDigits (String c r) in
                     if String.eqb ds EmptyString then None
                     else Str.numberAt (String c r)).
    { unfold Str.numberAt.
      destruct c as [[] [] [] [] [] [] [] []]; try congruence;
        destruct (Str.spanDigits (String _ r)) as [ds t];
        destruct (String.eqb ds EmptyString); reflexivity. }
    exact Hpos.
Qed.

Lemma spanDigits_no_digit (s : string) :
  hasDigit s = false -> (Str.spanDigits s).1 = EmptyString.
Proof.
  destruct s as [|c r]; simpl; [reflexivity|].
  intros [Hc _]%orb_false_iff. rewrite Hc. reflexivity.
Qed.

Lemma numberAt_no_digit (s : string) :
  hasDigit s = false -> Str.numberAt s = None.
Proof.
  destruct s as [|c r]; [reflexivity|].
  intros Hno. rewrite numberAt_cons.
  pose proof (spanDigits_no_digit (String c r) Hno) as Hs.
  simpl in Hno. apply orb_false_iff in Hno as [_ Hr].
  pose proof (spanDigits_no_digit r Hr) as Hs'.
  destruct (Ascii.eqb c "-").
  - destruct (Str.spanDigits r) as [ds t]. simpl in Hs'. rewrite Hs'. reflexivity.
  - destruct (Str.spanDigits (String c r)) as [ds t]. simpl in Hs. rewrite Hs.
    reflexivity.
Qed.

Lemma numberAt_digit (c : ascii) (r : string) :
  Str.isDigit c = true -> exists q, Str.numberAt (String c r) = Some q.
Proof.
  intros Hc. unfold Str.numberAt.
  assert (Hminus : Ascii.eqb c "-" = false).
  { destruct (Ascii.eqb_spec c "-") as [->|]; [discriminate Hc|reflexivity]. }
  assert (Hsplit : (let '(neg, s1) :=
                      match String c r with
                      | String "-"%char r0 => (true, r0)
                      | _ => (false, String c r)
                      end in (neg, s1)) = (false, String c r)).
  { destruct c as [[] [] [] [] [] [] [] []]; try reflexivity; discriminate Hminus. }
  destruct (match String c r with
            | String "-"%char r0 => (true, r0)
            | _ => (false, String c r)
            end) as [neg s1].
  injection Hsplit as -> ->.
  simpl. rewrite Hc. destruct (Str.spanDigits r) as [d t]. simpl. eauto.
Qed.

Lemma extractNumber_none_iff (text : string) :
  extractNumber text = None <-> hasDigit text = false.
Proof.
  unfold extractNumber. induction text as [|c r IH].
  - simpl. split; reflexivity.
  - cbn [Str.search hasDigit]. split.
    + destruct (Str.numberAt (String c r)) eqn:Hat; [discriminate|].
      intros Hr. apply IH in Hr.
      destruct (Str.isDigit c) eqn:Hc; [|exact Hr].
      destruct (numberAt_digit c r Hc) as [q Hq]. congruence.
    + intros Hno. rewrite (numberAt_no_digit (String c r)) by exact Hno.
      apply IH. apply orb_false_iff in Hno as [_ Hr]. exact Hr.
Qed.

(** X5.  A number is extracted from a text exactly when the text holds a
    digit.  Without a digit in the output and without a number as value, the
    Numeric validator returns a failed result with no [actualValue],
    whatever its operator is. *)
Theorem numeric_extraction_needs_a_digit (operator : JsValue) (threshold : Q)
    (clock : Clock) (output : string) :
  (extractNumber output = None <-> hasDigit output = false)
  /\ (hasDigit output = false ->
      forall value,
        (forall n, value <> Some (VNum n)) ->
        NumericValidator_validate operator threshold clock output value
        = Ok (createResult clock 0 false
                "Failed to extract numeric value from output"
                None (Some (VNum threshold)))).
Proof.
  split; [apply extractNumber_none_iff|].
  intros Hno value Hvalue. unfold NumericValidator_validate.
  apply extractNumber_none_iff in Hno.
  destruct value as [[n|s]|]; rewrite ?Hno; try reflexivity.
  destruct (Hvalue n eq_refl).
Qed.
End ValidatorDetails.

Section ValidatorDetailsExamples.
#[local] Existing Instance Example.runtime.

(** X4 at 50 against the threshold 100 under [>]; X5 at an output without
    digits. *)
Lemma negated_operator_is_the_negation_witness :
  compare 50 (JStr (negateOperator (JStr ">"))) 100 = Ok true.
Proof.
  apply (negated_operator_is_the_negation 50 100 (JStr ">") false).
  reflexivity.
Defined.

Lemma numeric_extraction_needs_a_digit_witness :
  NumericValidator_validate (JStr "~") 100 (Example.clockFrom 0)
    "no value provided" None
  = Ok (createResult (Example.clockFrom 0) 0 false
          "Failed to extract numeric value from output" None (Some (VNum 100))).
Proof.
  apply (numeric_extraction_needs_a_digit (JStr "~") 100 (Example.clockFrom 0)
           "no value provided").
  - reflexivity.
  - intros n. discriminate.
Defined.
End ValidatorDetailsExamples.

(** ** Validators: exit codes read from the output *)

Section ExitCodeFacts.
Context `{Runtime}.

Lemma search_some {A : Type} (m : string -> option A) (s : string) (a : A) :
  Str.search m s = Some a -> exists t, m t = Some a.
Proof.
  induction s as [|c r IH]; cbn [Str.search].
  - destruct (m EmptyString) eqn:Hm; [intros [= <-]; eauto | discriminate].
  - destruct (m (String c r)) eqn:Hm; [intros [= <-]; eauto | exact IH].
Qed.

Lemma spanDigits_value (s : string) (acc : Z) :
  0 <= acc -> acc <= Str.digitsValue acc (Str.spanDigits s).1.
Proof.
  revert acc. induction s as [|c r IH]; intros acc Hacc; simpl; [lia|].
  destruct (Str.isDigit c) eqn:Hc; [|simpl; lia].
  destruct (Str.spanDigits r) as [d t] eqn:Hspan. simpl.
  unfold Str.isDigit in Hc. apply andb_true_iff in Hc as [Hlo Hhi].
  apply N.leb_le in Hlo.
  specialize (IH (10 * acc + (Z.of_N (Str.code c) - 48))).
  simpl in IH. lia.
Qed.

Lemma sepDigitsAt_natural (s : string) (q : Q) :
  Str.sepDigitsAt s = Some q -> exists z, q = inject_Z z /\ 0 <= z.
Proof.
  unfold Str.sepDigitsAt. destruct s as [|c r]; [discriminate|].
  destruct (Str.isSep c); [|discriminate].
  pose proof (spanDigits_value (Str.skipWhile Str.isSep (String c r)) 0) as Hv.
  destruct (Str.spanDigits _) as [ds t]. simpl in Hv.
  destruct (String.eqb ds EmptyString); [discriminate|].
  intros [= <-]. eexists. split; [reflexivity|]. lia.
Qed.

Lemma extractExitCode_natural (text : string) (q : Q) :
  extractExitCode text = Some q -> exists z, q = inject_Z z /\ 0 <= z.
Proof.
  unfold extractExitCode.
  destruct (Str.search Str.exitCodeAt text) as [a|] eqn:H1.
  { intros [= <-]. apply search_some in H1 as [t Ht].
    unfold Str.exitCodeAt in Ht.
    apply bind_Some in Ht as (r1 & _ & Ht).
    apply bind_Some in Ht as (r2 & _ & Ht).
    exact (sepDigitsAt_natural _ _ Ht). }
  destruct (Str.search (Str.wordCodeAt "returned") text) as [a|] eqn:H2.
  { intros [= <-]. apply search_some in H2 as [t Ht].
    unfold Str.wordCodeAt in Ht.
    apply bind_Some in Ht as (r1 & _ & Ht).
    exact (sepDigitsAt_natural _ _ Ht). }
  destruct (Str.search (Str.wordCodeAt "status") text) as [a|] eqn:H3.
  { intros [= <-]. apply search_some in H3 as [t Ht].
    unfold Str.wordCodeAt in Ht.
    apply bind_Some in Ht as (r1 & _ & Ht).
    exact (sepDigitsAt_natural _ _ Ht). }
  unfold Str.bareCode.
  pose proof (spanDigits_value text 0) as Hv.
  destruct (Str.spanDigits text) as [ds t]. simpl in Hv.
  destruct (_ || _); [discriminate|].
  intros [= <-]. eexists. split; [reflexivity|]. lia.
Qed.

(** X6.  An exit code read from the output is a natural number: no pattern
    reads a sign.  A negative [expectedCode] is therefore never met by an
    output alone; it takes a number as value to pass. *)
Theorem exit_code_from_output_is_natural (expectedCode : Q) (clock : Clock)
    (output : string) :
  (forall q, extractExitCode output = Some q ->
             exists z, q = inject_Z z /\ 0 <= z)
  /\ ((expectedCode < 0)%Q ->
      forall value,
        (forall n, value <> Some (VNum n)) ->
        passedOf (ExitCodeValidator_validate expectedCode clock output value)
        = Some false).
Proof.
  split; [intros q; apply extractExitCode_natural|].
  intros Hneg value Hvalue. unfold ExitCodeValidator_validate.
  assert (Hread : match value with
                  | Some (VNum n) => Some n
                  | _ => extractExitCode output
                  end = extractExitCode output).
  { destruct value as [[n|s]|]; try reflexivity. destruct (Hvalue n eq_refl). }
  rewrite Hread.
  destruct (extractExitCode output) as [q|] eqn:Hq; [|reflexivity].
  destruct (extractExitCode_natural _ _ Hq) as (z & -> & Hz).
  simpl. f_equal.
  destruct (Qeq_bool (inject_Z z) expectedCode) eqn:Heq; [|reflexivity].
  apply Qeq_bool_iff in Heq. rewrite <- Heq in Hneg.
  unfold Qlt in Hneg. simpl in Hneg. lia.
Qed.
End ExitCodeFacts.

(** ** Validators: keywords *)

Section KeywordFacts.
Context `{Runtime}.

Lemma includes_empty (s : string) : Str.includes s EmptyString = true.
Proof. destruct s; reflexivity. Qed.

(** X7.  With [mustContain = false] the Keyword validator passes exactly
    when it fails with [mustContain = true], and the empty keyword is
    contained in every output. *)
Theorem keyword_polarity (keyword : string) (caseSensitive : JsValue)
    (clock : Clock) (output : string) (value : option Value) :
  passedOf (KeywordValidator_validate keyword false caseSensitive clock output value)
  = option_map negb
      (passedOf (KeywordValidator_validate keyword true caseSensitive clock
                   output value))
  /\ passedOf (KeywordValidator_validate EmptyString true caseSensitive clock
                 output value) = Some true.
Proof.
  split; [reflexivity|].
  unfold KeywordValidator_validate. simpl.
  destruct (truthy (nullish caseSensitive (JBool true))); simpl;
    rewrite includes_empty; reflexivity.
Qed.

Lemma lowerChar_idempotent (c : ascii) :
  Str.lowerChar (Str.lowerChar c) = Str.lowerChar c.
Proof.
  destruct c as [[] [] [] [] [] [] [] []]; vm_compute; reflexivity.
Qed.

Lemma toLowerCase_idempotent (s : string) :
  Str.toLowerCase (Str.toLowerCase s) = Str.toLowerCase s.
Proof.
  induction s as [|c r IH]; simpl; [reflexivity|].
  rewrite lowerChar_idempotent, IH. reflexivity.
Qed.

Lemma startsWith_lower (s p : string) :
  Str.startsWith s p = true ->
  Str.startsWith (Str.toLowerCase s) (Str.toLowerCase p) = true.
Proof.
  revert s. induction p as [|a p IH]; intros s; [destruct s; reflexivity|].
  destruct s as [|b s]; simpl; [discriminate|].
  intros [Hab Hrest]%andb_true_iff.
  apply Ascii.eqb_eq in Hab as ->. rewrite Ascii.eqb_refl. simpl.
  apply IH. exact Hrest.
Qed.

Lemma includes_lower (s k : string) :
  Str.includes s k = true ->
  Str.includes (Str.toLowerCase s) (Str.toLowerCase k) = true.
Proof.
  induction s as [|c r IH].
  - cbn [Str.includes]. rewrite orb_false_r. intros Hs.
    apply (startsWith_lower EmptyString k) in Hs.
    change (Str.toLowerCase EmptyString) with EmptyString in *.
    cbn [Str.includes]. rewrite Hs. reflexivity.
  - cbn [Str.includes]. intros [Hs|Hr]%orb_true_iff.
    + apply (startsWith_lower (String c r) k) in Hs.
      change (Str.toLowerCase (String c r))
        with (String (Str.lowerChar c) (Str.toLowerCase r)) in *.
      cbn [Str.includes]. rewrite Hs. reflexivity.
    + change (Str.toLowerCase (String c r))
        with (String (Str.lowerChar c) (Str.toLowerCase r)).
      cbn [Str.includes]. rewrite (IH Hr). apply orb_true_r.
Qed.

(** X8.  In the case-insensitive mode the Keyword validator gives the same
    verdict for an output and a keyword as for their lower-case forms; and a
    keyword that the case-sensitive mode finds is found by the
    case-insensitive mode too. *)
Theorem keyword_case_insensitive (keyword : string) (mustContain : bool)
    (caseSensitive : JsValue) (clock : Clock) (output : string)
    (value : option Value) :
  truthy (nullish caseSensitive (JBool true)) = false ->
  passedOf (KeywordValidator_validate keyword mustContain caseSensitive clock
              output value)
  = passedOf (KeywordValidator_validate (Str.toLowerCase keyword) mustContain
                caseSensitive clock (Str.toLowerCase output) value)
  /\ (passedOf (KeywordValidator_validate keyword true (JBool true) clock
                  output value) = Some true ->
      passedOf (KeywordValidator_validate keyword true caseSensitive clock
                  output value) = Some true).
Proof.
  intros Hci. unfold KeywordValidator_validate. rewrite Hci. simpl.
  rewrite !toLowerCase_idempotent. split; [reflexivity|].
  destruct (Str.includes output keyword) eqn:Hin; [|discriminate].
  intros _. rewrite (includes_lower _ _ Hin). reflexivity.
Qed.
End KeywordFacts.

Section KeywordExamples.
#[local] Existing Instance Example.runtime.

(** X6 at the expected code -1 and an output that names the status 1; X8
    at the keyword [warning] and an output in capitals. *)
Lemma exit_code_from_output_is_natural_witness :
  passedOf (ExitCodeValidator_validate (-1) (Example.clockFrom 0)
              "status: 1" None) = Some false.
Proof.
  apply (exit_code_from_output_is_natural (-1) (Example.clockFrom 0) "status: 1").
  - reflexivity.
  - intros n. discriminate.
Defined.

Lemma keyword_case_insensitive_witness :
  passedOf (KeywordValidator_validate "warning" true (JBool false)
              (Example.clockFrom 0) "WARNING: disk" None)
  = passedOf (KeywordValidator_validate (Str.toLowerCase "warning") true
                (JBool false) (Example.clockFrom 0)
                (Str.toLowerCase "WARNING: disk") None).
Proof.
  destruct (keyword_case_insensitive "warning" true (JBool false)
              (Example.clockFrom 0) "WARNING: disk" None) as [Hsame _].
  - reflexivity.
  - exact Hsame.
Defined.
End KeywordExamples.

(** ** The state machine of a mission *)

Section Transitions.
Context `{Runtime}.

Lemma submit_cases (sm : StateManager.t)
    (input : SubmitAttemptTool.SubmitAttemptInput) (clock : Clock) :
  keyed sm ->
  let sm' := (SubmitAttemptTool.execute sm input clock).1.1 in
  let id := SubmitAttemptTool.missionId input in
  sm' = sm
  \/ exists m m',
       StateManager.missions sm !! id = Some m
       /\ transition m m'
       /\ StateManager.missions sm' = <[id := m']> (StateManager.missions sm).
Proof.
  intros Hkeyed. simpl.
  unfold SubmitAttemptTool.execute, StateManager.getMission.
  destruct (StateManager.missions sm !! SubmitAttemptTool.missionId input)
    as [mission|] eqn:Hget; [|left; reflexivity].
  pose proof (Hkeyed _ _ Hget) as Hid.
  destruct (Mission.state mission) eqn:Hstate; simpl; try (left; reflexivity).
  unfold AttemptCounter.fromCurrentAttempt.
  destruct (Z.ltb_spec (Mission.currentAttempt mission) 0) as [|Hnn];
    [left; reflexivity|].
  simpl.
  destruct (Z.gtb_spec (Mission.currentAttempt mission)
              (default 10 (MissionConfig.maxAttempts (Mission.config mission))))
    as [|Hle]; [left; reflexivity|].
  unfold AttemptCounter.increment. simpl.
  destruct (Z.gtb_spec (Mission.currentAttempt mission + 1)
              (default 10 (MissionConfig.maxAttempts (Mission.config mission))))
    as [Hover|Hroom].
  - right. exists mission, (failedMission mission clock).
    rewrite exhaust_keyed by exact Hid. simpl.
    rewrite missions_debouncedSave. simpl.
    split; [reflexivity|]. split; [|reflexivity].
    apply Exhaust; [exact Hstate|exact Hnn|unfold limit; lia].
  - destruct (validate (MissionConfig.criteria (Mission.config mission)) clock
                (SubmitAttemptTool.output input) (SubmitAttemptTool.value input))
      as [vr|e] eqn:Hval.
    + right.
      exists mission,
        (recorded mission input clock vr (Mission.currentAttempt mission + 1)).
      rewrite (record_keyed _ _ _ _ _ _ vr) by assumption. simpl.
      rewrite missions_debouncedSave. simpl.
      split; [reflexivity|]. split; [|reflexivity].
      apply Record; [exact Hstate|unfold limit; lia|exact Hval].
    + left. unfold SubmitAttemptTool.record. rewrite Hval. reflexivity.
Qed.

Lemma abort_cases (sm : StateManager.t)
    (input : AbortMissionTool.AbortMissionInput) (clock : Clock) :
  keyed sm ->
  let sm' := (AbortMissionTool.execute sm input clock).1 in
  let id := AbortMissionTool.missionId input in
  sm' = sm
  \/ exists m m',
       StateManager.missions sm !! id = Some m
       /\ transition m m'
       /\ StateManager.missions sm' = <[id := m']> (StateManager.missions sm).
Proof.
  intros Hkeyed. simpl.
  unfold AbortMissionTool.execute, StateManager.getMission.
  destruct (StateManager.missions sm !! AbortMissionTool.missionId input)
    as [mission|] eqn:Hget; [|left; reflexivity].
  pose proof (Hkeyed _ _ Hget) as Hid.
  destruct (MissionState_eqb (Mission.state mission) COMPLETED
            || MissionState_eqb (Mission.state mission) FAILED) eqn:Hguard;
    [left; reflexivity|].
  right. exists mission,
    (abortedMission mission (AbortMissionTool.reason input) clock).
  rewrite updateMission_assigned by exact Hid. simpl.
  rewrite missions_debouncedSave. simpl.
  split; [reflexivity|]. split; [|reflexivity].
  apply Abort; intros Hs; rewrite Hs in Hguard; discriminate Hguard.
Qed.

Lemma define_cases (sm : StateManager.t)
    (input : DefineMissionTool.DefineMissionInput) (uuid : string)
    (clock : Clock) :
  let sm' := (DefineMissionTool.execute sm input uuid clock).1 in
  sm' = sm
  \/ exists criteria,
       StateManager.missions sm !! uuid = None
       /\ StateManager.missions sm'
          = <[uuid := freshMission input criteria uuid clock]>
              (StateManager.missions sm).
Proof.
  simpl. unfold DefineMissionTool.execute.
  destruct (DefineMissionTool.parseCriteria _ _) as [object|e];
    [|left; reflexivity].
  unfold MissionDefiner.defineMission. simpl.
  destruct (MissionDefiner.validateCriteria object) as [criteria|e]; simpl;
    [|left; reflexivity].
  unfold StateManager.addMission. simpl.
  destruct (StateManager.missions sm !! uuid) eqn:Hfresh; [left; reflexivity|].
  right. exists criteria. split; [reflexivity|]. simpl.
  rewrite missions_debouncedSave. reflexivity.
Qed.

(** X9.  An operation leaves every mission it does not name as it was.
    The mission it names is left as it was, or created in progress with no
    attempt, or changed by one of three transitions: an attempt is
    recorded, the attempts are exhausted, or the mission is aborted. *)
Theorem operations_are_transitions (sm : StateManager.t) (op : Operation)
    (k : string) :
  keyed sm ->
  (k <> target op ->
   StateManager.missions (step sm op) !! k = StateManager.missions sm !! k)
  /\ (StateManager.missions (step sm op) !! k = StateManager.missions sm !! k
      \/ (StateManager.missions sm !! k = None
          /\ exists input criteria clock,
               StateManager.missions (step sm op) !! k
               = Some (freshMission input criteria k clock))
      \/ exists m m',
           StateManager.missions sm !! k = Some m
           /\ StateManager.missions (step sm op) !! k = Some m'
           /\ transition m m').
Proof.
  intros Hkeyed.
  destruct op as [input uuid clock|input clock|input clock]; simpl.
  - destruct (define_cases sm input uuid clock) as [->|(c & Hfresh & Hins)];
      [split; [reflexivity|left; reflexivity]|].
    simpl in Hins. rewrite Hins. split.
    + intros Hne. apply lookup_insert_ne. congruence.
    + destruct (decide (uuid = k)) as [<-|Hne].
      * right. left. split; [exact Hfresh|].
        exists input, c, clock. apply lookup_insert_eq.
      * left. apply lookup_insert_ne. exact Hne.
  - destruct (submit_cases sm input clock Hkeyed)
      as [->|(m & m' & Hget & Htrans & Hins)];
      [split; [reflexivity|left; reflexivity]|].
    simpl in Hins. rewrite Hins. split.
    + intros Hne. apply lookup_insert_ne. congruence.
    + destruct (decide (SubmitAttemptTool.missionId input = k)) as [<-|Hne].
      * right. right. exists m, m'. rewrite lookup_insert_eq. auto.
      * left. apply lookup_insert_ne. exact Hne.
  - destruct (abort_cases sm input clock Hkeyed)
      as [->|(m & m' & Hget & Htrans & Hins)];
      [split; [reflexivity|left; reflexivity]|].
    simpl in Hins. rewrite Hins. split.
    + intros Hne. apply lookup_insert_ne. congruence.
    + destruct (decide (AbortMissionTool.missionId input = k)) as [<-|Hne].
      * right. right. exists m, m'. rewrite lookup_insert_eq. auto.
      * left. apply lookup_insert_ne. exact Hne.
Qed.

(** A property of missions that creation establishes and the transitions
    keep holds in every store that operations build. *)
Lemma run_keeps (P : Mission.t -> Prop) :
  (forall input criteria uuid clock, P (freshMission input criteria uuid clock)) ->
  (forall m m', P m -> transition m m' -> P m') ->
  forall ops sm,
    sound sm ->
    (forall k m, StateManager.missions sm !! k = Some m -> P m) ->
    forall k m, StateManager.missions (run sm ops) !! k = Some m -> P m.
Proof.
  intros Hfresh Hkeep ops.
  induction ops as [|op rest IH]; intros sm Hsound Hall k m; simpl.
  - apply Hall.
  - apply IH; [exact (proj1 (step_sound sm op Hsound))|].
    clear k m. intros k m Hget.
    destruct (operations_are_transitions sm op k (proj1 Hsound))
      as [_ [Hsame|[(_ & input & c & clock & Hnew)|(m0 & m' & Hold & Hnow & Htrans)]]].
    + rewrite Hsame in Hget. exact (Hall _ _ Hget).
    + rewrite Hnew in Hget. injection Hget as <-. apply Hfresh.
    + rewrite Hnow in Hget. injection Hget as <-.
      exact (Hkeep _ _ (Hall _ _ Hold) Htrans).
Qed.
End Transitions.

(** ** Invariants of the state machine *)

Section MachineInvariants.
Context `{Runtime}.

Lemma transition_of_terminal (m m' : Mission.t) :
  terminal (Mission.state m) = true ->
  transition m m' ->
  Mission.state m = ABORTED
  /\ Mission.state m' = ABORTED
  /\ Mission.attempts m' = Mission.attempts m
  /\ Mission.currentAttempt m' = Mission.currentAttempt m
  /\ Mission.config m' = Mission.config m.
Proof.
  intros Hterminal Htrans.
  destruct Htrans as [clock Hs _ _|input clock vr Hs _ _|reason clock Hc Hf].
  - rewrite Hs in Hterminal. discriminate.
  - rewrite Hs in Hterminal. discriminate.
  - destruct (Mission.state m); try discriminate; try contradiction.
    repeat split.
Qed.

Lemma step_keeps_finished (sm : StateManager.t) (op : Operation) (k : string)
    (m : Mission.t) :
  keyed sm ->
  StateManager.missions sm !! k = Some m ->
  terminal (Mission.state m) = true ->
  exists m',
    StateManager.missions (step sm op) !! k = Some m'
    /\ Mission.state m' = Mission.state m
    /\ Mission.attempts m' = Mission.attempts m
    /\ Mission.currentAttempt m' = Mission.currentAttempt m
    /\ Mission.config m' = Mission.config m
    /\ (Mission.state m <> ABORTED -> m' = m).
Proof.
  intros Hkeyed Hget Hterminal.
  destruct (operations_are_transitions sm op k Hkeyed)
    as [_ [Hsame|[(Hnone & _)|(m0 & m' & Hold & Hnow & Htrans)]]].
  - exists m. rewrite Hsame. repeat split; auto.
  - congruence.
  - rewrite Hget in Hold. injection Hold as <-.
    destruct (transition_of_terminal m m' Hterminal Htrans)
      as (Hs & Hs' & Ha & Hc & Hcfg).
    exists m'. rewrite Hs, Hs'. repeat split; auto. contradiction.
Qed.

(** X10.  A mission in a terminal state stays in it under every sequence
    of operations, with the attempts it has.  A COMPLETED or FAILED mission
    is not changed at all. *)
Theorem terminal_missions_stay (ops : list Operation) (sm : StateManager.t)
    (k : string) (m : Mission.t) :
  sound sm ->
  StateManager.missions sm !! k = Some m ->
  terminal (Mission.state m) = true ->
  exists m',
    StateManager.missions (run sm ops) !! k = Some m'
    /\ Mission.state m' = Mission.state m
    /\ Mission.attempts m' = Mission.attempts m
    /\ (Mission.state m <> ABORTED -> m' = m).
Proof.
  revert sm m. induction ops as [|op rest IH]; intros sm m Hsound Hget Hterminal.
  - exists m. auto.
  - destruct (step_keeps_finished sm op k m (proj1 Hsound) Hget Hterminal)
      as (m1 & Hget1 & Hs1 & Ha1 & _ & _ & Hsame1).
    destruct (IH (step sm op) m1 (proj1 (step_sound sm op Hsound)) Hget1)
      as (m' & Hget' & Hs' & Ha' & Hsame'); [rewrite Hs1; exact Hterminal|].
    exists m'. simpl. split; [exact Hget'|].
    split; [congruence|]. split; [congruence|].
    intros Hne. rewrite Hsame' by congruence. exact (Hsame1 Hne).
Qed.

Lemma transition_keeps_capped (m m' : Mission.t) :
  capped m -> transition m m' -> capped m'.
Proof.
  unfold capped, limit. intros Hcap Htrans.
  destruct Htrans as [clock _ _ _|input clock vr _ Hroom _|reason clock _ _];
    simpl; [exact Hcap| |exact Hcap].
  unfold limit in Hroom. lia.
Qed.

(** X11.  In every store that operations build from a new one, no mission
    has more attempts than its [maxAttempts] (10 when it has none). *)
Theorem attempts_never_exceed_the_limit (config : StateConfig.t)
    (ops : list Operation) (k : string) (m : Mission.t) :
  StateManager.missions (run (StateManager.new config) ops) !! k = Some m ->
  0 <= Mission.currentAttempt m <= Z.max 0 (limit m)
  /\ Z.of_nat (List.length (Mission.attempts m)) <= Z.max 0 (limit m).
Proof.
  intros Hget.
  assert (Hcap : capped m).
  { apply (run_keeps capped) with (ops := ops) (sm := StateManager.new config)
      (k := k); try assumption.
    - intros input criteria uuid clock. unfold capped. simpl. lia.
    - exact transition_keeps_capped.
    - apply sound_new.
    - intros k0 m0. simpl. rewrite lookup_empty. discriminate. }
  split; [exact Hcap|].
  destruct (run_sound ops _ (sound_new config)) as [[_ Hall] _].
  destruct (Hall _ _ Hget) as [Hcur _].
  unfold capped in Hcap. lia.
Qed.

Lemma transition_keeps_coherent (m m' : Mission.t) :
  coherent m -> transition m m' -> coherent m'.
Proof.
  unfold coherent. intros Hco Htrans.
  destruct Htrans as [clock Hs _ _|input clock vr Hs _ _|reason clock _ _]; simpl.
  - repeat split; eauto.
  - rewrite Hs in Hco.
    destruct (ValidationResult.passed vr) eqn:Hpassed.
    + split; [eauto|]. split; [reflexivity|].
      eexists. split; [apply last_snoc|exact Hpassed].
    + rewrite Hs. exact Hco.
  - repeat split; eauto.
Qed.

(** X12.  In every store that operations build from a new one, the fields
    of a mission agree with its state: in progress it has no [completedAt],
    [success] or [errorMessage]; COMPLETED it has a [completedAt],
    [success = true] and a last attempt that passed; FAILED it has a
    [completedAt], [success = false] and the message of exhaustion; ABORTED
    it has a [completedAt], [success = false] and a reason.  No stored
    mission is PENDING. *)
Theorem mission_fields_follow_state (config : StateConfig.t)
    (ops : list Operation) (k : string) (m : Mission.t) :
  StateManager.missions (run (StateManager.new config) ops) !! k = Some m ->
  coherent m.
Proof.
  apply (run_keeps coherent).
  - intros input criteria uuid clock. unfold coherent. simpl. auto.
  - exact transition_keeps_coherent.
  - apply sound_new.
  - intros k0 m0. simpl. rewrite lookup_empty. discriminate.
Qed.
End MachineInvariants.

Section MachineExamples.
#[local] Existing Instance Example.runtime.

(** X9 at [Example.completingOperations] followed by a submit to [m1]:
    another mission would be left as it was. *)
Lemma operations_are_transitions_witness :
  StateManager.missions
    (step (run (StateManager.new Example.config) Example.completingOperations)
       (SubmitAttempt (Example.submit "m1" 500) (Example.clockFrom 4000)))
    !! "m2"
  = StateManager.missions
      (run (StateManager.new Example.config) Example.completingOperations)
    !! "m2".
Proof.
  apply (operations_are_transitions
           (run (StateManager.new Example.config) Example.completingOperations)
           (SubmitAttempt (Example.submit "m1" 500) (Example.clockFrom 4000))
           "m2").
  - exact (proj1 (proj1 (run_sound Example.completingOperations _
                           (sound_new Example.config)))).
  - discriminate.
Defined.

(** X10 at the mission completed by [Example.completingOperations] and the
    operations of [Example.laterOperations]. *)
Lemma terminal_missions_stay_witness :
  let sm := run (StateManager.new Example.config) Example.completingOperations in
  StateManager.missions (run sm Example.laterOperations) !! "m1"
  = Some (Example.held sm "m1").
Proof.
  destruct (terminal_missions_stay Example.laterOperations
              (run (StateManager.new Example.config) Example.completingOperations)
              "m1"
              (Example.held
                 (run (StateManager.new Example.config)
                    Example.completingOperations) "m1"))
    as (m' & Hget & _ & _ & Hsame).
  - exact (proj1 (run_sound Example.completingOperations _
                    (sound_new Example.config))).
  - vm_compute. reflexivity.
  - vm_compute. reflexivity.
  - cbv zeta. rewrite Hget. f_equal. apply Hsame.
    vm_compute. discriminate.
Defined.

(** X11 and X12 at the store of [Example.exampleOperations]. *)
Lemma attempts_never_exceed_the_limit_witness :
  Z.of_nat
    (List.length
       (Mission.attempts
          (Example.held
             (run (StateManager.new Example.config) Example.exampleOperations)
             "m1")))
  <= Z.max 0
       (limit
          (Example.held
             (run (StateManager.new Example.config) Example.exampleOperations)
             "m1")).
Proof.
  apply (attempts_never_exceed_the_limit Example.config
           Example.exampleOperations "m1").
  vm_compute. reflexivity.
Defined.

Lemma mission_fields_follow_state_witness :
  coherent
    (Example.held
       (run (StateManager.new Example.config) Example.exampleOperations) "m1").
Proof.
  apply (mission_fields_follow_state Example.config
           Example.exampleOperations "m1").
  vm_compute. reflexivity.
Defined.
End MachineExamples.

(** ** The answers of the tools *)

Section ToolAnswers.
Context `{Runtime}.



(** X15.  AbortMission on a mission that is in progress answers with
    success and leaves it ABORTED, with [success = false], the reason given
    (or "Manually aborted") and its attempts as they were; every
    SubmitAttempt that follows is rejected and changes nothing. *)
Theorem abort_stops_the_mission (sm : StateManager.t)
    (input : AbortMissionTool.AbortMissionInput) (clock : Clock)
    (mission : Mission.t) :
  StateManager.missions sm !! AbortMissionTool.missionId input = Some mission ->
  MissionConfig.id (Mission.config mission) = AbortMissionTool.missionId input ->
  Mission.state mission = IN_PROGRESS ->
  exists sm',
    AbortMissionTool.execute sm input clock
    = (sm', AbortMissionTool.Aborted (AbortMissionTool.missionId input)
              (Mission.currentAttempt mission)
              (Some (AbortMissionTool.reasonOrDefault (AbortMissionTool.reason input))))
    /\ StateManager.missions sm'
       = <[AbortMissionTool.missionId input :=
             abortedMission mission (AbortMissionTool.reason input) clock]>
           (StateManager.missions sm)
    /\ forall later clock',
         SubmitAttemptTool.missionId later = AbortMissionTool.missionId input ->
         SubmitAttemptTool.execute sm' later clock'
         = (sm', SubmitAttemptTool.NotInProgress ABORTED, []).
Proof.
  intros Hget Hid Hstate.
  unfold AbortMissionTool.execute, StateManager.getMission.
  rewrite Hget, Hstate. simpl.
  rewrite updateMission_assigned by exact Hid.
  eexists. split; [rewrite Hid; reflexivity|].
  split; [rewrite missions_debouncedSave; reflexivity|].
  intros later clock' Hlater.
  apply (execute_not_in_progress _ later clock'
           (abortedMission mission (AbortMissionTool.reason input) clock)).
  - rewrite Hlater. apply held_after_assign.
  - discriminate.
Qed.

(** X16.  DefineMission never replaces a mission: under an identifier that
    the store already holds it fails and changes nothing. *)
Theorem define_never_overwrites (sm : StateManager.t)
    (input : DefineMissionTool.DefineMissionInput) (uuid : string)
    (clock : Clock) (held : Mission.t) :
  StateManager.missions sm !! uuid = Some held ->
  exists e,
    DefineMissionTool.execute sm input uuid clock = (sm, DefineMissionTool.Failed e)
    /\ (rejectedCriteria input = false ->
        DefineMissionTool.strategy input = "NUMERIC"
        \/ DefineMissionTool.strategy input = "EXIT_CODE"
        \/ DefineMissionTool.strategy input = "KEYWORD" ->
        e = MissionExistsError uuid).
Proof.
  intros Hheld. unfold DefineMissionTool.execute.
  destruct (DefineMissionTool.parseCriteria _ _) as [object|e] eqn:Hparse.
  - unfold MissionDefiner.defineMission. simpl.
    destruct (MissionDefiner.validateCriteria object) as [criteria|e] eqn:Hvalid;
      simpl.
    + unfold StateManager.addMission. simpl. rewrite Hheld.
      eexists. split; [reflexivity|]. reflexivity.
    + exists e. split; [reflexivity|]. intros Hok Hknown. exfalso.
      revert Hparse Hvalid Hok.
      unfold DefineMissionTool.parseCriteria, rejectedCriteria,
        MissionDefiner.validateCriteria.
      destruct (String.eqb (DefineMissionTool.strategy input) "NUMERIC").
      { intros [= <-]. simpl.
        destruct (getProp (DefineMissionTool.criteria input) "threshold");
          simpl; try discriminate.
        destruct (truthy (getProp (DefineMissionTool.criteria input) "operator"));
          simpl; discriminate. }
      destruct (String.eqb (DefineMissionTool.strategy input) "EXIT_CODE").
      { intros [= <-]. simpl.
        destruct (nullish (getProp (DefineMissionTool.criteria input) "expectedCode")
                    (JNum 0)); simpl; discriminate. }
      destruct (String.eqb (DefineMissionTool.strategy input) "KEYWORD");
        [|discriminate].
      intros [= <-]. simpl.
      destruct (getProp (DefineMissionTool.criteria input) "keyword") as [| | | |kw|];
        simpl; try discriminate.
      destruct (Str.length kw =? 0)%N; simpl; try discriminate.
      destruct (nullish (getProp (DefineMissionTool.criteria input) "mustContain")
                  (JBool true)); simpl; discriminate.
  - exists e. split; [reflexivity|]. intros _ Hknown. exfalso.
    revert Hparse. unfold DefineMissionTool.parseCriteria.
    destruct Hknown as [-> | [-> | ->]]; discriminate.
Qed.
End ToolAnswers.

Section ToolAnswerExamples.
#[local] Existing Instance Example.runtime.



(** X15 at [Example.defined 3]. *)
Lemma abort_stops_the_mission_witness :
  exists sm',
    AbortMissionTool.execute (Example.defined 3) (Example.abort "m1" "first")
      (Example.clockFrom 2000)
    = (sm', AbortMissionTool.Aborted "m1" 0 (Some "first"))
    /\ SubmitAttemptTool.execute sm' (Example.submit "m1" 150)
         (Example.clockFrom 3000)
       = (sm', SubmitAttemptTool.NotInProgress ABORTED, []).
Proof.
  destruct (abort_stops_the_mission (Example.defined 3)
              (Example.abort "m1" "first") (Example.clockFrom 2000)
              (Example.held (Example.defined 3) "m1"))
    as (sm' & Hexec & _ & Hlater).
  - vm_compute. reflexivity.
  - vm_compute. reflexivity.
  - vm_compute. reflexivity.
  - exists sm'. split; [exact Hexec|].
    apply Hlater. reflexivity.
Defined.

(** X16 at [Example.defined 3] and its identifier [m1]. *)
Lemma define_never_overwrites_witness :
  DefineMissionTool.execute (Example.defined 3) (Example.defineNumeric 7) "m1"
    (Example.clockFrom 6000)
  = (Example.defined 3, DefineMissionTool.Failed (MissionExistsError "m1")).
Proof.
  destruct (define_never_overwrites (Example.defined 3) (Example.defineNumeric 7)
              "m1" (Example.clockFrom 6000)
              (Example.held (Example.defined 3) "m1"))
    as (e & Hexec & He).
  - vm_compute. reflexivity.
  - rewrite Hexec, He; [reflexivity|vm_compute; reflexivity|left; reflexivity].
Defined.
End ToolAnswerExamples.

(** ** GetMissionStatus and the stored output *)

Section StatusFacts.
Context `{Runtime}.

Lemma built_capped (config : StateConfig.t) (ops : list Operation)
    (k : string) (m : Mission.t) :
  StateManager.missions (run (StateManager.new config) ops) !! k = Some m ->
  capped m.
Proof.
  apply (run_keeps capped).
  - intros input criteria uuid clock. unfold capped. simpl. lia.
  - exact transition_keeps_capped.
  - apply sound_new.
  - intros k0 m0. simpl. rewrite lookup_empty. discriminate.
Qed.

Lemma built_coherent (config : StateConfig.t) (ops : list Operation)
    (k : string) (m : Mission.t) :
  StateManager.missions (run (StateManager.new config) ops) !! k = Some m ->
  coherent m.
Proof.
  apply (run_keeps coherent).
  - intros input criteria uuid clock. unfold coherent. simpl. auto.
  - exact transition_keeps_coherent.
  - apply sound_new.
  - intros k0 m0. simpl. rewrite lookup_empty. discriminate.
Qed.

(** X17.  GetMissionStatus answers with an error exactly for an
    identifier that the store does not hold.  For a mission of a store that
    operations have built, the history lists the attempts 1, 2, ... up to
    [currentAttempt]; [attemptsRemaining] is what is left of [maxAttempts]
    and is not negative when [maxAttempts] is not; there is a last result
    exactly when an attempt was made, and for a COMPLETED mission it is a
    result that passed. *)
Theorem status_reports_the_mission (config : StateConfig.t)
    (ops : list Operation) (id : string) :
  let sm := run (StateManager.new config) ops in
  (StateManager.missions sm !! id = None <->
   exists e, GetMissionStatusTool.execute sm id = GetMissionStatusTool.Failed e)
  /\ forall status history,
       GetMissionStatusTool.execute sm id
         = GetMissionStatusTool.Status status history ->
       GetMissionStatusTool.currentAttempt status = Z.of_nat (List.length history)
       /\ map GetMissionStatusTool.attemptNumber history
          = map Z.of_nat (seq 1 (List.length history))
       /\ GetMissionStatusTool.currentAttempt status
          + GetMissionStatusTool.attemptsRemaining status
          = GetMissionStatusTool.maxAttempts status
       /\ (0 <= GetMissionStatusTool.maxAttempts status ->
           0 <= GetMissionStatusTool.attemptsRemaining status)
       /\ (GetMissionStatusTool.lastAttemptResult status = None <->
           GetMissionStatusTool.currentAttempt status = 0)
       /\ (GetMissionStatusTool.state status = COMPLETED ->
           exists vr,
             GetMissionStatusTool.lastAttemptResult status = Some vr
             /\ ValidationResult.passed vr = true
             /\ GetMissionStatusTool.success status = Some true).
Proof.
  intros sm. unfold GetMissionStatusTool.execute, StateManager.getMission.
  destruct (StateManager.missions sm !! id) as [m|] eqn:Hget.
  - split.
    { split; [discriminate|]. intros [e He]. discriminate He. }
    intros status history [= <- <-]. simpl.
    destruct (run_sound ops _ (sound_new config)) as [[_ Hall] _].
    destruct (Hall _ _ Hget) as [Hcur Hnumbers].
    pose proof (built_capped config ops id m Hget) as Hcap.
    pose proof (built_coherent config ops id m Hget) as Hco.
    rewrite length_map.
    split; [exact Hcur|].
    split; [rewrite map_map; exact Hnumbers|].
    split; [lia|].
    split; [unfold capped, limit in Hcap; lia|].
    split.
    + rewrite Hcur. destruct (Mission.attempts m) as [|a l] using rev_ind.
      * split; reflexivity.
      * rewrite last_snoc, length_app. simpl. split; [discriminate|lia].
    + intros Hstate. unfold coherent in Hco. rewrite Hstate in Hco.
      destruct Hco as (_ & Hsuccess & a & Hlast & Hpassed).
      exists (Attempt.validationResult a). rewrite Hlast. auto.
  - split.
    { split; [eauto|reflexivity]. }
    intros status history. discriminate.
Qed.

Lemma length_take (n : N) (s : string) :
  Str.length (Str.take n s) = N.min n (Str.length s).
Proof.
  revert n. induction s as [|c r IH]; intros n; simpl; [lia|].
  destruct (N.eqb_spec n 0) as [->|Hn]; simpl; [lia|].
  rewrite IH. lia.
Qed.

Lemma length_append (a b : string) :
  Str.length (a +:+ b) = (Str.length a + Str.length b)%N.
Proof.
  induction a as [|c r IH]; simpl; [reflexivity|]. rewrite IH. lia.
Qed.

(** X18.  The output stored with an attempt is the output itself when it
    has at most 1 MiB of code units; otherwise it is its first 1 MiB
    followed by the mark of truncation.  It never has more than 1 MiB and
    16 code units. *)
Theorem stored_output_is_bounded (output : string) :
  (Str.length (SubmitAttemptTool.storedOutput output)
   <= SubmitAttemptTool.MAX_OUTPUT_LENGTH + 16)%N
  /\ ((Str.length output <= SubmitAttemptTool.MAX_OUTPUT_LENGTH)%N ->
      SubmitAttemptTool.storedOutput output = output)
  /\ ((SubmitAttemptTool.MAX_OUTPUT_LENGTH < Str.length output)%N ->
      exists mark,
        SubmitAttemptTool.storedOutput output
        = Str.take SubmitAttemptTool.MAX_OUTPUT_LENGTH output +:+ mark
        /\ Str.length mark = 16%N
        /\ Str.length (Str.take SubmitAttemptTool.MAX_OUTPUT_LENGTH output)
           = SubmitAttemptTool.MAX_OUTPUT_LENGTH).
Proof.
  unfold SubmitAttemptTool.storedOutput.
  destruct (N.ltb_spec SubmitAttemptTool.MAX_OUTPUT_LENGTH (Str.length output))
    as [Hlong|Hshort].
  - split; [|split].
    + rewrite length_append, length_take.
      change (Str.length (String (ascii_of_N 10) "... (truncated)")) with 16%N.
      lia.
    + lia.
    + intros _. eexists. split; [reflexivity|]. split; [reflexivity|].
      rewrite length_take. lia.
  - split; [lia|]. split; [reflexivity|]. lia.
Qed.
End StatusFacts.

Section StatusExamples.
#[local] Existing Instance Example.runtime.

(** X17 at the store of [Example.completingOperations]. *)
Lemma status_reports_the_mission_witness :
  exists status history,
    GetMissionStatusTool.execute
      (run (StateManager.new Example.config) Example.completingOperations) "m1"
    = GetMissionStatusTool.Status status history
    /\ GetMissionStatusTool.currentAttempt status = Z.of_nat (List.length history)
    /\ GetMissionStatusTool.currentAttempt status
       + GetMissionStatusTool.attemptsRemaining status
       = GetMissionStatusTool.maxAttempts status.
Proof.
  destruct (GetMissionStatusTool.execute
              (run (StateManager.new Example.config) Example.completingOperations)
              "m1") as [status history|e] eqn:Hexec.
  - destruct (status_reports_the_mission Example.config
                Example.completingOperations "m1") as [_ Hstatus].
    destruct (Hstatus status history Hexec) as (Hcur & _ & Hsum & _).
    exists status, history. split; [reflexivity|]. split; assumption.
  - exfalso. revert Hexec. vm_compute. discriminate.
Defined.

(** X18 at a short output. *)
Lemma stored_output_is_bounded_witness :
  SubmitAttemptTool.storedOutput "measured" = "measured".
Proof.
  apply (stored_output_is_bounded "measured").
  vm_compute. discriminate.
Defined.
End StatusExamples.

(** ** The store: adding, deleting and sweeping missions *)

Section StoreFacts.
Import StateManager.

Lemma config_debouncedSave (sm : t) : config (debouncedSave sm) = config sm.
Proof.
  unfold debouncedSave. destruct (negb _ || _); reflexivity.
Qed.

Lemma shutdown_debouncedSave (sm : t) :
  isShuttingDown (debouncedSave sm) = isShuttingDown sm.
Proof.
  unfold debouncedSave. destruct (negb _ || _); reflexivity.
Qed.

(** X19.  A mission whose identifier the store does not hold can be added;
    it is then what [getMission] returns for the identifier, the store is
    one mission larger, and adding it again throws [MissionExistsError].
    Deleting it gives back the missions that the store held before, and
    deleting it once more throws.  With persistence enabled and no shutdown
    under way, the store is then marked for saving. *)
Theorem add_then_delete (sm : t) (mission : Mission.t) :
  let id := MissionConfig.id (Mission.config mission) in
  missions sm !! id = None ->
  exists sm1 sm2,
    addMission sm mission = Ok sm1
    /\ getMission sm1 id = Ok mission
    /\ size sm1 = size sm + 1
    /\ (forall k, k <> id -> missions sm1 !! k = missions sm !! k)
    /\ addMission sm1 mission = Throw (MissionExistsError id)
    /\ deleteMission sm1 id = Ok sm2
    /\ missions sm2 = missions sm
    /\ (exists e, deleteMission sm2 id = Throw e)
    /\ (StateConfig.enablePersistence (config sm) = true ->
        isShuttingDown sm = false ->
        isDirty sm1 = true /\ isDirty sm2 = true).
Proof.
  intros id Hfree. unfold addMission. fold id. rewrite Hfree.
  eexists. eexists. split; [reflexivity|].
  assert (Hheld : missions (debouncedSave (set_missions (<[id:=mission]> (missions sm)) sm))
                  !! id = Some mission).
  { rewrite missions_debouncedSave. simpl. apply lookup_insert_eq. }
  split.
  { unfold getMission. rewrite Hheld. reflexivity. }
  split.
  { unfold size. rewrite missions_debouncedSave. simpl.
    rewrite map_size_insert_None by exact Hfree. lia. }
  split.
  { intros k Hk. rewrite missions_debouncedSave. simpl.
    apply lookup_insert_ne. congruence. }
  split.
  { rewrite Hheld. reflexivity. }
  unfold deleteMission at 1. rewrite Hheld.
  split; [reflexivity|].
  assert (Hback : missions
                    (debouncedSave
                       (set_missions
                          (delete id
                             (missions
                                (debouncedSave
                                   (set_missions (<[id:=mission]> (missions sm)) sm))))
                          (debouncedSave
                             (set_missions (<[id:=mission]> (missions sm)) sm))))
                  = missions sm).
  { rewrite missions_debouncedSave. simpl. rewrite missions_debouncedSave. simpl.
    rewrite delete_insert_eq. apply delete_id. exact Hfree. }
  split; [exact Hback|].
  split.
  { unfold deleteMission. rewrite Hback, Hfree. eauto. }
  intros Henabled Hrunning. split.
  - apply dirty_debouncedSave; assumption.
  - apply dirty_debouncedSave; simpl.
    + rewrite config_debouncedSave. exact Henabled.
    + rewrite shutdown_debouncedSave. exact Hrunning.
Qed.

Lemma deleteMission_held (sm : t) (k : string) (m : Mission.t) :
  missions sm !! k = Some m ->
  exists sm',
    deleteMission sm k = Ok sm'
    /\ missions sm' = delete k (missions sm)
    /\ config sm' = config sm.
Proof.
  intros Hget. unfold deleteMission. rewrite Hget.
  eexists. split; [reflexivity|].
  rewrite missions_debouncedSave, config_debouncedSave. auto.
Qed.

(** The loop of [cleanupOldMissions] over entries that the store holds
    under their own identifiers. *)
Lemma cleanup_fold (now : Z) (l : list (string * Mission.t)) :
  forall (sm : t) (n : Z),
    NoDup l.*1 ->
    (forall k m, (k, m) ∈ l ->
       missions sm !! k = Some m /\ MissionConfig.id (Mission.config m) = k) ->
    exists sm',
      foldl (cleanupVisit now) (Ok (sm, n)) l = Ok (sm', n + (size sm - size sm'))
      /\ config sm' = config sm
      /\ (forall k, k ∉ l.*1 -> missions sm' !! k = missions sm !! k)
      /\ (forall k m, (k, m) ∈ l ->
            missions sm' !! k
            = if shouldDelete (config sm) now m then None else Some m).
Proof.
  induction l as [|[k0 m0] l IH]; intros sm n Hnodup Hheld.
  - exists sm. simpl. split; [f_equal; f_equal; lia|].
    split; [reflexivity|]. split; [reflexivity|].
    intros k m Hin. inversion Hin.
  - apply NoDup_cons in Hnodup as [Hfresh Hnodup].
    destruct (Hheld k0 m0) as [Hget Hid]; [left|].
    cbn [foldl]. unfold cleanupVisit at 2. cbn [bind fst snd].
    rewrite Hget.
    destruct (shouldDelete (config sm) now m0) eqn:Hold.
    + rewrite Hid.
      destruct (deleteMission_held sm k0 m0 Hget) as (sm1 & -> & Hm1 & Hc1).
      cbn [bind].
      destruct (IH sm1 (n + 1)) as (sm' & Hfold & Hc & Hout & Hin);
        [exact Hnodup| |].
      { intros k m Hkm. destruct (Hheld k m) as [Hk Hidk]; [right; exact Hkm|].
        split; [|exact Hidk].
        rewrite Hm1, lookup_delete_ne; [exact Hk|].
        intros <-. apply Hfresh. apply list_elem_of_fmap. exists (k0, m). auto. }
      exists sm'. rewrite Hfold.
      split.
      { f_equal. f_equal. unfold size. rewrite Hm1.
        rewrite map_size_delete_Some by eauto.
        assert (base.size (missions sm) <> 0%nat).
        { intros Hz. apply map_size_empty_inv in Hz. rewrite Hz in Hget.
          rewrite lookup_empty in Hget. discriminate. }
        lia. }
      split; [congruence|].
      split.
      { intros k Hk. rewrite Hout.
        - rewrite Hm1. apply lookup_delete_ne. intros <-. apply Hk. left.
        - intros Hkl. apply Hk. right. exact Hkl. }
      intros k m [[= -> ->]|Hkm]%elem_of_cons.
      * rewrite Hold, Hout by exact Hfresh. rewrite Hm1. apply lookup_delete_eq.
      * rewrite (Hin k m Hkm), Hc1. reflexivity.
    + destruct (IH sm n) as (sm' & Hfold & Hc & Hout & Hin);
        [exact Hnodup| |].
      { intros k m Hkm. apply Hheld. right. exact Hkm. }
      exists sm'. rewrite Hfold.
      split; [reflexivity|]. split; [exact Hc|].
      split.
      { intros k Hk. apply Hout. intros Hkl. apply Hk. right. exact Hkl. }
      intros k m [[= -> ->]|Hkm]%elem_of_cons.
      * rewrite Hold, Hout by exact Hfresh. exact Hget.
      * apply Hin. exact Hkm.
Qed.

(** X20.  In a store that holds every mission under its own identifier,
    [cleanupOldMissions] returns; it removes exactly the COMPLETED and
    FAILED missions whose [completedAt] is a time value more than the
    retention days of their state before the time of the call, and returns
    their number.  A mission that is IN_PROGRESS or ABORTED, or that has no
    [completedAt], is never removed. *)
Theorem cleanup_removes_old_finished_missions (sm : t) (clock : Clock) :
  keyed sm ->
  exists sm',
    cleanupOldMissions sm clock = Ok (sm', size sm - size sm')
    /\ 0 <= size sm - size sm'
    /\ (forall k m,
          missions sm' !! k = Some m <->
          missions sm !! k = Some m
          /\ shouldDelete (config sm) (clock 0%nat) m = false)
    /\ (forall k m,
          missions sm !! k = Some m ->
          missions sm' !! k = None <->
          exists t,
            Mission.completedAt m = Some (TimeValue t)
            /\ (Mission.state m = COMPLETED
                /\ StateConfig.completedRetentionDays (config sm) * MS_PER_DAY
                   < clock 0%nat - t
                \/ Mission.state m = FAILED
                   /\ StateConfig.failedRetentionDays (config sm) * MS_PER_DAY
                      < clock 0%nat - t)).
Proof.
  intros Hkeyed. unfold cleanupOldMissions.
  destruct (cleanup_fold (clock 0%nat) (map_to_list (missions sm)) sm 0)
    as (sm' & Hfold & Hc & Hout & Hin).
  { apply NoDup_fst_map_to_list. }
  { intros k m Hkm%elem_of_map_to_list. split; [exact Hkm|].
    apply (Hkeyed k m Hkm). }
  assert (Hlookup : forall k,
            missions sm' !! k
            = match missions sm !! k with
              | Some m =>
                  if shouldDelete (config sm) (clock 0%nat) m then None else Some m
              | None => None
              end).
  { intros k. destruct (missions sm !! k) as [m|] eqn:Hget.
    - apply Hin. apply elem_of_map_to_list. exact Hget.
    - rewrite Hout; [exact Hget|].
      intros ([k' m] & -> & Hkm%elem_of_map_to_list)%list_elem_of_fmap.
      simpl in Hget. congruence. }
  assert (Hsub : missions sm' ⊆ missions sm).
  { apply map_subseteq_spec. intros k m. rewrite Hlookup.
    destruct (missions sm !! k) as [m0|]; [|discriminate].
    destruct (shouldDelete _ _ m0); [discriminate|auto]. }
  exists sm'. rewrite Hfold.
  split; [f_equal; f_equal; lia|].
  split.
  { unfold size. apply map_subseteq_size in Hsub. lia. }
  split.
  { intros k m. rewrite Hlookup.
    destruct (missions sm !! k) as [m0|]; [|split; [discriminate|intros [[=] _]]].
    destruct (shouldDelete _ _ m0) eqn:Hold.
    - split; [discriminate|]. intros [[= ->] Hkeep]. congruence.
    - split; [intros [= ->]; auto|]. intros [Hm0 _]. exact Hm0. }
  assert (Hage : forall t days,
            olderThan (clock 0%nat) (TimeValue t) days = true <->
            days * MS_PER_DAY < clock 0%nat - t).
  { intros t days. unfold olderThan. rewrite negb_true_iff.
    rewrite <- Bool.not_true_iff_false, Qle_bool_iff.
    unfold Qle, Qdiv, Qmult, Qinv, inject_Z, MS_PER_DAY. simpl. lia. }
  intros k m Hget. rewrite Hlookup, Hget. unfold shouldDelete.
  split.
  - destruct (Mission.state m) eqn:Hstate;
      destruct (Mission.completedAt m) as [[t|]|]; try discriminate;
      destruct (olderThan _ _ _) eqn:Hold; try discriminate;
      intros _; exists t; (split; [reflexivity|]); apply Hage in Hold; auto.
  - intros (t & Hdone & [[Hstate Hlt]|[Hstate Hlt]]);
      rewrite Hstate, Hdone; apply Hage in Hlt; rewrite Hlt; reflexivity.
Qed.
End StoreFacts.

(** Replaces a closed term by its value. *)
Ltac evaluated t :=
  let v := eval vm_compute in t in
  replace t with v by (vm_compute; reflexivity).

Section StoreExamples.
#[local] Existing Instance Example.runtime.

(** X19 at the store with the mission [m1] and a mission with the empty
    identifier. *)
Lemma add_then_delete_witness :
  exists sm1 sm2,
    StateManager.addMission (Example.defined 3) Example.blank = Ok sm1
    /\ StateManager.deleteMission sm1 EmptyString = Ok sm2
    /\ StateManager.missions sm2 = StateManager.missions (Example.defined 3).
Proof.
  destruct (add_then_delete (Example.defined 3) Example.blank)
    as (sm1 & sm2 & Hadd & _ & _ & _ & _ & Hdelete & Hback & _).
  { vm_compute. reflexivity. }
  exists sm1, sm2. split; [exact Hadd|]. split; [exact Hdelete | exact Hback].
Defined.

Lemma completed_is_old (m : Mission.t) :
  StateManager.missions
    (run (StateManager.new Example.config) Example.completingOperations) !! "m1"
  = Some m ->
  StateManager.shouldDelete Example.config 3000000000 m = true.
Proof.
  evaluated (StateManager.missions
               (run (StateManager.new Example.config) Example.completingOperations)
             !! "m1").
  intros [= <-]. vm_compute. reflexivity.
Qed.

(** X20 at the store of [Example.completingOperations], swept more than 30
    days after the mission completed. *)
Lemma cleanup_removes_old_finished_missions_witness :
  let sm := run (StateManager.new Example.config) Example.completingOperations in
  exists sm',
    StateManager.cleanupOldMissions sm (Example.clockFrom 3000000000)
    = Ok (sm', StateManager.size sm - StateManager.size sm')
    /\ StateManager.missions sm' !! "m1" = None.
Proof.
  intros sm.
  destruct (cleanup_removes_old_finished_missions sm (Example.clockFrom 3000000000))
    as (sm' & Hsweep & _ & Hkept & _).
  { destruct (run_sound Example.completingOperations _
                (sound_new Example.config)) as [[Hkeyed _] _].
    exact Hkeyed. }
  exists sm'. split; [exact Hsweep|].
  destruct (StateManager.missions sm' !! "m1") as [m|] eqn:Hget; [|reflexivity].
  apply Hkept in Hget as [Hheld Hyoung].
  apply completed_is_old in Hheld.
  change (StateManager.config sm) with Example.config in Hyoung.
  change (Example.clockFrom 3000000000 0%nat) with 3000000000 in Hyoung.
  congruence.
Defined.
End StoreExamples.

(** ** Persistence: saving, loading and shutting down *)

Section PersistenceFacts.
Context `{Runtime}.
Import StateManager.

(** The snapshot of a store whose timestamps are all time values, read
    back. *)
Lemma serializeState_valid (sm : t) (clock : Clock) :
  isoCodec ->
  validStore sm ->
  exists snapshot,
    serializeState sm clock = Ok snapshot
    /\ SerializedState.timestamp snapshot = toISOString (clock 0%nat)
    /\ restore deserializeMission (SerializedState.missions snapshot)
       = missions sm
    /\ restore deserializeCheckpoint (SerializedState.checkpoints snapshot)
       = checkpoints sm.
Proof.
  intros codec [Hmissions Hcheckpoints].
  destruct (entries_roundtrip serializeMission deserializeMission (missions sm))
    as (ms & Hms & Hmback).
  { intros k m Hget. exact (mission_roundtrip codec m (Hmissions k m Hget)). }
  destruct (entries_roundtrip serializeCheckpoint deserializeCheckpoint
              (checkpoints sm)) as (cs & Hcs & Hcback).
  { intros k c Hget. exact (checkpoint_roundtrip codec c (Hcheckpoints k c Hget)). }
  unfold serializeState. rewrite Hms. simpl. rewrite Hcs. simpl.
  eexists. split; [reflexivity|]. simpl. auto.
Qed.

(** [loadState] and [create] on a directory whose canonical file holds a
    snapshot. *)
Lemma loadState_snapshot (sm : t) (dir : Fs.Dir) (doc : SerializedState.t) :
  Fs.stateFile dir = Some (Fs.Json doc) ->
  loadState sm dir = (deserializeState sm doc, Ok tt).
Proof.
  intros Hfile. unfold loadState, tryLoadStateFile. simpl.
  rewrite Hfile. reflexivity.
Qed.


(** X21.  A store whose timestamps are all time values is saved without an
    error into a directory whose temporary and canonical files can be
    written, and is then clean.  A manager created afterwards on the
    directory, with persistence enabled, holds the same missions and the
    same checkpoints; it is clean and its [lastSaved] is the time of the
    snapshot. *)
Theorem saved_store_is_reloaded (sm : t) (dir : Fs.Dir) (clock : Clock)
    (config' : StateConfig.t) :
  isoCodec ->
  validStore sm ->
  validTime (clock 0%nat) ->
  StateConfig.enablePersistence config' = true ->
  Fs.refusal dir Fs.STATE_TEMP = None ->
  Fs.refusal dir Fs.STATE_FILE = None ->
  exists sm' dir',
    saveState sm dir clock = (sm', dir', Ok tt)
    /\ missions sm' = missions sm
    /\ isDirty sm' = false
    /\ missions (create config' dir') = missions sm
    /\ checkpoints (create config' dir') = checkpoints sm
    /\ lastSaved (create config' dir') = Some (TimeValue (clock 0%nat))
    /\ isDirty (create config' dir') = false.
Proof.
  intros codec Hvalid Htime Henabled Htemp Hcanonical.
  destruct (serializeState_valid sm clock codec Hvalid)
    as (snapshot & Hser & Hstamp & Hmissions & Hcheckpoints).
  destruct (saveState_serialized sm dir clock snapshot Hser Htemp Hcanonical)
    as (sm' & dir' & Hsave & Hm & _ & _ & _ & _ & Hclean & _ & Hfile & _).
  exists sm', dir'. split; [exact Hsave|]. split; [exact Hm|].
  split; [exact Hclean|].
  unfold create, initializePersistence. rewrite Henabled.
  rewrite (loadState_snapshot _ _ _ Hfile). simpl.
  rewrite Hmissions, Hcheckpoints, Hstamp.
  destruct (codec _ Htime) as [-> _]. auto.
Qed.



Lemma mapM_throws {A B : Type} (f : A -> Result B) (l : list A) (a : A)
    (e : Error) :
  a ∈ l ->
  f a = Throw e ->
  exists a' e', a' ∈ l /\ f a' = Throw e' /\ mapM f l = Throw e'.
Proof.
  intros Hin Hthrow. induction l as [|b l IH]; [inversion Hin|].
  simpl. destruct (f b) as [x|e0] eqn:Hb.
  - apply elem_of_cons in Hin as [->|Hin]; [congruence|].
    destruct (IH Hin) as (a' & e' & Ha' & Hf & ->).
    exists a', e'. simpl. split; [right; exact Ha'|auto].
  - exists b, e0. simpl. split; [left|auto].
Qed.

Lemma mapM_thrown {A B : Type} (f : A -> Result B) (l : list A) (e : Error) :
  mapM f l = Throw e -> exists a, a ∈ l /\ f a = Throw e.
Proof.
  induction l as [|b l IH]; simpl; [discriminate|].
  destruct (f b) as [x|e0] eqn:Hb; simpl.
  - destruct (mapM f l) as [xs|e1]; simpl; [discriminate|].
    intros [= <-]. destruct (IH eq_refl) as (a & Ha & Hf).
    exists a. split; [right; exact Ha | exact Hf].
  - intros [= <-]. exists b. split; [left | exact Hb].
Qed.

Lemma dateToISOString_thrown (d : Date) (e : Error) :
  dateToISOString d = Throw e -> e = RangeError "Invalid time value".
Proof.
  destruct d; simpl; [discriminate|]. intros [= <-]. reflexivity.
Qed.

Lemma serializeAttempt_thrown (a : Attempt.t) (e : Error) :
  serializeAttempt a = Throw e -> e = RangeError "Invalid time value".
Proof.
  unfold serializeAttempt.
  destruct (dateToISOString (Attempt.timestamp a)) eqn:H1; simpl;
    [|intros [= <-]; exact (dateToISOString_thrown _ _ H1)].
  destruct (dateToISOString _) eqn:H2 in |- *; simpl; [discriminate|].
  intros [= <-]. exact (dateToISOString_thrown _ _ H2).
Qed.

Lemma serializeMission_thrown (m : Mission.t) (e : Error) :
  serializeMission m = Throw e -> e = RangeError "Invalid time value".
Proof.
  unfold serializeMission.
  destruct (dateToISOString (Mission.createdAt m)) eqn:H1; simpl;
    [|intros [= <-]; exact (dateToISOString_thrown _ _ H1)].
  destruct (dateToISOString (Mission.updatedAt m)) eqn:H2; simpl;
    [|intros [= <-]; exact (dateToISOString_thrown _ _ H2)].
  destruct (mapM serializeAttempt (Mission.attempts m)) eqn:H3; simpl.
  - destruct (Mission.completedAt m) as [d|]; simpl; [|discriminate].
    destruct (dateToISOString d) eqn:H4; simpl; [discriminate|].
    intros [= <-]. exact (dateToISOString_thrown _ _ H4).
  - intros [= <-]. apply mapM_thrown in H3 as (attempt & _ & Hattempt).
    exact (serializeAttempt_thrown _ _ Hattempt).
Qed.

Lemma serializeCheckpoint_thrown (c : Checkpoint.t) (e : Error) :
  serializeCheckpoint c = Throw e -> e = RangeError "Invalid time value".
Proof.
  unfold serializeCheckpoint.
  destruct (dateToISOString (Checkpoint.timestamp c)) eqn:H1; simpl;
    [|intros [= <-]; exact (dateToISOString_thrown _ _ H1)].
  destruct (serializeMission (Checkpoint.missionSnapshot c)) eqn:H2; simpl;
    [discriminate|].
  intros [= <-]. exact (serializeMission_thrown _ _ H2).
Qed.

Lemma serializeState_thrown (sm : t) (clock : Clock) (e : Error) :
  serializeState sm clock = Throw e -> e = RangeError "Invalid time value".
Proof.
  unfold serializeState.
  destruct (mapM _ (map_to_list (missions sm))) eqn:H1; simpl.
  - destruct (mapM _ (map_to_list (checkpoints sm))) eqn:H2; simpl;
      [discriminate|].
    intros [= <-]. apply mapM_thrown in H2 as ([k c] & _ & Hc).
    unfold serializeEntry in Hc. simpl in Hc.
    destruct (serializeCheckpoint c) eqn:H3; simpl in Hc; [discriminate|].
    injection Hc as <-. exact (serializeCheckpoint_thrown _ _ H3).
  - intros [= <-]. apply mapM_thrown in H1 as ([k m] & _ & Hm).
    unfold serializeEntry in Hm. simpl in Hm.
    destruct (serializeMission m) eqn:H3; simpl in Hm; [discriminate|].
    injection Hm as <-. exact (serializeMission_thrown _ _ H3).
Qed.

(** X23.  A store that holds a mission with an Invalid Date as [createdAt],
    [updatedAt] or [completedAt] cannot be saved: [saveState] throws the
    StatePersistenceError of the operation [save] with the message of the
    RangeError, writes no file and leaves the store as it is, dirty flag
    included; [forceSave] does the same but for the timer, which it clears. *)
Theorem invalid_date_blocks_saving (sm : t) (dir : Fs.Dir) (clock : Clock)
    (k : string) (m : Mission.t) :
  missions sm !! k = Some m ->
  Mission.createdAt m = InvalidDate
  \/ Mission.updatedAt m = InvalidDate
  \/ Mission.completedAt m = Some InvalidDate ->
  saveState sm dir clock
  = (sm, dir, Throw (StatePersistenceError "save" "Invalid time value"))
  /\ (StateConfig.enablePersistence (config sm) = true ->
      exists sm',
        forceSave sm dir clock
        = (sm', dir, Throw (StatePersistenceError "save" "Invalid time value"))
        /\ missions sm' = missions sm
        /\ isDirty sm' = isDirty sm
        /\ saveTimer sm' = false).
Proof.
  intros Hget Hinvalid.
  assert (Hm : exists e, serializeMission m = Throw e).
  { unfold serializeMission. destruct Hinvalid as [->|[Hu|Hc]].
    - simpl. eauto.
    - destruct (dateToISOString (Mission.createdAt m)); simpl; [|eauto].
      rewrite Hu. simpl. eauto.
    - destruct (dateToISOString (Mission.createdAt m)); simpl; [|eauto].
      destruct (dateToISOString (Mission.updatedAt m)); simpl; [|eauto].
      destruct (mapM serializeAttempt (Mission.attempts m)); simpl; [|eauto].
      rewrite Hc. simpl. eauto. }
  destruct Hm as [e0 Hm].
  assert (Hthrows : forall sm0,
            missions sm0 = missions sm ->
            serializeState sm0 clock = Throw (RangeError "Invalid time value")).
  { intros sm0 Hsame.
    destruct (mapM_throws (serializeEntry serializeMission)
                (map_to_list (missions sm0)) (k, m) e0)
      as (a' & e' & _ & _ & Hmap).
    { apply elem_of_map_to_list. rewrite Hsame. exact Hget. }
    { unfold serializeEntry. simpl. rewrite Hm. reflexivity. }
    destruct (serializeState sm0 clock) as [snapshot|e] eqn:Hser.
    - unfold serializeState in Hser. rewrite Hmap in Hser. discriminate Hser.
    - f_equal. exact (serializeState_thrown _ _ _ Hser). }
  split.
  - unfold saveState. rewrite (Hthrows sm eq_refl). reflexivity.
  - intros Henabled. unfold forceSave. rewrite Henabled. simpl.
    unfold saveState. rewrite Hthrows by reflexivity.
    eexists. split; [reflexivity|]. simpl. auto.
Qed.

(** Whatever its outcome, [saveState] keeps the missions, the checkpoints,
    the configuration and the shutdown flag. *)
Lemma saveState_keeps (sm : t) (dir : Fs.Dir) (clock : Clock) :
  missions (saveState sm dir clock).1.1 = missions sm
  /\ checkpoints (saveState sm dir clock).1.1 = checkpoints sm
  /\ config (saveState sm dir clock).1.1 = config sm
  /\ isShuttingDown (saveState sm dir clock).1.1 = isShuttingDown sm.
Proof.
  unfold saveState.
  destruct (serializeState sm clock) as [snapshot|e]; [|simpl; auto].
  destruct (Fs.writeFile dir Fs.STATE_TEMP (Fs.Json snapshot)) as [d1|e];
    [|simpl; auto].
  destruct (Fs.rename _ Fs.STATE_TEMP Fs.STATE_FILE) as [d3|e]; simpl; auto.
Qed.

(** X24.  The shutdown handler marks the manager as shutting down and keeps
    its missions.  A second run of the handler does nothing, and
    [debouncedSave] no longer marks the store for saving.  When the store
    was clean, or a shutdown was already under way, no file is touched;
    when it was dirty and serializes, and the temporary and the canonical
    file can be written, the canonical file holds its snapshot afterwards
    and the store is clean. *)
Theorem shutdown_is_final (sm : t) (dir : Fs.Dir) (clock : Clock) :
  let after := (shutdown sm dir clock).1 in
  let dir' := (shutdown sm dir clock).2 in
  missions after = missions sm
  /\ (isShuttingDown sm = false -> isShuttingDown after = true)
  /\ (isShuttingDown sm = false ->
      forall dir2 clock2, shutdown after dir2 clock2 = (after, dir2))
  /\ (isShuttingDown sm = false -> debouncedSave after = after)
  /\ (isDirty sm = false \/ isShuttingDown sm = true ->
      dir' = dir /\ isDirty after = isDirty sm)
  /\ forall snapshot,
       isDirty sm = true ->
       isShuttingDown sm = false ->
       serializeState sm clock = Ok snapshot ->
       Fs.refusal dir Fs.STATE_TEMP = None ->
       Fs.refusal dir Fs.STATE_FILE = None ->
       Fs.stateFile dir' = Some (Fs.Json snapshot) /\ isDirty after = false.
Proof.
  unfold shutdown.
  destruct (isShuttingDown sm) eqn:Hdown; simpl.
  { split; [reflexivity|]. do 3 (split; [discriminate|]).
    split; [auto|]. discriminate. }
  destruct (isDirty sm) eqn:Hdirty; simpl.
  - unfold saveStateSync. cbn [missions checkpoints config lastSaved isDirty
                               isShuttingDown].
    set (armed := {| missions := missions sm; checkpoints := checkpoints sm;
                     config := config sm; lastSaved := lastSaved sm;
                     saveTimer := false; isDirty := true;
                     isShuttingDown := true |}).
    destruct (saveState_keeps armed dir clock) as (Hm & _ & _ & Hs).
    change (missions armed) with (missions sm) in Hm.
    change (isShuttingDown armed) with true in Hs.
    split; [exact Hm|]. split; [intros _; exact Hs|].
    split; [intros _ dir2 clock2; rewrite Hs; reflexivity|].
    split; [intros _; unfold debouncedSave; rewrite Hs, orb_true_r;
            reflexivity|].
    split; [intros [[=]|[=]]|].
    intros snapshot _ _ Hser Htemp Hcanonical.
    destruct (saveState_serialized armed dir clock snapshot Hser Htemp Hcanonical)
      as (sm' & dir' & -> & _ & _ & _ & _ & _ & Hclean & _ & Hfile & _).
    simpl. auto.
  - split; [reflexivity|]. split; [auto|].
    split; [reflexivity|].
    split; [intros _; unfold debouncedSave; simpl;
            rewrite orb_true_r; reflexivity|].
    split; [auto|]. discriminate.
Qed.
End PersistenceFacts.

Section PersistenceExamples.
#[local] Existing Instance Example.runtime.

(** X21 at [Example.completedStore], saved at time 9000 into an empty
    directory. *)
Lemma saved_store_is_reloaded_witness :
  exists sm' dir',
    StateManager.saveState Example.completedStore Example.emptyDir
      (Example.clockFrom 9000) = (sm', dir', Ok tt)
    /\ StateManager.missions (StateManager.create Example.config dir')
       = StateManager.missions Example.completedStore.
Proof.
  destruct (saved_store_is_reloaded Example.completedStore Example.emptyDir
              (Example.clockFrom 9000) Example.config)
    as (sm' & dir' & Hsave & _ & _ & Hmissions & _).
  - exact example_codec.
  - exact completedStore_valid.
  - unfold validTime, Example.clockFrom. simpl. lia.
  - reflexivity.
  - reflexivity.
  - reflexivity.
  - exists sm', dir'. split; [exact Hsave | exact Hmissions].
Defined.


(** X23 at a store that holds [Example.blank], whose [createdAt] is an
    Invalid Date. *)
Lemma invalid_date_blocks_saving_witness :
  let sm := StateManager.assign (StateManager.new Example.config) "bad" Example.blank in
  StateManager.saveState sm Example.emptyDir (Example.clockFrom 9000)
  = (sm, Example.emptyDir,
     Throw (StatePersistenceError "save" "Invalid time value")).
Proof.
  intros sm.
  apply (invalid_date_blocks_saving sm Example.emptyDir (Example.clockFrom 9000)
           "bad" Example.blank).
  - apply lookup_insert_eq.
  - left. reflexivity.
Defined.

(** X24 at the store in which a mission has just been defined. *)
Lemma shutdown_is_final_witness :
  let after :=
    (StateManager.shutdown (Example.defined 3) Example.emptyDir
       (Example.clockFrom 9000)).1 in
  StateManager.isShuttingDown after = true
  /\ StateManager.debouncedSave after = after.
Proof.
  intros after.
  destruct (shutdown_is_final (Example.defined 3) Example.emptyDir
              (Example.clockFrom 9000)) as (_ & Hdown & _ & Hquiet & _).
  split; [apply Hdown | apply Hquiet]; reflexivity.
Defined.

End PersistenceExamples.
